(** * Dragonfly: Sentinel-2 NBR / dNBR processing

    A shallow embedding of [src/dragonfly/processing.py], the overlay
    entry point of [src/dragonfly/viz.py] and the statistics of
    [src/dragonfly/pipeline.py], followed by the properties of the
    specification that concern them.

    Numeric convention.  A pixel is an IEEE-754 binary float.  The embedding
    keeps the special values (NaN, +Inf, -Inf) and represents a finite
    float by the rational number it denotes; arithmetic between finite
    values is exact, so rounding, overflow and the sign of zero are outside
    the model.  Every comparison and every special-value rule follows
    IEEE-754 as NumPy applies it. *)

From Stdlib Require Import Ascii String QArith Qround ZArith Bool Arith List Sorted Lia Lqa.
Import ListNotations.

(** ** Floating-point values *)

Module Float.

Inductive npfloat : Type :=
| NaN
| PInf
| NInf
| Fin (q : Q).

Definition Qltb (a b : Q) : bool := negb (Qle_bool b a).

Definition isnan (x : npfloat) : bool :=
  match x with NaN => true | _ => false end.

Definition isfinite (x : npfloat) : bool :=
  match x with Fin _ => true | _ => false end.

Definition isinf (x : npfloat) : bool :=
  match x with PInf | NInf => true | _ => false end.

(** [x < y]; false as soon as one side is NaN. *)
Definition fl_lt (x y : npfloat) : bool :=
  match x, y with
  | NaN, _ | _, NaN => false
  | _, NInf => false
  | NInf, _ => true
  | PInf, _ => false
  | Fin _, PInf => true
  | Fin a, Fin b => Qltb a b
  end.

(** [x <= y]; false as soon as one side is NaN. *)
Definition fl_le (x y : npfloat) : bool :=
  match x, y with
  | NaN, _ | _, NaN => false
  | NInf, _ => true
  | _, PInf => true
  | _, NInf => false
  | PInf, _ => false
  | Fin a, Fin b => Qle_bool a b
  end.

Definition fl_gt (x y : npfloat) : bool := fl_lt y x.
Definition fl_ge (x y : npfloat) : bool := fl_le y x.

(** [x == y] of IEEE-754: NaN differs from everything, itself included. *)
Definition fl_eq (x y : npfloat) : bool :=
  match x, y with
  | PInf, PInf | NInf, NInf => true
  | Fin a, Fin b => Qeq_bool a b
  | _, _ => false
  end.

Definition fl_neg (x : npfloat) : npfloat :=
  match x with
  | NaN => NaN
  | PInf => NInf
  | NInf => PInf
  | Fin q => Fin (- q)
  end.

Definition fl_add (x y : npfloat) : npfloat :=
  match x, y with
  | NaN, _ | _, NaN => NaN
  | PInf, NInf | NInf, PInf => NaN
  | PInf, _ | _, PInf => PInf
  | NInf, _ | _, NInf => NInf
  | Fin a, Fin b => Fin (a + b)
  end.

Definition fl_sub (x y : npfloat) : npfloat :=
  match x, y with
  | NaN, _ | _, NaN => NaN
  | PInf, PInf | NInf, NInf => NaN
  | PInf, _ | _, NInf => PInf
  | NInf, _ | _, PInf => NInf
  | Fin a, Fin b => Fin (a - b)
  end.

(** The sign of an infinite product or quotient: [true] when negative. *)
Definition Qneg (q : Q) : bool := Qltb q 0.

Definition inf_of_sign (negative : bool) : npfloat :=
  if negative then NInf else PInf.

Definition fl_mul (x y : npfloat) : npfloat :=
  match x, y with
  | NaN, _ | _, NaN => NaN
  | PInf, PInf | NInf, NInf => PInf
  | PInf, NInf | NInf, PInf => NInf
  | PInf, Fin b | Fin b, PInf =>
      if Qeq_bool b 0 then NaN else inf_of_sign (Qneg b)
  | NInf, Fin b | Fin b, NInf =>
      if Qeq_bool b 0 then NaN else inf_of_sign (negb (Qneg b))
  | Fin a, Fin b => Fin (a * b)
  end.

(** Division with the error state ignored, as under
    [np.errstate(divide="ignore", invalid="ignore")]: [0/0] and [Inf/Inf]
    are NaN, a non-zero value over zero is an infinity. *)
Definition fl_div (x y : npfloat) : npfloat :=
  match x, y with
  | NaN, _ | _, NaN => NaN
  | (PInf | NInf), (PInf | NInf) => NaN
  | PInf, Fin b => inf_of_sign (Qneg b)
  | NInf, Fin b => inf_of_sign (negb (Qneg b))
  | Fin _, (PInf | NInf) => Fin 0
  | Fin a, Fin b =>
      if Qeq_bool b 0
      then (if Qeq_bool a 0 then NaN else inf_of_sign (Qneg a))
      else Fin (a / b)
  end.

(** [np.maximum] and [np.minimum]: NaN wins over every number. *)
Definition fl_maximum (x y : npfloat) : npfloat :=
  match x, y with
  | NaN, _ | _, NaN => NaN
  | _, _ => if fl_lt x y then y else x
  end.

Definition fl_minimum (x y : npfloat) : npfloat :=
  match x, y with
  | NaN, _ | _, NaN => NaN
  | _, _ => if fl_lt y x then y else x
  end.

(** Equality of two results that treats NaN as equal to NaN and compares
    finite values as numbers ([np.testing.assert_array_equal]). *)
Definition nan_equal (x y : npfloat) : Prop :=
  match x, y with
  | NaN, NaN | PInf, PInf | NInf, NInf => True
  | Fin a, Fin b => a == b
  | _, _ => False
  end.

End Float.
Export Float.

(** ** Two-dimensional arrays *)

Module Numpy.

(** A raster is a two-dimensional [ndarray]: its shape and its elements in
    row-major order. *)
Record ndarray (A : Type) : Type := mkArr {
  shape : nat * nat;
  data : list A
}.
Arguments mkArr {A} _ _.
Arguments shape {A} _.
Arguments data {A} _.

Definition nrows {A} (a : ndarray A) : nat := fst (shape a).
Definition ncols {A} (a : ndarray A) : nat := snd (shape a).
Definition size {A} (a : ndarray A) : nat := (nrows a * ncols a)%nat.

Definition wf {A} (a : ndarray A) : Prop := length (data a) = size a.

(** [a[i, j]] for indices inside the array. *)
Definition getitem {A} (a : ndarray A) (i j : nat) : option A :=
  if ((i <? nrows a) && (j <? ncols a))%nat
  then nth_error (data a) (i * ncols a + j)
  else None.

(** The exceptions of the embedded code.  [ValueError]: operands that
    cannot be broadcast together; [IndexError]: an index outside an array;
    [DanglingRef]: a reference to no object, which Python cannot build. *)
Inductive exception : Type :=
| ValueError
| IndexError
| DanglingRef.

Inductive result (A : Type) : Type :=
| Ok (a : A)
| Raise (e : exception).
Arguments Ok {A} _.
Arguments Raise {A} _.

Definition result_bind {A B} (r : result A) (k : A -> result B) : result B :=
  match r with
  | Ok a => k a
  | Raise e => Raise e
  end.

(** A function that can raise, applied to each element in order. *)
Fixpoint mapM {A B} (f : A -> result B) (xs : list A) : result (list B) :=
  match xs with
  | [] => Ok []
  | x :: xs' =>
      result_bind (f x) (fun y =>
      result_bind (mapM f xs') (fun ys => Ok (y :: ys)))
  end.

(** [np.full(shape, fill_value)] *)
Definition np_full {A} (sh : nat * nat) (v : A) : ndarray A :=
  mkArr sh (repeat v (fst sh * snd sh)).

(** A function applied to every element (unary ufuncs, comparisons with a
    scalar): the shape is kept. *)
Definition np_map {A B} (f : A -> B) (a : ndarray A) : ndarray B :=
  mkArr (shape a) (map f (data a)).

(** Broadcasting of one dimension: equal lengths, or one of them 1. *)
Definition broadcast_dim (n m : nat) : option nat :=
  if (n =? m)%nat then Some n
  else if (n =? 1)%nat then Some m
  else if (m =? 1)%nat then Some n
  else None.

(** Two lengths that broadcasting accepts in one dimension. *)
Definition broadcast_compatible (n m : nat) : Prop :=
  n = m \/ n = 1%nat \/ m = 1%nat.

(** The index read in a dimension of length [n] for the output index [i]. *)
Definition bidx (n i : nat) : nat := if (n =? 1)%nat then 0%nat else i.

(** The elements [g i j] for [i < r] and [j < c], in row-major order. *)
Definition tabulate {C} (g : nat -> nat -> C) (c r : nat) : list C :=
  flat_map (fun i => map (g i) (seq 0 c)) (seq 0 r).

(** A binary ufunc on two 2-D arrays: the operands are broadcast against
    each other, and shapes that cannot be broadcast raise [ValueError]. *)
Definition broadcast2 {A B C} (dA : A) (dB : B) (f : A -> B -> C)
    (a : ndarray A) (b : ndarray B) : result (ndarray C) :=
  match broadcast_dim (nrows a) (nrows b), broadcast_dim (ncols a) (ncols b) with
  | Some r, Some c =>
      Ok (mkArr (r, c)
            (tabulate
               (fun i j =>
                  f (nth (bidx (nrows a) i * ncols a + bidx (ncols a) j)
                         (data a) dA)
                    (nth (bidx (nrows b) i * ncols b + bidx (ncols b) j)
                         (data b) dB))
               c r))
  | _, _ => Raise ValueError
  end.

(** [arr[mask] = v] for a boolean mask of the shape of [arr]. *)
Fixpoint masked_fill {A} (xs : list A) (ms : list bool) (v : A) : list A :=
  match xs, ms with
  | x :: xs', m :: ms' => (if m then v else x) :: masked_fill xs' ms' v
  | _, _ => xs
  end.

Definition setitem_mask {A} (arr : ndarray A) (mask : ndarray bool) (v : A)
  : ndarray A :=
  mkArr (shape arr) (masked_fill (data arr) (data mask) v).

(** [enumerate(xs)] *)
Definition enumerate {A} (xs : list A) : list (nat * A) :=
  combine (seq 0 (length xs)) xs.

(** [xs[i]] with an integer index: a negative index counts from the end,
    an index outside [-len, len) raises [IndexError]. *)
Definition take {A} (xs : list A) (i : Z) : result A :=
  let n := Z.of_nat (length xs) in
  let k := if (i <? 0)%Z then (i + n)%Z else i in
  if ((0 <=? k) && (k <? n))%Z
  then match nth_error xs (Z.to_nat k) with
       | Some x => Ok x
       | None => Raise IndexError
       end
  else Raise IndexError.

(** *** Arrays as objects

    An array handed to a function is a reference to an object that the
    function may write into.  The store lists the live arrays; a reference
    is a position in it, and a new array goes to the end. *)
Section Store.
Variable E : Type.

Definition ref : Type := nat.
Definition store : Type := list (ndarray E).
Definition M (A : Type) : Type := store -> result (A * store).

Definition ret {A} (a : A) : M A := fun h => Ok (a, h).

Definition bind {A B} (m : M A) (k : A -> M B) : M B :=
  fun h => match m h with
           | Ok (a, h') => k a h'
           | Raise e => Raise e
           end.

Definition lift {A} (r : result A) : M A :=
  fun h => match r with
           | Ok a => Ok (a, h)
           | Raise e => Raise e
           end.

(** A fresh array object. *)
Definition new (a : ndarray E) : M ref :=
  fun h => Ok (length h, h ++ [a]).

(** The array behind a reference. *)
Definition deref (r : ref) : M (ndarray E) :=
  fun h => match nth_error h r with
           | Some a => Ok (a, h)
           | None => Raise DanglingRef
           end.

Fixpoint replace_nth (h : store) (r : ref) (a : ndarray E) : store :=
  match h, r with
  | [], _ => []
  | _ :: t, O => a :: t
  | x :: t, S r' => x :: replace_nth t r' a
  end.

(** A write into the object behind a reference. *)
Definition assign (r : ref) (a : ndarray E) : M unit :=
  fun h => match nth_error h r with
           | Some _ => Ok (tt, replace_nth h r a)
           | None => Raise DanglingRef
           end.
End Store.
Arguments ret {E A} _ _.
Arguments bind {E A B} _ _ _.
Arguments lift {E A} _ _.
Arguments new {E} _ _.
Arguments deref {E} _ _.
Arguments assign {E} _ _ _.
Arguments replace_nth {E} _ _ _.

End Numpy.
Export Numpy.

Declare Scope np_scope.
Notation "x <- m ;; k" := (bind m (fun x => k))
  (at level 61, m at next level, right associativity) : np_scope.
Notation "m ;;; k" := (bind m (fun _ => k))
  (at level 61, right associativity) : np_scope.

(** ** processing.py *)

Module Processing.

Open Scope Q_scope.

Record BurnSeverityClass : Type := mkBand {
  name : string;
  dnbr_min : npfloat;
  dnbr_max : npfloat;
  color : Z * Z * Z
}.

Definition BURN_SEVERITY_CLASSES : list BurnSeverityClass :=
  [ mkBand "Enhanced Regrowth" (Fin (-0.500)) (Fin (-0.250)) (26, 152, 80)%Z;
    mkBand "High Regrowth" (Fin (-0.250)) (Fin (-0.100)) (102, 189, 99)%Z;
    mkBand "Unburned" (Fin (-0.100)) (Fin 0.100) (255, 255, 190)%Z;
    mkBand "Low Severity" (Fin 0.100) (Fin 0.270) (253, 174, 97)%Z;
    mkBand "Moderate Severity" (Fin 0.270) (Fin 0.660) (244, 109, 67)%Z;
    mkBand "High Severity" (Fin 0.660) (Fin 1.300) (215, 48, 39)%Z ].

(** The mask of one band: [(dnbr >= dnbr_min) & (dnbr < dnbr_max)]. *)
Definition in_band (severity : BurnSeverityClass) (v : npfloat) : bool :=
  fl_ge v (dnbr_min severity) && fl_lt v (dnbr_max severity).

(** One turn of the loop of [classify_dnbr]: the pixels of the band's mask
    are overwritten with the band's index. *)
Definition classify_step (dnbr : ndarray npfloat) (class_raster : ndarray Z)
    (entry : nat * BurnSeverityClass) : ndarray Z :=
  let mask := np_map (in_band (snd entry)) dnbr in
  setitem_mask class_raster mask (Z.of_nat (fst entry)).

(** The same turn seen at one pixel of value [v] that held [c]: a band that
    contains [v] overwrites it with its index. *)
Definition pixel_step (v : npfloat) (c : Z) (entry : nat * BurnSeverityClass)
  : Z :=
  if in_band (snd entry) v then Z.of_nat (fst entry) else c.

(** [classify_dnbr] over an explicit band table.  The raster is [uint8]:
    the indices of a table of at most 255 bands are stored unchanged and
    stay apart from the fill value 255. *)
Definition classify_with (bands : list BurnSeverityClass)
    (dnbr : ndarray npfloat) : ndarray Z :=
  fold_left (classify_step dnbr) (enumerate bands)
            (np_full (shape dnbr) 255%Z).

Definition classify_dnbr (dnbr : ndarray npfloat) : ndarray Z :=
  classify_with BURN_SEVERITY_CLASSES dnbr.

(** [_safe_divide] and its caller work on array objects: the quotient is
    a new array, and the entries that are not finite are overwritten in
    it. *)
Section OnObjects.
Local Open Scope np_scope.

(** A binary ufunc on two array objects: both are read, and the result
    is a new object. *)
Definition ufunc2 (f : npfloat -> npfloat -> npfloat) (a b : ref)
  : M npfloat ref :=
  x <- deref a ;;
  y <- deref b ;;
  z <- lift (broadcast2 NaN NaN f x y) ;;
  new z.

Definition _safe_divide (numerator denominator : ref) : M npfloat ref :=
  result <- ufunc2 fl_div numerator denominator ;;
  r <- deref result ;;
  assign result
    (setitem_mask r (np_map (fun x => negb (isfinite x)) r) NaN) ;;;
  ret result.

Definition calculate_nbr (nir swir : ref) : M npfloat ref :=
  difference <- ufunc2 fl_sub nir swir ;;
  total <- ufunc2 fl_add nir swir ;;
  _safe_divide difference total.
End OnObjects.

(** [pre_fire_nbr - post_fire_nbr] *)
Definition calculate_dnbr (pre_fire_nbr post_fire_nbr : ndarray npfloat)
  : result (ndarray npfloat) :=
  broadcast2 NaN NaN fl_sub pre_fire_nbr post_fire_nbr.

(** [np.clip(x, lo, hi)] is [np.minimum(np.maximum(x, lo), hi)]. *)
Definition fl_clip (x lo hi : npfloat) : npfloat :=
  fl_minimum (fl_maximum x lo) hi.

(** [np.nan_to_num(x, nan=..., posinf=..., neginf=...)] *)
Definition nan_to_num (nan posinf neginf : npfloat) (x : npfloat) : npfloat :=
  match x with
  | NaN => nan
  | PInf => posinf
  | NInf => neginf
  | Fin _ => x
  end.

Definition normalize_pixel (min_val max_val : npfloat) (x : npfloat) : npfloat :=
  let clipped := fl_clip x min_val max_val in
  let normalized := fl_div (fl_sub clipped min_val) (fl_sub max_val min_val) in
  nan_to_num (Fin 0.0) (Fin 1.0) (Fin 0.0) normalized.

Definition normalize_for_overlay (array : ndarray npfloat)
    (min_val max_val : npfloat) : ndarray npfloat :=
  np_map (normalize_pixel min_val max_val) array.

(** The order that NumPy sorts and searches with: NaN is above every
    number. *)
Definition np_less (x y : npfloat) : bool :=
  fl_lt x y || (isnan y && negb (isnan x)).

(** [np.searchsorted(stops, v, side="right")] for increasing [stops]: the
    position of the first stop above [v]. *)
Fixpoint searchsorted_right (stops : list npfloat) (v : npfloat) : Z :=
  match stops with
  | [] => 0
  | s :: rest =>
      if np_less v s then 0 else (1 + searchsorted_right rest v)
  end%Z.

(** [np.clip] on integers. *)
Definition Zclip (i lo hi : Z) : Z := Z.min (Z.max i lo) hi.

(** [astype(np.uint8)] of a float: the fraction is dropped.  NumPy leaves
    the cast of NaN and of the infinities to the platform; 0 stands for
    it. *)
Definition astype_uint8 (x : npfloat) : Z :=
  match x with
  | Fin q => ((if Qle_bool 0 q then Qfloor q else Qceiling q) mod 256)%Z
  | _ => 0%Z
  end.

Definition colormap_t : Type := list (npfloat * (Z * Z * Z)).

Definition Zfl (z : Z) : npfloat := Fin (inject_Z z).

(** One colour channel: [low + (high - low) * weight], clipped to
    [0, 255] and cast. *)
Definition channel (low high : Z) (weight : npfloat) : Z :=
  let interpolated :=
    fl_add (Zfl low) (fl_mul (fl_sub (Zfl high) (Zfl low)) weight) in
  astype_uint8 (fl_clip interpolated (Fin 0) (Fin 255)).

Definition rgba_t : Type := Z * Z * Z * Z.

Definition colorize_pixel (colormap : colormap_t) (v : npfloat)
  : result rgba_t :=
  let stops := map fst colormap in
  let colors := map snd colormap in
  let index := searchsorted_right stops v in
  let index := Zclip index 1 (Z.of_nat (length stops) - 1) in
  result_bind (take stops (index - 1)) (fun lower =>
  result_bind (take stops index) (fun upper =>
  let weight :=
    fl_div (fl_sub v lower) (fl_add (fl_sub upper lower) (Fin 1e-12)) in
  result_bind (take colors (index - 1)) (fun low_colors =>
  result_bind (take colors index) (fun high_colors =>
  let '(lr, lg, lb) := low_colors in
  let '(hr, hg, hb) := high_colors in
  Ok (channel lr hr weight, channel lg hg weight, channel lb hb weight,
      ((if fl_gt v (Fin 0) then 1 else 0) * 180)%Z))))).

(** The image has the shape of [values] with four channels per pixel.  A
    ramp needs at least one stop.  Without a stop the first lookup of a
    pixel raises; and on a raster without pixels, where nothing is looked
    up, [colors] has no axis for the channels, the interpolated colours
    have the shape [(0, 0)], and their assignment to [rgba[:, :3]] raises
    [ValueError]. *)
Definition colorize (values : ndarray npfloat) (colormap : colormap_t)
  : result (ndarray rgba_t) :=
  result_bind (mapM (colorize_pixel colormap) (data values)) (fun px =>
  match colormap with
  | [] => Raise ValueError
  | _ :: _ => Ok (mkArr (shape values) px)
  end).

Definition DEFAULT_DNBR_COLORMAP : colormap_t :=
  [ (Fin 0.0, (26, 152, 80)%Z);
    (Fin 0.2, (102, 189, 99)%Z);
    (Fin 0.35, (255, 255, 190)%Z);
    (Fin 0.55, (253, 174, 97)%Z);
    (Fin 0.8, (244, 109, 67)%Z);
    (Fin 1.0, (215, 48, 39)%Z) ].

End Processing.
Export Processing.

(** ** viz.py *)

Module Viz.

Open Scope Q_scope.

(** The image that [raster_overlay] hands to the map layer; the map itself
    is built by the mapping library. *)
Definition raster_overlay (array : ndarray npfloat) (colormap : colormap_t)
  : result (ndarray rgba_t) :=
  let normalized := normalize_for_overlay array (Fin (-1.0)) (Fin 1.0) in
  colorize normalized colormap.

End Viz.
Export Viz.

(** ** pipeline.py *)

Module Pipeline.

Open Scope Q_scope.

(** [array] holds floats in every product but the severity raster, which
    holds class indices. *)
Record RasterProduct (A : Type) : Type := mkRasterProduct {
  path : string;
  array : ndarray A;
  transform : Q * Q * Q * Q * Q * Q;
  crs : string
}.
Arguments mkRasterProduct {A} _ _ _ _.
Arguments path {A} _.
Arguments array {A} _.
Arguments transform {A} _.
Arguments crs {A} _.

Record NBRProducts : Type := mkNBRProducts {
  nir : RasterProduct npfloat;
  swir : RasterProduct npfloat;
  nbr : RasterProduct npfloat
}.

Record NBRRunResult : Type := mkNBRRunResult {
  pre : NBRProducts;
  post : NBRProducts;
  dnbr : RasterProduct npfloat;
  severity : option (RasterProduct Z)
}.

(** [np.sum(mask)]: the number of true entries. *)
Definition np_sum (mask : list bool) : Z :=
  Z.of_nat (length (filter (fun b => b) mask)).

Definition valid_dnbr (result : NBRRunResult) : list npfloat :=
  filter (fun x => negb (isnan x)) (data (array (dnbr result))).

Definition total_pixels (result : NBRRunResult) : Z :=
  Z.of_nat (length (valid_dnbr result)).

Definition burned_pixels (result : NBRRunResult) : Z :=
  np_sum (map (fun x => fl_gt x (Fin 0.10)) (valid_dnbr result)).

Definition high_severity (result : NBRRunResult) : Z :=
  np_sum (map (fun x => fl_gt x (Fin 0.66)) (valid_dnbr result)).

Definition pixel_area_km2 : npfloat := fl_div (Zfl 100) (Fin 1e6).

Definition compute_statistics (result : NBRRunResult)
  : list (string * npfloat) :=
  let total_pixels := total_pixels result in
  let burned_pixels := burned_pixels result in
  let high_severity := high_severity result in
  [ ("total_area_km2"%string, fl_mul (Zfl total_pixels) pixel_area_km2);
    ("burned_area_km2"%string, fl_mul (Zfl burned_pixels) pixel_area_km2);
    ("burned_percentage"%string,
       if (total_pixels >? 0)%Z
       then fl_div (Zfl (100 * burned_pixels)) (Zfl total_pixels)
       else Fin 0.0);
    ("high_severity_km2"%string, fl_mul (Zfl high_severity) pixel_area_km2);
    ("high_severity_percentage"%string,
       if (total_pixels >? 0)%Z
       then fl_div (Zfl (100 * high_severity)) (Zfl total_pixels)
       else Fin 0.0) ].

(** [d[key]] for a dictionary given by its items. *)
Fixpoint lookup (key : string) (d : list (string * npfloat)) : option npfloat :=
  match d with
  | [] => None
  | (k, v) :: rest => if String.eqb k key then Some v else lookup key rest
  end.

End Pipeline.
Export Pipeline.

(** ** Sample inputs *)

Module Samples.

Open Scope Q_scope.

(** Two bands that overlap on [[0.5, 1)]. *)
Definition overlapping_bands : list BurnSeverityClass :=
  [ mkBand "first" (Fin 0) (Fin 1) (0, 0, 0)%Z;
    mkBand "second" (Fin 0.5) (Fin 2) (0, 0, 0)%Z ].

(** A raster of one pixel. *)
Definition one_pixel (v : npfloat) : ndarray npfloat := mkArr (1, 1)%nat [v].

(** A pipeline result around a dNBR raster. *)
Definition result_of (a : ndarray npfloat) : NBRRunResult :=
  let product := mkRasterProduct "dnbr.tif" a (0, 0, 0, 0, 0, 0) "EPSG:4326" in
  mkNBRRunResult (mkNBRProducts product product product)
                 (mkNBRProducts product product product)
                 product None.

(** [calculate_nbr] on two arrays put in a store of their own; the array
    behind the returned reference. *)
Definition nbr_of (nir_band swir_band : ndarray npfloat)
  : result (ndarray npfloat) :=
  match calculate_nbr 0%nat 1%nat [nir_band; swir_band] with
  | Ok (out, h) =>
      match nth_error h out with
      | Some a => Ok a
      | None => Raise DanglingRef
      end
  | Raise e => Raise e
  end.

End Samples.
Export Samples.

(** ** data_access.py and the run of the pipeline

    The catalogue, the network, the file system and the raster decoder are
    outside the code.  They appear as parameters: each call takes the state
    of the outside world and returns an outcome with the next state, which
    is kept when the call raises. *)

Module Run.

(** Python dictionaries with string keys: the items in insertion order,
    each key once. *)
Definition dict (V : Type) : Type := list (string * V).

(** [d.get(key)] *)
Fixpoint dict_get {V} (d : dict V) (key : string) : option V :=
  match d with
  | [] => None
  | (k, v) :: rest => if String.eqb k key then Some v else dict_get rest key
  end.

(** [key in d] *)
Definition dict_in {V} (key : string) (d : dict V) : bool :=
  match dict_get d key with
  | Some _ => true
  | None => false
  end.

(** [d[key] = v]: a key that is present keeps its place. *)
Fixpoint dict_set {V} (d : dict V) (key : string) (v : V) : dict V :=
  match d with
  | [] => [(key, v)]
  | (k, old) :: rest =>
      if String.eqb k key then (k, v) :: rest
      else (k, old) :: dict_set rest key v
  end.

Inductive pyerror : Type :=
| KeyError (key : string)
| RuntimeError (message : string)
| ArrayError (e : exception)
| ZeroDivisionError
| CollaboratorError (what : string).

Inductive outcome (A : Type) : Type :=
| Returned (a : A)
| Raised (e : pyerror).
Arguments Returned {A} _.
Arguments Raised {A} _.

(** [s.rstrip(c)] for one character [c]: the characters [c] at the end of
    [s] are dropped. *)
Fixpoint rstrip (c : Ascii.ascii) (s : string) : string :=
  match s with
  | EmptyString => EmptyString
  | String a rest =>
      match rstrip c rest with
      | EmptyString =>
          if Ascii.eqb a c then EmptyString else String a EmptyString
      | stripped => String a stripped
      end
  end.

(** The string of [n] characters [c]. *)
Fixpoint replicate (n : nat) (c : Ascii.ascii) : string :=
  match n with
  | O => EmptyString
  | S n' => String c (replicate n' c)
  end.

(** The connector keeps the address of the catalogue; the session belongs
    to the HTTP library. *)
Record SentinelStacConnector : Type := mkConnector {
  base_url : string
}.

(** [SentinelStacConnector.__init__] *)
Definition SentinelStacConnector_init (base_url : string)
  : SentinelStacConnector :=
  mkConnector (rstrip "/"%char base_url).

(** The address that [search] posts to: [f"{self.base_url}/search"]. *)
Definition search_endpoint (connector : SentinelStacConnector) : string :=
  (base_url connector ++ "/search")%string.

(** [a.shape != b.shape] *)
Definition shape_differs {A B} (a : ndarray A) (b : ndarray B) : bool :=
  negb ((nrows a =? nrows b)%nat && (ncols a =? ncols b)%nat).

(** [arr[mask] = v] with the check of NumPy: a boolean index must have the
    shape of the array, or [IndexError] is raised. *)
Definition setitem_bool {A} (arr : ndarray A) (mask : ndarray bool) (v : A)
  : result (ndarray A) :=
  if shape_differs arr mask then Raise IndexError
  else Ok (setitem_mask arr mask v).

(** [a[i]] for a two-dimensional array: row [i], an array of one
    dimension. *)
Definition getrow {A} (a : ndarray A) (i : nat) : result (list A) :=
  if (i <? nrows a)%nat
  then Ok (firstn (ncols a) (skipn (i * ncols a) (data a)))
  else Raise IndexError.

(** Affine transforms by their coefficients [(a, b, c, d, e, f)], with
    [Affine.scale(sx, sy)] and the product [t * u] of the library. *)
Definition affine_scale (sx sy : Q) : Q * Q * Q * Q * Q * Q :=
  (sx, 0, 0, 0, sy, 0)%Q.

Definition affine_mul (t u : Q * Q * Q * Q * Q * Q) : Q * Q * Q * Q * Q * Q :=
  let '(a, b, c, d, e, f) := t in
  let '(a', b', c', d', e', f') := u in
  (a * a' + b * d', a * b' + b * e', a * c' + b * f' + c,
   d * a' + e * d', d * b' + e * e', d * c' + e * f' + f)%Q.

(** [np.isin(x, test_elements)] for one element. *)
Definition np_isin (test_elements : list Z) (x : npfloat) : bool :=
  existsb (fun c => fl_eq x (Zfl c)) test_elements.

(** The four reflectance bands of a run. *)
Record Bands : Type := mkBands {
  pre_nir : RasterProduct npfloat;
  pre_swir : RasterProduct npfloat;
  post_nir : RasterProduct npfloat;
  post_swir : RasterProduct npfloat
}.

(** [product.array] replaced by [a]; the other fields are kept. *)
Definition with_array {A} (product : RasterProduct A) (a : ndarray A)
  : RasterProduct A :=
  mkRasterProduct (path product) a (transform product) (crs product).

Section Collaborators.

Variable World : Type.
Variable Geometry : Type.

Definition IO (A : Type) : Type := World -> outcome A * World.

Definition io_ret {A} (a : A) : IO A := fun w => (Returned a, w).

Definition io_raise {A} (e : pyerror) : IO A := fun w => (Raised e, w).

Definition io_bind {A B} (m : IO A) (k : A -> IO B) : IO B :=
  fun w => match m w with
           | (Returned a, w') => k a w'
           | (Raised e, w') => (Raised e, w')
           end.

(** A NumPy operation inside a run: its error is the error of the run. *)
Definition io_lift {A} (r : result A) : IO A :=
  match r with
  | Ok a => io_ret a
  | Raise e => io_raise (ArrayError e)
  end.

(** [d[key]] *)
Definition dict_item {V} (d : dict V) (key : string) : IO V :=
  match dict_get d key with
  | Some v => io_ret v
  | None => io_raise (KeyError key)
  end.

(** [a / b] for two integers: the quotient as a float, and
    [ZeroDivisionError] when [b] is 0. *)
Definition int_truediv (a b : Z) : IO Q :=
  if (b =? 0)%Z then io_raise ZeroDivisionError
  else io_ret (inject_Z a / inject_Z b)%Q.

Record StacItem : Type := mkStacItem {
  id : string;
  assets : dict (dict string);
  geometry : Geometry
}.

(** [pathlib]: [a / b]. *)
Variable joinpath : string -> string -> string.

(** [path.mkdir(parents=True, exist_ok=True)] *)
Variable mkdir : string -> IO unit.

(** The body of [download_asset] up to its [return]: the parent directory
    is made, the asset is requested and its chunks are written to the
    destination. *)
Variable fetch_to_file : string -> string -> IO unit.

(** [SentinelStacConnector.search(geometry, start, end, collections,
    cloud_cover, limit)] *)
Variable search :
  Geometry -> string -> string -> list string -> Z -> Z -> IO (list StacItem).

(** [rasterio.open(path)]: band 1 read as float32, the transform and
    [str(dataset.crs)]. *)
Variable rasterio_read :
  string -> IO (ndarray npfloat * (Q * Q * Q * Q * Q * Q) * string).

(** [rasterio.open(path)] and [dataset.read(1, out_shape=(dataset.count,
    rows, cols), resampling=Resampling.bilinear)]: the single band 1, which
    the decoder returns as a two-dimensional array, with the transform, the
    width and the height of the dataset. *)
Variable rasterio_read_resampled :
  string -> nat * nat
  -> IO (ndarray npfloat * (Q * Q * Q * Q * Q * Q) * Z * Z).

Declare Scope io_scope.
Notation "x <- m ;; k" := (io_bind m (fun x => k))
  (at level 61, m at next level, right associativity) : io_scope.
Notation "m ;;; k" := (io_bind m (fun _ => k))
  (at level 61, right associativity) : io_scope.
Local Open Scope io_scope.
Local Open Scope string_scope.

(** *** data_access.py *)

Definition download_asset (asset_href destination : string) : IO string :=
  fetch_to_file asset_href destination ;;;
  io_ret destination.

(** The loop of [download_bands], from the dictionary filled so far. *)
Fixpoint download_loop (item : StacItem) (bands : list string)
    (target_dir : string) (downloaded : dict string) : IO (dict string) :=
  match bands with
  | [] => io_ret downloaded
  | band :: rest =>
      let asset_key :=
        if dict_in band (assets item) then band else "B" ++ band in
      match dict_get (assets item) asset_key with
      | None =>
          io_raise (KeyError ("Asset " ++ band ++ " not found in item "
                              ++ id item))
      | Some asset =>
          href <- dict_item asset "href" ;;
          let path := joinpath target_dir (id item ++ "_" ++ band ++ ".tif") in
          written <- download_asset href path ;;
          download_loop item rest target_dir (dict_set downloaded band written)
      end
  end.

Definition download_bands (item : StacItem) (bands : list string)
    (target_dir : string) : IO (dict string) :=
  download_loop item bands target_dir [].

(** The key under which [download_bands] looks a band up among the
    assets, and the file it writes the band to. *)
Definition asset_key_of (item : StacItem) (band : string) : string :=
  if dict_in band (assets item) then band else "B" ++ band.

Definition band_file (item : StacItem) (target_dir band : string) : string :=
  joinpath target_dir (id item ++ "_" ++ band ++ ".tif").

(** A band that [download_bands] can resolve: its key, or its key with the
    prefix B, names an asset that has a link. *)
Definition resolvable (item : StacItem) (band : string) : Prop :=
  exists asset href,
    dict_get (assets item) (asset_key_of item band) = Some asset
    /\ dict_get asset "href" = Some href.

(** *** pipeline.py *)

Definition _load_raster (path : string) (scale_reflectance : bool)
  : IO (RasterProduct npfloat) :=
  dataset <- rasterio_read path ;;
  let '(array, transform, crs) := dataset in
  let array :=
    if scale_reflectance
    then np_map (fun x => fl_div x (Fin 10000.0%Q)) array
    else array in
  io_ret (mkRasterProduct path array transform crs).

(** The file behind [source.path] is read anew at the shape of the
    target; [source.array] is not used.  The band that was read has two
    dimensions, so the [[0]] that follows takes its first row and
    [data.shape] has one entry: [data.shape[-1]] is the length of the row,
    and [data.shape[-2]] raises [IndexError].  The [return] is written out
    as in the source, the row standing as a raster of one row, which is how
    broadcasting reads an array of one dimension. *)
Definition _resample_to_match (source target : RasterProduct npfloat)
  : IO (RasterProduct npfloat) :=
  dataset <- rasterio_read_resampled (path source) (shape (array target)) ;;
  let '(band, dataset_transform, width, height) := dataset in
  data <- io_lift (getrow band 0) ;;
  let data_shape := [Z.of_nat (length data)] in
  last <- io_lift (take data_shape (-1)) ;;
  sx <- int_truediv width last ;;
  before_last <- io_lift (take data_shape (-2)) ;;
  sy <- int_truediv height before_last ;;
  let transform := affine_mul dataset_transform (affine_scale sx sy) in
  io_ret (mkRasterProduct (path source) (mkArr (1%nat, length data) data)
                          transform (crs source)).

Definition _compute_nbr (nir swir : RasterProduct npfloat)
  : IO (RasterProduct npfloat) :=
  swir <- (if shape_differs (array nir) (array swir)
           then _resample_to_match swir nir
           else io_ret swir) ;;
  nbr <- io_lift (nbr_of (array nir) (array swir)) ;;
  io_ret (mkRasterProduct (path swir) nbr (transform nir) (crs nir)).

Definition _fetch_item (geometry : Geometry) (window : string * string)
    (cloud_cover : Z) : IO StacItem :=
  items <- search geometry (fst window) (snd window) ["sentinel-2-l2a"]
                  cloud_cover 1%Z ;;
  match items with
  | [] =>
      io_raise (RuntimeError
                  "No Sentinel-2 items found for requested window and AOI")
  | first :: _ => io_ret first
  end.

Definition _build_cloud_mask (scl target : RasterProduct npfloat)
    (cloudy_classes : list Z) : IO (ndarray bool) :=
  scl <- (if shape_differs (array scl) (array target)
          then _resample_to_match scl target
          else io_ret scl) ;;
  io_ret (np_map (np_isin cloudy_classes) (array scl)).

(** [download_and_prepare] up to the four loaded bands: the directory, the
    two searches, the two downloads and the four reads. *)
Definition acquire_bands (geometry : Geometry)
    (pre_window post_window : string * string) (target_dir : string)
    (cloud_cover : Z) (bands : list string)
  : IO (dict string * dict string * Bands) :=
  mkdir target_dir ;;;
  pre_item <- _fetch_item geometry pre_window cloud_cover ;;
  post_item <- _fetch_item geometry post_window cloud_cover ;;
  pre_paths <- download_bands pre_item bands (joinpath target_dir "pre") ;;
  post_paths <- download_bands post_item bands (joinpath target_dir "post") ;;
  p <- dict_item pre_paths "B08" ;;
  pre_nir <- _load_raster p true ;;
  p <- dict_item pre_paths "B12" ;;
  pre_swir <- _load_raster p true ;;
  p <- dict_item post_paths "B08" ;;
  post_nir <- _load_raster p true ;;
  p <- dict_item post_paths "B12" ;;
  post_swir <- _load_raster p true ;;
  io_ret (pre_paths, post_paths,
          mkBands pre_nir pre_swir post_nir post_swir).

(** The body of the [if apply_cloud_mask ...] of [download_and_prepare]:
    the masks of the two epochs are written as NaN into the four bands. *)
Definition mask_clouds (pre_paths post_paths : dict string) (b : Bands)
    (cloudy_classes : list Z) : IO Bands :=
  p <- dict_item pre_paths "SCL" ;;
  pre_scl <- _load_raster p false ;;
  p <- dict_item post_paths "SCL" ;;
  post_scl <- _load_raster p false ;;
  pre_mask <- _build_cloud_mask pre_scl (pre_nir b) cloudy_classes ;;
  post_mask <- _build_cloud_mask post_scl (post_nir b) cloudy_classes ;;
  a1 <- io_lift (setitem_bool (array (pre_nir b)) pre_mask NaN) ;;
  a2 <- io_lift (setitem_bool (array (pre_swir b)) pre_mask NaN) ;;
  a3 <- io_lift (setitem_bool (array (post_nir b)) post_mask NaN) ;;
  a4 <- io_lift (setitem_bool (array (post_swir b)) post_mask NaN) ;;
  io_ret (mkBands (with_array (pre_nir b) a1) (with_array (pre_swir b) a2)
                  (with_array (post_nir b) a3) (with_array (post_swir b) a4)).

(** The end of [download_and_prepare]: the two burn ratios, their
    difference, the classes and the result. *)
Definition derive_products (target_dir : string) (b : Bands)
  : IO NBRRunResult :=
  pre_nbr <- _compute_nbr (pre_nir b) (pre_swir b) ;;
  post_nbr <- _compute_nbr (post_nir b) (post_swir b) ;;
  dnbr_array <- io_lift (calculate_dnbr (array pre_nbr) (array post_nbr)) ;;
  let dnbr :=
    mkRasterProduct (joinpath target_dir "dnbr.tif") dnbr_array
                    (transform pre_nbr) (crs pre_nbr) in
  let severity_array := classify_dnbr dnbr_array in
  let severity :=
    mkRasterProduct (joinpath target_dir "severity.tif") severity_array
                    (transform pre_nbr) (crs pre_nbr) in
  io_ret (mkNBRRunResult
            (mkNBRProducts (pre_nir b) (pre_swir b) pre_nbr)
            (mkNBRProducts (post_nir b) (post_swir b) post_nbr)
            dnbr (Some severity)).

Definition download_and_prepare (geometry : Geometry)
    (pre_window post_window : string * string) (target_dir : string)
    (cloud_cover : Z) (bands : list string) (apply_cloud_mask : bool)
    (cloudy_classes : list Z) : IO NBRRunResult :=
  acquired <- acquire_bands geometry pre_window post_window target_dir
                            cloud_cover bands ;;
  let '(pre_paths, post_paths, b) := acquired in
  b <- (if apply_cloud_mask && dict_in "SCL" pre_paths
           && dict_in "SCL" post_paths
        then mask_clouds pre_paths post_paths b cloudy_classes
        else io_ret b) ;;
  derive_products target_dir b.

(** [to_folium_map]: the image of the overlay, with the default ramp. *)
Definition to_folium_map (dnbr : RasterProduct npfloat)
  : result (ndarray rgba_t) :=
  raster_overlay (array dnbr) DEFAULT_DNBR_COLORMAP.

End Collaborators.

Arguments mkStacItem {Geometry} _ _ _.
Arguments id {Geometry} _.
Arguments assets {Geometry} _.
Arguments geometry {Geometry} _.
Arguments io_ret {World A} _ _.
Arguments io_raise {World A} _ _.
Arguments io_bind {World A B} _ _ _.
Arguments io_lift {World A} _ _.
Arguments dict_item {World V} _ _ _.
Arguments int_truediv {World} _ _ _.
Arguments asset_key_of {Geometry} _ _.
Arguments band_file {Geometry} _ _ _ _.
Arguments resolvable {Geometry} _ _.

End Run.

(** ** A world for examples

    A world that keeps a journal of the calls made to it, a catalogue that
    answers by the first day of the window, and raster files given by their
    paths. *)

Module Mock.

Import Run.
Local Open Scope string_scope.

Definition World : Type := list string.

Definition journal {A} (entry : string) (a : A) : IO World A :=
  fun w => (Returned a, (w ++ [entry])%list).

Definition joinpath (a b : string) : string := a ++ "/" ++ b.

Definition mkdir (p : string) : IO World unit := journal ("mkdir " ++ p) tt.

Definition fetch_to_file (href destination : string) : IO World unit :=
  journal ("GET " ++ href) tt.

Definition search (catalogue : dict (list (StacItem unit))) (g : unit)
    (start stop : string) (collections : list string) (cloud_cover limit : Z)
  : IO World (list (StacItem unit)) :=
  journal ("search " ++ start)
          (match dict_get catalogue start with
           | Some items => items
           | None => []
           end).

Definition rasterio_read (files : dict (ndarray npfloat)) (p : string)
  : IO World (ndarray npfloat * (Q * Q * Q * Q * Q * Q) * string) :=
  fun w =>
    match dict_get files p with
    | Some a =>
        (Returned (a, (0, 0, 0, 0, 0, 0)%Q, "EPSG:32633"),
         (w ++ [("read " ++ p)%string])%list)
    | None => (Raised (CollaboratorError "RasterioIOError"), w)
    end.

Definition rasterio_read_resampled (p : string) (sh : nat * nat)
  : IO World (ndarray npfloat * (Q * Q * Q * Q * Q * Q) * Z * Z) :=
  journal ("resample " ++ p)
          (np_full sh (Fin 0), (0, 0, 0, 0, 0, 0)%Q,
           Z.of_nat (snd sh), Z.of_nat (fst sh)).

(** An item with the three assets of a run. *)
Definition scene (name : string) : StacItem unit :=
  mkStacItem name
    [ ("B08", [("href", "https://example.org/" ++ name ++ "/B08")]);
      ("B12", [("href", "https://example.org/" ++ name ++ "/B12")]);
      ("SCL", [("href", "https://example.org/" ++ name ++ "/SCL")]) ]
    tt.

Definition catalogue : dict (list (StacItem unit)) :=
  [ ("2024-06-01", [scene "before"]); ("2024-07-01", [scene "after"]) ].

(** The files of a run: digital numbers of the four bands, on rasters of
    one pixel but for the SWIR band before the fire, which is given, and
    the two scene classifications. *)
Definition files (pre_swir : ndarray npfloat) (pre_scl post_scl : Z)
  : dict (ndarray npfloat) :=
  [ ("out/pre/before_B08.tif", one_pixel (Fin 8000));
    ("out/pre/before_B12.tif", pre_swir);
    ("out/pre/before_SCL.tif", one_pixel (Zfl pre_scl));
    ("out/post/after_B08.tif", one_pixel (Fin 3000));
    ("out/post/after_B12.tif", one_pixel (Fin 6000));
    ("out/post/after_SCL.tif", one_pixel (Zfl post_scl)) ].

Definition pre_window : string * string := ("2024-06-01", "2024-06-15").
Definition post_window : string * string := ("2024-07-01", "2024-07-15").

(** [download_and_prepare] in this world, into the directory [out]. *)
Definition download_and_prepare (cat : dict (list (StacItem unit)))
    (fs : dict (ndarray npfloat)) (bands : list string)
    (apply_cloud_mask : bool) : IO World NBRRunResult :=
  Run.download_and_prepare World unit joinpath mkdir fetch_to_file
    (search cat) (rasterio_read fs) rasterio_read_resampled
    tt pre_window post_window "out" 5%Z bands apply_cloud_mask
    [8; 9; 10; 11]%Z.

Definition acquire_bands (cat : dict (list (StacItem unit)))
    (fs : dict (ndarray npfloat)) (bands : list string)
  : IO World (dict string * dict string * Bands) :=
  Run.acquire_bands World unit joinpath mkdir fetch_to_file
    (search cat) (rasterio_read fs)
    tt pre_window post_window "out" 5%Z bands.

End Mock.

(** ** Ranges of values *)

Module Ranges.

(** The values of a [uint8] channel. *)
Definition in_uint8 (z : Z) : Prop := (0 <= z <= 255)%Z.

Definition rgb_in_uint8 (c : Z * Z * Z) : Prop :=
  let '(r, g, b) := c in in_uint8 r /\ in_uint8 g /\ in_uint8 b.

(** [z] lies between [a] and [b], whichever is the larger. *)
Definition Zbetween (a b z : Z) : Prop := (Z.min a b <= z <= Z.max a b)%Z.

(** One pixel of [calculate_nbr]: the quotient left by [_safe_divide]. *)
Definition nbr_pixel (x y : npfloat) : npfloat :=
  let q := fl_div (fl_sub x y) (fl_add x y) in
  if negb (isfinite q) then NaN else q.

(** One pixel of a band after [band[mask] = np.nan]. *)
Definition masked_pixel (cloudy : bool) (x : npfloat) : npfloat :=
  if cloudy then NaN else x.

End Ranges.
Export Ranges.

(* ------------------------------------------------------------------ *)
(** * Properties *)
(* ------------------------------------------------------------------ *)

Open Scope Q_scope.

(** ** Comparisons of rationals as booleans *)

Lemma Qle_bool_true (a b : Q) : a <= b -> Qle_bool a b = true.
Proof. apply Qle_bool_iff. Qed.

Lemma Qle_bool_false (a b : Q) : b < a -> Qle_bool a b = false.
Proof.
  intros H. destruct (Qle_bool a b) eqn:E; [|reflexivity].
  apply Qle_bool_iff in E. lra.
Qed.

Lemma Qltb_true (a b : Q) : a < b -> Qltb a b = true.
Proof. intros H. unfold Qltb. now rewrite Qle_bool_false. Qed.

Lemma Qltb_false (a b : Q) : b <= a -> Qltb a b = false.
Proof. intros H. unfold Qltb. now rewrite Qle_bool_true. Qed.

Lemma Qltb_iff (a b : Q) : Qltb a b = true <-> a < b.
Proof.
  split; [|apply Qltb_true].
  unfold Qltb. destruct (Qle_bool b a) eqn:E; [discriminate|].
  intros _. destruct (Qlt_le_dec a b) as [H|H]; [exact H|].
  apply Qle_bool_iff in H. congruence.
Qed.

Lemma Qeq_bool_true (a b : Q) : a == b -> Qeq_bool a b = true.
Proof. apply Qeq_bool_iff. Qed.

Lemma Qeq_bool_false (a b : Q) : ~ a == b -> Qeq_bool a b = false.
Proof.
  intros H. destruct (Qeq_bool a b) eqn:E; [|reflexivity].
  apply Qeq_bool_iff in E. contradiction.
Qed.

(** Every boolean comparison in the goal whose outcome follows from the
    hypotheses by linear arithmetic is replaced by that outcome. *)
Ltac qdecide :=
  repeat match goal with
    | |- context [Qle_bool ?a ?b] =>
        first [ rewrite (Qle_bool_true a b) by lra
              | rewrite (Qle_bool_false a b) by lra ]
    | |- context [Qltb ?a ?b] =>
        first [ rewrite (Qltb_true a b) by lra
              | rewrite (Qltb_false a b) by lra ]
    | |- context [Qeq_bool ?a ?b] =>
        first [ rewrite (Qeq_bool_true a b) by lra
              | rewrite (Qeq_bool_false a b) by lra ]
    end.

(** Splits on the position of [q] against the constant [c]. *)
Ltac qsplit q c :=
  destruct (Qlt_le_dec q c).

(** ** Lists and arrays *)

Lemma nth_error_masked_fill {A} (xs : list A) (ms : list bool) (v : A) :
  forall k x m,
    nth_error xs k = Some x -> nth_error ms k = Some m ->
    nth_error (masked_fill xs ms v) k = Some (if m then v else x).
Proof.
  revert ms. induction xs as [|x0 xs IH]; intros ms k x m Hx Hm.
  - destruct k; discriminate.
  - destruct ms as [|m0 ms]; [destruct k; discriminate|].
    destruct k as [|k]; simpl in *.
    + now inversion Hx; inversion Hm.
    + now apply IH.
Qed.

Lemma length_masked_fill {A} (xs : list A) (ms : list bool) (v : A) :
  length (masked_fill xs ms v) = length xs.
Proof.
  revert ms. induction xs as [|x xs IH]; intros [|m ms]; simpl; auto.
Qed.

Lemma nth_error_repeat {A} (v : A) (n k : nat) :
  (k < n)%nat -> nth_error (repeat v n) k = Some v.
Proof.
  revert k. induction n as [|n IH]; intros k H; [lia|].
  destruct k; simpl; [reflexivity|]. apply IH. lia.
Qed.

Lemma getitem_inv {A} (a : ndarray A) (i j : nat) (x : A) :
  getitem a i j = Some x ->
  (i < nrows a)%nat /\ (j < ncols a)%nat /\
  nth_error (data a) (i * ncols a + j) = Some x.
Proof.
  unfold getitem.
  destruct (i <? nrows a)%nat eqn:Hi; [|discriminate].
  destruct (j <? ncols a)%nat eqn:Hj; [|discriminate].
  apply Nat.ltb_lt in Hi. apply Nat.ltb_lt in Hj. simpl. auto.
Qed.

Lemma getitem_intro {A} (a : ndarray A) (i j : nat) :
  (i < nrows a)%nat -> (j < ncols a)%nat ->
  getitem a i j = nth_error (data a) (i * ncols a + j).
Proof.
  intros Hi Hj. unfold getitem.
  apply Nat.ltb_lt in Hi. apply Nat.ltb_lt in Hj. now rewrite Hi, Hj.
Qed.

Lemma flat_index_bound (r c i j : nat) :
  (i < r)%nat -> (j < c)%nat -> (i * c + j < r * c)%nat.
Proof. intros Hi Hj. nia. Qed.

Lemma getitem_np_map {A B} (f : A -> B) (a : ndarray A) (i j : nat) :
  getitem (np_map f a) i j = option_map f (getitem a i j).
Proof.
  unfold getitem, np_map, nrows, ncols. simpl.
  destruct ((i <? fst (shape a)) && (j <? snd (shape a)))%nat; [|reflexivity].
  apply nth_error_map.
Qed.

(** ** The severity classifier *)

Section Classifier.

Variable dnbr : ndarray npfloat.

Lemma shape_classify_fold (entries : list (nat * BurnSeverityClass)) :
  forall cr, shape (fold_left (classify_step dnbr) entries cr) = shape cr.
Proof.
  induction entries as [|e es IH]; intros cr; simpl; [reflexivity|].
  now rewrite IH.
Qed.

Lemma classify_fold_pixel (entries : list (nat * BurnSeverityClass)) :
  forall (cr : ndarray Z) (k : nat) (v : npfloat) (c : Z),
    nth_error (data dnbr) k = Some v ->
    nth_error (data cr) k = Some c ->
    nth_error (data (fold_left (classify_step dnbr) entries cr)) k
    = Some (fold_left (pixel_step v) entries c).
Proof.
  induction entries as [|e es IH]; intros cr k v c Hv Hc; simpl.
  - exact Hc.
  - apply IH; [exact Hv|].
    unfold classify_step, setitem_mask, np_map, pixel_step. simpl.
    apply nth_error_masked_fill; [exact Hc|].
    rewrite nth_error_map, Hv. reflexivity.
Qed.

Lemma getitem_classify_with (bands : list BurnSeverityClass) (i j : nat)
    (v : npfloat) :
  getitem dnbr i j = Some v ->
  getitem (classify_with bands dnbr) i j
  = Some (fold_left (pixel_step v) (enumerate bands) 255%Z).
Proof.
  intros H. apply getitem_inv in H. destruct H as (Hi & Hj & Hv).
  unfold classify_with.
  rewrite getitem_intro;
    unfold nrows, ncols in *; rewrite ?shape_classify_fold; simpl; auto.
  apply classify_fold_pixel; [exact Hv|].
  simpl. apply nth_error_repeat. now apply flat_index_bound.
Qed.

End Classifier.

(** The loop keeps the index of the last band that contains the value. *)
Lemma pixel_fold_last_match (v : npfloat) (bands : list BurnSeverityClass) :
  forall (n0 : nat) (c : Z),
    let r := fold_left (pixel_step v)
                       (combine (seq n0 (length bands)) bands) c in
    (forall k s,
        nth_error bands k = Some s -> in_band s v = true ->
        (forall k' s', (k < k')%nat -> nth_error bands k' = Some s' ->
                       in_band s' v = false) ->
        r = Z.of_nat (n0 + k))
    /\ ((forall k s, nth_error bands k = Some s -> in_band s v = false) ->
        r = c).
Proof.
  induction bands as [|b bands IH]; intros n0 c; simpl.
  - split.
    + intros k s H. destruct k; discriminate.
    + reflexivity.
  - destruct (IH (S n0) (pixel_step v c (n0, b))) as [IHlast IHnone].
    split.
    + intros k s Hk Hin Hlater. destruct k as [|k]; simpl in Hk.
      * inversion Hk; subst s.
        rewrite IHnone.
        -- unfold pixel_step; simpl. rewrite Hin. f_equal. lia.
        -- intros k' s' Hk'. apply (Hlater (S k') s'); [lia|exact Hk'].
      * rewrite (IHlast k s Hk Hin).
        -- f_equal. lia.
        -- intros k' s' Hlt Hk'. apply (Hlater (S k') s'); [lia|exact Hk'].
    + intros Hnone. rewrite IHnone.
      * unfold pixel_step; simpl. now rewrite (Hnone 0%nat b eq_refl).
      * intros k s Hk. apply (Hnone (S k) s Hk).
Qed.

(** C1 (as amended).  For every dNBR raster and every band table of at most
    255 bands, [classify_with] leaves at each pixel the index of the LAST
    band in list order whose half-open interval [[lower, upper)] contains the
    pixel value, and the fill value 255 when no band contains it.  When two
    bands overlap on the value, the later one is assigned. *)
Theorem classify_last_match_wins :
  forall (bands : list BurnSeverityClass) (dnbr : ndarray npfloat)
         (i j : nat) (v : npfloat),
    (length bands <= 255)%nat ->
    getitem dnbr i j = Some v ->
    (forall k s,
        nth_error bands k = Some s -> in_band s v = true ->
        (forall k' s', (k < k')%nat -> nth_error bands k' = Some s' ->
                       in_band s' v = false) ->
        getitem (classify_with bands dnbr) i j = Some (Z.of_nat k))
    /\ ((forall k s, nth_error bands k = Some s -> in_band s v = false) ->
        getitem (classify_with bands dnbr) i j = Some 255%Z).
Proof.
  intros bands dnbr i j v _ Hv.
  rewrite (getitem_classify_with dnbr bands i j v Hv).
  unfold enumerate.
  destruct (pixel_fold_last_match v bands 0 255%Z) as [Hlast Hnone].
  split.
  - intros k s Hk Hin Hlater. now rewrite (Hlast k s Hk Hin Hlater).
  - intros H. now rewrite (Hnone H).
Qed.

Lemma classify_last_match_wins_witness :
  getitem (classify_with overlapping_bands (one_pixel (Fin 0.7))) 0 0
  = Some 1%Z.
Proof.
  refine (proj1 (classify_last_match_wins overlapping_bands
                   (one_pixel (Fin 0.7)) 0 0 (Fin 0.7) _ eq_refl)
                1%nat (mkBand "second" (Fin 0.5) (Fin 2) (0, 0, 0)%Z)
                eq_refl eq_refl _).
  - simpl. lia.
  - intros k' s' Hlt Hk'.
    destruct k' as [|[|k']]; [lia|lia|].
    destruct k'; discriminate.
Defined.

(** C1 (as stated) fails: the pixel 0.7 lies in both bands, the first band
    in list order has index 0, and the classifier assigns index 1. *)
Lemma classify_first_match_counterexample :
  nth_error overlapping_bands 0
    = Some (mkBand "first" (Fin 0) (Fin 1) (0, 0, 0)%Z)
  /\ in_band (mkBand "first" (Fin 0) (Fin 1) (0, 0, 0)%Z) (Fin 0.7) = true
  /\ in_band (mkBand "second" (Fin 0.5) (Fin 2) (0, 0, 0)%Z) (Fin 0.7) = true
  /\ getitem (classify_with overlapping_bands (one_pixel (Fin 0.7))) 0 0
     = Some 1%Z
  /\ getitem (classify_with overlapping_bands (one_pixel (Fin 0.7))) 0 0
     <> Some 0%Z.
Proof.
  repeat split; try reflexivity. discriminate.
Qed.

(** The class of a finite value under the reference table, by the
    position of the value among the seven thresholds. *)
Lemma classify_finite_value (q : Q) :
  fold_left (pixel_step (Fin q)) (enumerate BURN_SEVERITY_CLASSES) 255%Z
  = (if Qltb q (-0.5) then 255
     else if Qltb q (-0.25) then 0
     else if Qltb q (-0.1) then 1
     else if Qltb q 0.1 then 2
     else if Qltb q 0.27 then 3
     else if Qltb q 0.66 then 4
     else if Qltb q 1.3 then 5 else 255)%Z.
Proof.
  unfold enumerate, BURN_SEVERITY_CLASSES, pixel_step, in_band, fl_ge, fl_le,
    fl_lt; simpl.
  qsplit q (-0.5); [qdecide; reflexivity|].
  qsplit q (-0.25); [qdecide; reflexivity|].
  qsplit q (-0.1); [qdecide; reflexivity|].
  qsplit q 0.1; [qdecide; reflexivity|].
  qsplit q 0.27; [qdecide; reflexivity|].
  qsplit q 0.66; [qdecide; reflexivity|].
  qsplit q 1.3; qdecide; reflexivity.
Qed.

Lemma in_band_Fin (s : BurnSeverityClass) (lo hi q : Q) :
  dnbr_min s = Fin lo -> dnbr_max s = Fin hi ->
  (in_band s (Fin q) = true <-> lo <= q /\ q < hi).
Proof.
  intros Hlo Hhi. unfold in_band, fl_ge, fl_le, fl_lt. rewrite Hlo, Hhi.
  rewrite andb_true_iff, Qle_bool_iff, Qltb_iff. tauto.
Qed.

(** The reference bands, one by one. *)
Lemma reference_band_inv (k : nat) (s : BurnSeverityClass) :
  nth_error BURN_SEVERITY_CLASSES k = Some s ->
  exists lo hi,
    dnbr_min s = Fin lo /\ dnbr_max s = Fin hi /\
    ((k = 0%nat /\ lo = -0.500 /\ hi = -0.250) \/
     (k = 1%nat /\ lo = -0.250 /\ hi = -0.100) \/
     (k = 2%nat /\ lo = -0.100 /\ hi = 0.100) \/
     (k = 3%nat /\ lo = 0.100 /\ hi = 0.270) \/
     (k = 4%nat /\ lo = 0.270 /\ hi = 0.660) \/
     (k = 5%nat /\ lo = 0.660 /\ hi = 1.300)).
Proof.
  intros H.
  do 6 (destruct k as [|k];
        [inversion H; subst s; simpl; do 2 eexists;
         split; [reflexivity|split; [reflexivity|tauto]]|]).
  destruct k; discriminate.
Qed.

(** At most one reference band contains a given finite value. *)
Lemma reference_bands_disjoint (q : Q) (k k' : nat) (s s' : BurnSeverityClass) :
  nth_error BURN_SEVERITY_CLASSES k = Some s ->
  nth_error BURN_SEVERITY_CLASSES k' = Some s' ->
  in_band s (Fin q) = true -> in_band s' (Fin q) = true -> k' = k.
Proof.
  intros Hk Hk' Hs Hs'.
  destruct (reference_band_inv k s Hk) as (lo & hi & Hlo & Hhi & Hc).
  destruct (reference_band_inv k' s' Hk') as (lo' & hi' & Hlo' & Hhi' & Hc').
  apply (in_band_Fin s lo hi q Hlo Hhi) in Hs.
  apply (in_band_Fin s' lo' hi' q Hlo' Hhi') in Hs'.
  destruct Hc as [(?&?&?)|[(?&?&?)|[(?&?&?)|[(?&?&?)|[(?&?&?)|(?&?&?)]]]]];
  destruct Hc' as [(?&?&?)|[(?&?&?)|[(?&?&?)|[(?&?&?)|[(?&?&?)|(?&?&?)]]]]];
  subst; try reflexivity; exfalso; lra.
Qed.

Lemma classify_in_domain (q : Q) :
  -0.5 <= q -> q < 1.3 ->
  exists k s,
    (k < 6)%nat
    /\ nth_error BURN_SEVERITY_CLASSES k = Some s
    /\ in_band s (Fin q) = true
    /\ fold_left (pixel_step (Fin q)) (enumerate BURN_SEVERITY_CLASSES) 255%Z
       = Z.of_nat k.
Proof.
  intros Hlo Hhi. rewrite classify_finite_value.
  assert (pick : forall k s lo hi,
             (k < 6)%nat -> nth_error BURN_SEVERITY_CLASSES k = Some s ->
             dnbr_min s = Fin lo -> dnbr_max s = Fin hi ->
             lo <= q -> q < hi ->
             forall c, c = Z.of_nat k ->
             exists k s, (k < 6)%nat
               /\ nth_error BURN_SEVERITY_CLASSES k = Some s
               /\ in_band s (Fin q) = true /\ c = Z.of_nat k).
  { intros k s lo hi Hk Hs Hmin Hmax H1 H2 c Hc. exists k, s.
    repeat split; auto. apply (in_band_Fin s lo hi q Hmin Hmax). auto. }
  qsplit q (-0.25);
    [qdecide; eapply (pick 0%nat); try reflexivity; try lia; simpl; lra|].
  qsplit q (-0.1);
    [qdecide; eapply (pick 1%nat); try reflexivity; try lia; simpl; lra|].
  qsplit q 0.1;
    [qdecide; eapply (pick 2%nat); try reflexivity; try lia; simpl; lra|].
  qsplit q 0.27;
    [qdecide; eapply (pick 3%nat); try reflexivity; try lia; simpl; lra|].
  qsplit q 0.66;
    [qdecide; eapply (pick 4%nat); try reflexivity; try lia; simpl; lra|].
  qdecide; eapply (pick 5%nat); try reflexivity; try lia; simpl; lra.
Qed.

(** C3.  [classify_dnbr] gives every pixel a class: a finite value in
    [[-0.5, 1.3)] gets the index, among 0..5, of the one reference band that
    contains it; a NaN and a value below -0.5 or at or above 1.3 get the
    sentinel 255.  Lower bounds are inclusive and upper bounds exclusive: the
    value 0.100 is Low Severity (index 3) and the value 0.270 is Moderate
    Severity (index 4). *)
Theorem classify_dnbr_total :
  forall (dnbr : ndarray npfloat) (i j : nat) (v : npfloat),
    getitem dnbr i j = Some v ->
    exists c : Z,
      getitem (classify_dnbr dnbr) i j = Some c
      /\ (fl_le (Fin (-0.5)) v = true -> fl_lt v (Fin 1.3) = true ->
          exists k s,
            (k < 6)%nat /\ c = Z.of_nat k
            /\ nth_error BURN_SEVERITY_CLASSES k = Some s
            /\ in_band s v = true
            /\ (forall k' s',
                   nth_error BURN_SEVERITY_CLASSES k' = Some s' ->
                   in_band s' v = true -> k' = k))
      /\ (isnan v = true \/ fl_lt v (Fin (-0.5)) = true
          \/ fl_ge v (Fin 1.3) = true -> c = 255%Z)
      /\ (fl_eq v (Fin 0.100) = true ->
          c = 3%Z
          /\ option_map name (nth_error BURN_SEVERITY_CLASSES 3)
             = Some "Low Severity"%string)
      /\ (fl_eq v (Fin 0.270) = true ->
          c = 4%Z
          /\ option_map name (nth_error BURN_SEVERITY_CLASSES 4)
             = Some "Moderate Severity"%string).
Proof.
  intros dnbr i j v Hv. unfold classify_dnbr.
  rewrite (getitem_classify_with dnbr BURN_SEVERITY_CLASSES i j v Hv).
  eexists; split; [reflexivity|].
  destruct v as [| | |q].
  - (* NaN *)
    repeat split; try discriminate; intros; reflexivity.
  - (* +Inf *)
    repeat split; try discriminate; intros; reflexivity.
  - (* -Inf *)
    repeat split; try discriminate; intros; reflexivity.
  - split; [|split; [|split]].
    + intros Hlo Hhi. simpl in Hlo, Hhi.
      apply Qle_bool_iff in Hlo. apply Qltb_iff in Hhi.
      destruct (classify_in_domain q Hlo Hhi) as (k & s & Hk & Hs & Hin & Hc).
      exists k, s. repeat split; auto.
      intros k' s' Hs' Hin'.
      exact (reference_bands_disjoint q k k' s s' Hs Hs' Hin Hin').
    + rewrite classify_finite_value.
      intros [H|[H|H]]; [discriminate| |]; simpl in H.
      * apply Qltb_iff in H. qdecide. reflexivity.
      * unfold fl_ge in H; simpl in H. apply Qle_bool_iff in H.
        qdecide. reflexivity.
    + rewrite classify_finite_value. intros H. simpl in H.
      apply Qeq_bool_iff in H. split; [|reflexivity].
      qdecide. reflexivity.
    + rewrite classify_finite_value. intros H. simpl in H.
      apply Qeq_bool_iff in H. split; [|reflexivity].
      qdecide. reflexivity.
Qed.

Lemma classify_dnbr_total_witness :
  exists c : Z,
    getitem (classify_dnbr (one_pixel (Fin 0.100))) 0 0 = Some c /\ c = 3%Z.
Proof.
  destruct (classify_dnbr_total (one_pixel (Fin 0.100)) 0 0 (Fin 0.100)
              eq_refl) as (c & Hc & _ & _ & Hlow & _).
  exists c. split; [exact Hc|]. exact (proj1 (Hlow eq_refl)).
Defined.

(** ** Normalisation for the overlay *)

Lemma Qdiv_unit_interval (a d : Q) :
  0 < d -> 0 <= a -> a <= d -> 0 <= a / d /\ a / d <= 1.
Proof.
  intros Hd Ha Had. split.
  - apply Qle_shift_div_l; [exact Hd|]. lra.
  - apply Qle_shift_div_r; [exact Hd|]. lra.
Qed.

(** The value that [normalize_for_overlay] gives one pixel, case by case. *)
Lemma normalize_pixel_cases (lo hi : Q) (v : npfloat) :
  lo < hi ->
  exists q,
    normalize_pixel (Fin lo) (Fin hi) v = Fin q
    /\ 0 <= q /\ q <= 1
    /\ match v with
       | NaN | NInf => q == 0
       | PInf => q == 1
       | Fin x =>
           (x <= lo -> q == 0) /\ (hi <= x -> q == 1)
           /\ (lo <= x -> x <= hi -> q == (x - lo) / (hi - lo))
       end.
Proof.
  intros Hlt.
  assert (Hd : 0 < hi - lo) by lra.
  destruct v as [| | |x];
    unfold normalize_pixel, fl_clip, fl_maximum, fl_minimum, fl_lt.
  - exists 0.0. simpl. repeat split; lra.
  - simpl. qdecide. simpl. qdecide. simpl.
    exists ((hi - lo) / (hi - lo)).
    destruct (Qdiv_unit_interval (hi - lo) (hi - lo)) as [H0 H1]; try lra.
    repeat split; auto. field. lra.
  - simpl. qdecide. simpl. qdecide. simpl.
    exists ((lo - lo) / (hi - lo)).
    destruct (Qdiv_unit_interval (lo - lo) (hi - lo)) as [H0 H1]; try lra.
    repeat split; auto. field. lra.
  - qsplit x lo; [|qsplit hi x].
    + qdecide. simpl. qdecide. simpl.
      exists ((lo - lo) / (hi - lo)).
      destruct (Qdiv_unit_interval (lo - lo) (hi - lo)) as [H0 H1]; try lra.
      repeat split; auto; intros; try lra; try (field; lra).
    + qdecide. simpl. qdecide. simpl.
      exists ((hi - lo) / (hi - lo)).
      destruct (Qdiv_unit_interval (hi - lo) (hi - lo)) as [H0 H1]; try lra.
      repeat split; auto; intros; try lra; try (field; lra).
    + qdecide. simpl. qdecide. simpl.
      exists ((x - lo) / (hi - lo)).
      destruct (Qdiv_unit_interval (x - lo) (hi - lo)) as [H0 H1]; try lra.
      repeat split; auto; intros; try reflexivity.
      * assert (Hx : x == lo) by lra. rewrite Hx. field. lra.
      * assert (Hx : x == hi) by lra. rewrite Hx. field. lra.
Qed.

(** With a bound that is not finite the rescaling divides by an infinite
    or undefined range (or subtracts the bound from itself), and every
    pixel ends at 0.0. *)
Lemma normalize_pixel_nonfinite_bounds (lo hi v : npfloat) :
  isfinite lo && isfinite hi = false ->
  exists q, normalize_pixel lo hi v = Fin q /\ q == 0.
Proof.
  intros H.
  destruct lo as [| | |l], hi as [| | |h]; try discriminate;
    destruct v as [| | |x];
    unfold normalize_pixel, fl_clip, fl_maximum, fl_minimum, fl_lt;
    cbn;
    repeat match goal with
      | |- context [if ?b then _ else _] => destruct b; cbn
      end;
    eexists; split; reflexivity.
Qed.

(** C5 (as amended).  For every raster and bounds [min_val < max_val],
    [normalize_for_overlay] keeps the shape and gives every pixel a finite
    value of [[0, 1]], so no NaN is left.  With finite bounds a finite
    value is clipped to [[min_val, max_val]] and rescaled linearly, NaN and
    -Inf become 0.0, and +Inf becomes 1.0.  With an infinite bound every
    pixel becomes 0.0. *)
Theorem normalize_for_overlay_spec :
  forall (array : ndarray npfloat) (min_val max_val : npfloat),
    fl_lt min_val max_val = true ->
    shape (normalize_for_overlay array min_val max_val) = shape array
    /\ forall i j v,
        getitem array i j = Some v ->
        exists q,
          getitem (normalize_for_overlay array min_val max_val) i j
          = Some (Fin q)
          /\ 0 <= q /\ q <= 1
          /\ match min_val, max_val with
             | Fin lo, Fin hi =>
                 match v with
                 | NaN | NInf => q == 0
                 | PInf => q == 1
                 | Fin x =>
                     (x <= lo -> q == 0) /\ (hi <= x -> q == 1)
                     /\ (lo <= x -> x <= hi -> q == (x - lo) / (hi - lo))
                 end
             | _, _ => q == 0
             end.
Proof.
  intros array min_val max_val Hlt. split; [reflexivity|].
  intros i j v Hv. unfold normalize_for_overlay.
  rewrite getitem_np_map, Hv. simpl.
  destruct (isfinite min_val && isfinite max_val) eqn:Hfin.
  - destruct min_val as [| | |lo], max_val as [| | |hi]; try discriminate.
    apply Qltb_iff in Hlt.
    destruct (normalize_pixel_cases lo hi v Hlt) as (q & Hq & Hrest).
    exists q. rewrite Hq. auto.
  - destruct (normalize_pixel_nonfinite_bounds min_val max_val v Hfin)
      as (q & Hq & Hzero).
    exists q. rewrite Hq. split; [reflexivity|].
    split; [lra|]. split; [lra|].
    destruct min_val, max_val; try exact Hzero; discriminate.
Qed.

Lemma normalize_for_overlay_spec_witness :
  exists q,
    getitem (normalize_for_overlay (one_pixel PInf) (Fin (-1.0)) (Fin 1.0)) 0 0
    = Some (Fin q)
    /\ q == 1.
Proof.
  destruct (proj2 (normalize_for_overlay_spec (one_pixel PInf)
                     (Fin (-1.0)) (Fin 1.0) eq_refl)
              0%nat 0%nat PInf eq_refl) as (q & Hq & _ & _ & H1).
  exists q. split; [exact Hq|exact H1].
Defined.

(** C5 (as stated) fails at +Inf: the pixel becomes 1.0, not 0.0. *)
Lemma normalize_posinf_counterexample :
  exists out : npfloat,
    getitem (normalize_for_overlay (one_pixel PInf) (Fin (-1.0)) (Fin 1.0)) 0 0
    = Some out
    /\ fl_eq out (Fin 1.0) = true
    /\ fl_eq out (Fin 0.0) = false.
Proof. eexists. repeat split. Qed.

(** ** The overlay image *)

Lemma take_in_range {A} (xs : list A) (i : Z) :
  (- Z.of_nat (length xs) <= i < Z.of_nat (length xs))%Z ->
  exists x, take xs i = Ok x.
Proof.
  intros H. unfold take.
  set (n := Z.of_nat (length xs)) in *.
  set (k := if (i <? 0)%Z then (i + n)%Z else i).
  assert (Hk : (0 <= k < n)%Z).
  { unfold k. destruct (i <? 0)%Z eqn:E.
    - apply Z.ltb_lt in E. lia.
    - apply Z.ltb_ge in E. lia. }
  replace ((0 <=? k) && (k <? n))%Z with true
    by (symmetry; apply andb_true_iff; split;
        [apply Z.leb_le|apply Z.ltb_lt]; lia).
  destruct (nth_error xs (Z.to_nat k)) as [x|] eqn:E; [now exists x|].
  apply nth_error_None in E. unfold n in Hk. lia.
Qed.

(** With at least one colour stop, no pixel is out of bounds, and the alpha
    of a pixel is 180 or 0 according to the sign of the value that
    [colorize] receives. *)
Lemma colorize_pixel_alpha (colormap : colormap_t) (v : npfloat) :
  colormap <> [] ->
  exists r g b,
    colorize_pixel colormap v
    = Ok (r, g, b, if fl_gt v (Fin 0) then 180%Z else 0%Z).
Proof.
  intros Hne. unfold colorize_pixel.
  set (index := Zclip _ 1 _).
  assert (Hn : (1 <= Z.of_nat (length colormap))%Z).
  { destruct colormap; [contradiction|simpl; lia]. }
  assert (Hidx : (0 <= index <= Z.of_nat (length colormap) - 1)%Z).
  { unfold index, Zclip. rewrite length_map. lia. }
  destruct (take_in_range (map fst colormap) (index - 1)) as [lower Hl];
    [rewrite length_map; lia|].
  destruct (take_in_range (map fst colormap) index) as [upper Hu];
    [rewrite length_map; lia|].
  destruct (take_in_range (map snd colormap) (index - 1)) as [[[lr lg] lb] Hlc];
    [rewrite length_map; lia|].
  destruct (take_in_range (map snd colormap) index) as [[[hr hg] hb] Hhc];
    [rewrite length_map; lia|].
  rewrite Hl, Hu, Hlc, Hhc. unfold result_bind.
  do 3 eexists. destruct (fl_gt v (Fin 0)); reflexivity.
Qed.

Lemma mapM_pointwise {A B} (f : A -> result B) (P : A -> B -> Prop)
    (xs : list A) :
  (forall x, exists y, f x = Ok y /\ P x y) ->
  exists ys,
    mapM f xs = Ok ys
    /\ forall k x, nth_error xs k = Some x ->
                   exists y, nth_error ys k = Some y /\ P x y.
Proof.
  intros Hf. induction xs as [|x xs (ys & Hys & Hnth)]; simpl.
  - exists []. split; [reflexivity|]. intros k x H. destruct k; discriminate.
  - destruct (Hf x) as (y & Hy & HP). rewrite Hy, Hys. simpl.
    exists (y :: ys). split; [reflexivity|].
    intros [|k] x' H; simpl in *.
    + inversion H; subst. now exists y.
    + now apply Hnth.
Qed.

(** After normalisation to [[-1, 1]] a pixel is strictly positive exactly
    when it was above -1 before. *)
Lemma normalized_positive (v : npfloat) :
  fl_gt (normalize_pixel (Fin (-1.0)) (Fin 1.0) v) (Fin 0)
  = fl_gt v (Fin (-1.0)).
Proof.
  assert (Hlt : -1.0 < 1.0) by reflexivity.
  destruct (normalize_pixel_cases (-1.0) 1.0 v Hlt) as (q & Hq & H0 & H1 & Hv).
  rewrite Hq. unfold fl_gt. simpl.
  destruct v as [| | |x]; simpl.
  - now rewrite Qltb_false by lra.
  - now rewrite Qltb_true by lra.
  - now rewrite Qltb_false by lra.
  - destruct Hv as (Hlow & Hhigh & Hmid).
    qsplit (-1.0) x.
    + rewrite (Qltb_true (-1.0) x) by lra.
      apply Qltb_true.
      qsplit x 1.0.
      * rewrite Hmid by lra.
        apply Qlt_shift_div_l; lra.
      * rewrite Hhigh by lra. lra.
    + rewrite (Qltb_false (-1.0) x) by lra.
      apply Qltb_false. rewrite Hlow by lra. lra.
Qed.

(** C2 (as amended).  For every raster and every colour ramp with at
    least one stop, the overlay image has the shape of the raster, and the
    alpha of a pixel is 180 exactly when the NORMALISED value that
    [colorize] receives is strictly positive, which is exactly when the
    original value is strictly above -1 (so neither NaN nor -Inf); it is 0
    otherwise. *)
Theorem overlay_alpha_follows_normalized_value :
  forall (array : ndarray npfloat) (colormap : colormap_t),
    colormap <> [] ->
    exists image,
      raster_overlay array colormap = Ok image
      /\ shape image = shape array
      /\ forall i j v,
          getitem array i j = Some v ->
          exists r g b a,
            getitem image i j = Some (r, g, b, a)
            /\ a = (if fl_gt (normalize_pixel (Fin (-1.0)) (Fin 1.0) v) (Fin 0)
                    then 180 else 0)%Z
            /\ a = (if fl_gt v (Fin (-1.0)) then 180 else 0)%Z.
Proof.
  intros array colormap Hne. unfold raster_overlay, colorize.
  destruct (mapM_pointwise (colorize_pixel colormap)
              (fun n px => exists r g b,
                   px = (r, g, b, if fl_gt n (Fin 0) then 180%Z else 0%Z))
              (data (normalize_for_overlay array (Fin (-1.0)) (Fin 1.0))))
    as (px & Hpx & Hnth).
  { intros n. destruct (colorize_pixel_alpha colormap n Hne) as (r & g & b & H).
    eexists. split; [exact H|]. now exists r, g, b. }
  rewrite Hpx. cbn [result_bind].
  destruct colormap as [|stop colormap]; [contradiction|].
  eexists. split; [reflexivity|]. split; [reflexivity|].
  intros i j v Hv. apply getitem_inv in Hv. destruct Hv as (Hi & Hj & Hv).
  destruct (Hnth (i * ncols array + j)%nat
              (normalize_pixel (Fin (-1.0)) (Fin 1.0) v))
    as (p & Hp & r & g & b & Heq).
  { simpl. rewrite nth_error_map, Hv. reflexivity. }
  exists r, g, b.
  exists (if fl_gt (normalize_pixel (Fin (-1.0)) (Fin 1.0) v) (Fin 0)
          then 180%Z else 0%Z).
  split; [|split; [reflexivity|now rewrite normalized_positive]].
  rewrite getitem_intro by exact Hi || exact Hj. simpl.
  unfold ncols in *. simpl. rewrite Hp, Heq. reflexivity.
Qed.

Lemma overlay_alpha_follows_normalized_value_witness :
  exists image r g b,
    raster_overlay (one_pixel (Fin (-0.5))) DEFAULT_DNBR_COLORMAP = Ok image
    /\ getitem image 0 0 = Some (r, g, b, 180%Z).
Proof.
  assert (Hne : DEFAULT_DNBR_COLORMAP <> []) by discriminate.
  destruct (overlay_alpha_follows_normalized_value
              (one_pixel (Fin (-0.5))) DEFAULT_DNBR_COLORMAP Hne)
    as (image & Himg & _ & Hpix).
  destruct (Hpix 0%nat 0%nat (Fin (-0.5)) eq_refl)
    as (r & g & b & a & Hget & _ & Ha).
  exists image, r, g, b. split; [exact Himg|].
  rewrite Hget, Ha. reflexivity.
Defined.

(** C2 (as stated) fails: the original value -0.5 is not strictly positive,
    and its pixel has alpha 180. *)
Lemma overlay_alpha_counterexample :
  fl_gt (Fin (-0.5)) (Fin 0) = false
  /\ raster_overlay (one_pixel (Fin (-0.5))) DEFAULT_DNBR_COLORMAP
     = Ok (mkArr (1, 1)%nat [(152, 210, 129, 180)%Z]).
Proof. split; reflexivity. Qed.

(** ** Binary operations and broadcasting *)

Lemma tabulate_succ {C} (g : nat -> nat -> C) (c r : nat) :
  tabulate g c (S r) = tabulate g c r ++ map (g r) (seq 0 c).
Proof.
  unfold tabulate. rewrite seq_S, flat_map_app. simpl.
  now rewrite app_nil_r.
Qed.

Lemma length_tabulate {C} (g : nat -> nat -> C) (c r : nat) :
  length (tabulate g c r) = (r * c)%nat.
Proof.
  induction r as [|r IH]; [reflexivity|].
  rewrite tabulate_succ, length_app, IH, length_map, length_seq. lia.
Qed.

Lemma nth_error_tabulate {C} (g : nat -> nat -> C) (c r i j : nat) :
  (i < r)%nat -> (j < c)%nat ->
  nth_error (tabulate g c r) (i * c + j) = Some (g i j).
Proof.
  induction r as [|r IH]; intros Hi Hj; [lia|].
  rewrite tabulate_succ.
  destruct (Nat.eq_dec i r) as [->|Hne].
  - rewrite nth_error_app2; rewrite length_tabulate; [|lia].
    replace (r * c + j - r * c)%nat with j by lia.
    rewrite nth_error_map, nth_error_seq.
    apply Nat.ltb_lt in Hj. now rewrite Hj.
  - rewrite nth_error_app1.
    + apply IH; lia.
    + rewrite length_tabulate. apply flat_index_bound; lia.
Qed.

Lemma broadcast_dim_same (n : nat) : broadcast_dim n n = Some n.
Proof. unfold broadcast_dim. now rewrite Nat.eqb_refl. Qed.

Lemma bidx_inside (n i : nat) : (i < n)%nat -> bidx n i = i.
Proof.
  intros H. unfold bidx. destruct (n =? 1)%nat eqn:E; [|reflexivity].
  apply Nat.eqb_eq in E. lia.
Qed.

(** On operands of one shape a binary ufunc works pixel by pixel. *)
Lemma broadcast2_same_shape {A B C} (dA : A) (dB : B) (f : A -> B -> C)
    (a : ndarray A) (b : ndarray B) :
  shape a = shape b ->
  exists z,
    broadcast2 dA dB f a b = Ok z
    /\ shape z = shape a
    /\ wf z
    /\ forall i j x y,
        getitem a i j = Some x -> getitem b i j = Some y ->
        getitem z i j = Some (f x y).
Proof.
  intros Hs. unfold broadcast2, nrows, ncols. rewrite <- Hs.
  rewrite !broadcast_dim_same.
  eexists. split; [reflexivity|]. split; [now destruct (shape a)|].
  split.
  - unfold wf, size, nrows, ncols. simpl. apply length_tabulate.
  - intros i j x y Hx Hy.
    apply getitem_inv in Hx. destruct Hx as (Hi & Hj & Hx).
    apply getitem_inv in Hy. destruct Hy as (_ & _ & Hy).
    unfold nrows, ncols in *. rewrite <- Hs in Hy.
    rewrite getitem_intro by (unfold nrows, ncols; simpl; assumption).
    unfold ncols. simpl.
    set (r := fst (shape a)) in *. set (c := snd (shape a)) in *.
    etransitivity;
      [exact (nth_error_tabulate
                (fun i j => f (nth (bidx r i * c + bidx c j) (data a) dA)
                              (nth (bidx r i * c + bidx c j) (data b) dB))
                c r i j Hi Hj)|].
    simpl. rewrite !bidx_inside by assumption.
    rewrite (nth_error_nth _ _ dA Hx), (nth_error_nth _ _ dB Hy).
    reflexivity.
Qed.

Lemma Forall2_tabulate {C D} (R : C -> D -> Prop)
    (g : nat -> nat -> C) (h : nat -> nat -> D) (c r : nat) :
  (forall i j, R (g i j) (h i j)) ->
  Forall2 R (tabulate g c r) (tabulate h c r).
Proof.
  intros H. induction r as [|r IH]; [constructor|].
  rewrite !tabulate_succ. apply Forall2_app; [exact IH|].
  induction (seq 0 c); simpl; constructor; auto.
Qed.

Lemma Forall2_map_right {C D E} (R : C -> E -> Prop) (h : D -> E)
    (xs : list C) (ys : list D) :
  Forall2 (fun x y => R x (h y)) xs ys -> Forall2 R xs (map h ys).
Proof. induction 1; simpl; constructor; auto. Qed.

Lemma classic_compat (n m : nat) :
  broadcast_compatible n m \/ ~ broadcast_compatible n m.
Proof. unfold broadcast_compatible. lia. Qed.

Lemma broadcast_dim_None (n m : nat) :
  broadcast_dim n m = None <-> ~ broadcast_compatible n m.
Proof.
  unfold broadcast_dim, broadcast_compatible.
  destruct (n =? m)%nat eqn:E1; [apply Nat.eqb_eq in E1|apply Nat.eqb_neq in E1].
  { split; [discriminate|intros H; exfalso; apply H; auto]. }
  destruct (n =? 1)%nat eqn:E2; [apply Nat.eqb_eq in E2|apply Nat.eqb_neq in E2].
  { split; [discriminate|intros H; exfalso; apply H; auto]. }
  destruct (m =? 1)%nat eqn:E3; [apply Nat.eqb_eq in E3|apply Nat.eqb_neq in E3].
  { split; [discriminate|intros H; exfalso; apply H; auto]. }
  split; [|reflexivity]. intros _ [H|[H|H]]; contradiction.
Qed.

Lemma broadcast2_raises {A B C} (dA : A) (dB : B) (f : A -> B -> C)
    (a : ndarray A) (b : ndarray B) :
  broadcast2 dA dB f a b = Raise ValueError
  <-> ~ (broadcast_compatible (nrows a) (nrows b)
         /\ broadcast_compatible (ncols a) (ncols b)).
Proof.
  unfold broadcast2.
  destruct (broadcast_dim (nrows a) (nrows b)) as [r|] eqn:Er;
    [destruct (broadcast_dim (ncols a) (ncols b)) as [c|] eqn:Ec|].
  - split; [discriminate|]. intros H. exfalso. apply H. split.
    + destruct (classic_compat (nrows a) (nrows b)) as [Hc|Hc]; [exact Hc|].
      apply broadcast_dim_None in Hc. congruence.
    + destruct (classic_compat (ncols a) (ncols b)) as [Hc|Hc]; [exact Hc|].
      apply broadcast_dim_None in Hc. congruence.
  - split; [|reflexivity]. intros _ [_ H].
    apply broadcast_dim_None in Ec. contradiction.
  - split; [|reflexivity]. intros _ [H _].
    apply broadcast_dim_None in Er. contradiction.
Qed.

Lemma fl_sub_nan (x y : npfloat) :
  isnan x = true \/ isnan y = true -> isnan (fl_sub x y) = true.
Proof.
  intros [H|H]; destruct x, y; try discriminate; reflexivity.
Qed.

Lemma fl_sub_antisymmetric (x y : npfloat) :
  nan_equal (fl_sub x y) (fl_neg (fl_sub y x)).
Proof.
  destruct x, y; simpl; auto. ring.
Qed.

(** C6 (as amended).  [calculate_dnbr] has no shape check of its own: the
    subtraction follows the broadcasting of NumPy.  It raises ([ValueError])
    exactly when the two shapes cannot be broadcast together, that is when
    in some dimension the lengths differ and neither is 1.  On operands of
    one shape it returns the pixel-by-pixel difference [pre - post], which
    is NaN wherever either operand is NaN. *)
Theorem calculate_dnbr_broadcasts :
  forall (pre post : ndarray npfloat),
    (calculate_dnbr pre post = Raise ValueError
     <-> ~ (broadcast_compatible (nrows pre) (nrows post)
            /\ broadcast_compatible (ncols pre) (ncols post)))
    /\ (shape pre = shape post ->
        exists d,
          calculate_dnbr pre post = Ok d
          /\ shape d = shape pre
          /\ forall i j x y,
              getitem pre i j = Some x -> getitem post i j = Some y ->
              getitem d i j = Some (fl_sub x y)
              /\ (isnan x = true \/ isnan y = true ->
                  isnan (fl_sub x y) = true)).
Proof.
  intros pre post. split; [apply broadcast2_raises|].
  intros Hs. unfold calculate_dnbr.
  destruct (broadcast2_same_shape NaN NaN fl_sub pre post Hs)
    as (d & Hd & Hshape & _ & Hpix).
  exists d. repeat split; auto. apply fl_sub_nan.
Qed.

Lemma calculate_dnbr_broadcasts_witness :
  exists d,
    calculate_dnbr (one_pixel (Fin 0.6)) (one_pixel NaN) = Ok d
    /\ getitem d 0 0 = Some NaN.
Proof.
  destruct (proj2 (calculate_dnbr_broadcasts (one_pixel (Fin 0.6))
                     (one_pixel NaN)) eq_refl)
    as (d & Hd & _ & Hpix).
  exists d. split; [exact Hd|].
  exact (proj1 (Hpix 0%nat 0%nat (Fin 0.6) NaN eq_refl eq_refl)).
Defined.

(** C6 (as stated) fails: a 1x2 raster and a 2x2 raster differ in shape,
    and the difference is returned, the single row being repeated. *)
Lemma calculate_dnbr_shape_counterexample :
  shape (mkArr (1, 2)%nat [Fin 1; Fin 2])
    <> shape (mkArr (2, 2)%nat [Fin 1; Fin 2; Fin 3; Fin 4])
  /\ calculate_dnbr (mkArr (1, 2)%nat [Fin 1; Fin 2])
                    (mkArr (2, 2)%nat [Fin 1; Fin 2; Fin 3; Fin 4])
     = Ok (mkArr (2, 2)%nat [Fin 0; Fin 0; Fin (-2); Fin (-2)]).
Proof. split; [discriminate|reflexivity]. Qed.

(** C8.  For rasters of one shape, [calculate_dnbr pre post] is the
    negation of [calculate_dnbr post pre] pixel by pixel, under the equality
    that takes NaN equal to NaN: both are NaN at the same pixels and equal
    elsewhere. *)
Theorem calculate_dnbr_antisymmetric :
  forall (pre post : ndarray npfloat),
    shape pre = shape post ->
    exists d1 d2,
      calculate_dnbr pre post = Ok d1
      /\ calculate_dnbr post pre = Ok d2
      /\ shape d1 = shape d2
      /\ Forall2 nan_equal (data d1) (data (np_map fl_neg d2)).
Proof.
  intros pre post Hs. unfold calculate_dnbr, broadcast2, nrows, ncols.
  rewrite <- Hs, !broadcast_dim_same.
  do 2 eexists. split; [reflexivity|]. split; [reflexivity|].
  split; [reflexivity|]. simpl.
  apply Forall2_map_right.
  apply (Forall2_tabulate (fun x y => nan_equal x (fl_neg y))).
  intros i j. apply fl_sub_antisymmetric.
Qed.

Lemma calculate_dnbr_antisymmetric_witness :
  exists d1 d2,
    calculate_dnbr (one_pixel (Fin 0.6)) (one_pixel PInf) = Ok d1
    /\ calculate_dnbr (one_pixel PInf) (one_pixel (Fin 0.6)) = Ok d2
    /\ Forall2 nan_equal (data d1) (data (np_map fl_neg d2)).
Proof.
  destruct (calculate_dnbr_antisymmetric (one_pixel (Fin 0.6)) (one_pixel PInf)
              eq_refl) as (d1 & d2 & H1 & H2 & _ & H).
  exists d1, d2. auto.
Defined.

(** ** The burn ratio on array objects *)

Lemma nth_error_replace_nth_same {E} (h : store E) (r : ref) (a : ndarray E) :
  (r < length h)%nat -> nth_error (replace_nth h r a) r = Some a.
Proof.
  revert r. induction h as [|x h IH]; intros r H; simpl in *; [lia|].
  destruct r; simpl; [reflexivity|]. apply IH. lia.
Qed.

Lemma nth_error_replace_nth_other {E} (h : store E) (r r' : ref)
    (a : ndarray E) :
  r <> r' -> nth_error (replace_nth h r a) r' = nth_error h r'.
Proof.
  revert r r'. induction h as [|x h IH]; intros r r' H; simpl.
  - now destruct r.
  - destruct r, r'; simpl; try reflexivity; try congruence.
    apply IH. congruence.
Qed.

Lemma nth_error_snoc_old {E} (h : store E) (z : ndarray E) (r : ref)
    (x : ndarray E) :
  nth_error h r = Some x -> nth_error (h ++ [z]) r = Some x.
Proof.
  intros H. rewrite nth_error_app1; [exact H|].
  apply nth_error_Some. congruence.
Qed.

Lemma nth_error_snoc_new {E} (h : store E) (z : ndarray E) :
  nth_error (h ++ [z]) (length h) = Some z.
Proof. rewrite nth_error_app2, Nat.sub_diag; [reflexivity|lia]. Qed.

(** A binary ufunc on two objects of one shape: the store grows by the
    result and nothing else changes. *)
Lemma ufunc2_same_shape (f : npfloat -> npfloat -> npfloat)
    (h : store npfloat) (a b : ref) (x y : ndarray npfloat) :
  nth_error h a = Some x -> nth_error h b = Some y -> shape x = shape y ->
  exists z,
    ufunc2 f a b h = Ok (length h, h ++ [z])
    /\ shape z = shape x
    /\ forall i j u w,
        getitem x i j = Some u -> getitem y i j = Some w ->
        getitem z i j = Some (f u w).
Proof.
  intros Ha Hb Hs. unfold ufunc2, bind, deref, lift, new.
  rewrite Ha, Hb.
  destruct (broadcast2_same_shape NaN NaN f x y Hs) as (z & Hz & Hsh & _ & Hp).
  rewrite Hz. exists z. auto.
Qed.

(** One pixel of [_safe_divide (nir - swir) (nir + swir)]. *)
Lemma nbr_pixel_cases (x y : npfloat) :
  let q := fl_div (fl_sub x y) (fl_add x y) in
  let z := if negb (isfinite q) then NaN else q in
  isinf z = false
  /\ (isnan z = true <->
      fl_eq (fl_add x y) (Fin 0) = true \/ isnan x = true \/ isnan y = true
      \/ isinf x = true \/ isinf y = true)
  /\ (fl_le (Fin 0) x = true -> fl_le x (Fin 1) = true ->
      fl_le (Fin 0) y = true -> fl_le y (Fin 1) = true ->
      fl_eq (fl_add x y) (Fin 0) = false ->
      fl_le (Fin (-1)) z = true /\ fl_le z (Fin 1) = true).
Proof.
  destruct x as [| | |a], y as [| | |b]; simpl;
    try (split; [reflexivity|split; [|discriminate]];
         split; [intros _; auto 6|reflexivity]).
  (* both finite: the other pairs hold a NaN or an infinity *)
  destruct (Qeq_bool (a + b) 0) eqn:E.
  - assert (Hz : (if negb (isfinite
                             (if Qeq_bool (a - b) 0 then NaN
                              else inf_of_sign (Qneg (a - b))))
                  then NaN
                  else if Qeq_bool (a - b) 0 then NaN
                       else inf_of_sign (Qneg (a - b))) = NaN).
    { destruct (Qeq_bool (a - b) 0); [reflexivity|].
      destruct (Qneg (a - b)); reflexivity. }
    rewrite Hz. simpl. split; [reflexivity|]. split; [tauto|discriminate].
  - simpl. split; [reflexivity|]. split.
    + split; [discriminate|].
      intros [H|[H|[H|[H|H]]]]; discriminate.
    + intros Ha0 Ha1 Hb0 Hb1 _.
      apply Qle_bool_iff in Ha0, Ha1, Hb0, Hb1.
      assert (Hne : ~ a + b == 0).
      { intros H. apply Qeq_bool_iff in H. congruence. }
      assert (Hpos : 0 < a + b) by lra.
      split; apply Qle_bool_iff.
      * apply Qle_shift_div_l; [exact Hpos|]. lra.
      * apply Qle_shift_div_r; [exact Hpos|]. lra.
Qed.

(** C4 (as amended).  On two array objects of one shape, [calculate_nbr]
    does not raise and returns a new object; every object that was in the
    store before the call, the two inputs among them, is unchanged.  The
    result has the shape of the inputs, holds no infinity, and is NaN at
    exactly the pixels where [a + b == 0] or where an input is NaN or
    infinite.  Where both inputs are reflectances of [[0, 1]] with a sum
    that is not zero, the result lies in [[-1, 1]]. *)
Theorem calculate_nbr_spec :
  forall (h : store npfloat) (nir swir : ref) (a b : ndarray npfloat),
    nth_error h nir = Some a ->
    nth_error h swir = Some b ->
    shape a = shape b ->
    exists (out : ref) (h' : store npfloat) (res : ndarray npfloat),
      calculate_nbr nir swir h = Ok (out, h')
      /\ (forall r x, nth_error h r = Some x -> nth_error h' r = Some x)
      /\ nth_error h out = None
      /\ nth_error h' out = Some res
      /\ shape res = shape a
      /\ forall i j x y,
          getitem a i j = Some x -> getitem b i j = Some y ->
          exists z,
            getitem res i j = Some z
            /\ isinf z = false
            /\ (isnan z = true <->
                fl_eq (fl_add x y) (Fin 0) = true
                \/ isnan x = true \/ isnan y = true
                \/ isinf x = true \/ isinf y = true)
            /\ (fl_le (Fin 0) x = true -> fl_le x (Fin 1) = true ->
                fl_le (Fin 0) y = true -> fl_le y (Fin 1) = true ->
                fl_eq (fl_add x y) (Fin 0) = false ->
                fl_le (Fin (-1)) z = true /\ fl_le z (Fin 1) = true).
Proof.
  intros h nir swir a b Ha Hb Hs.
  (* nir - swir *)
  destruct (ufunc2_same_shape fl_sub h nir swir a b Ha Hb Hs)
    as (d & Hd & Hdshape & Hdpix).
  (* nir + swir *)
  destruct (ufunc2_same_shape fl_add (h ++ [d]) nir swir a b
              (nth_error_snoc_old h d nir a Ha)
              (nth_error_snoc_old h d swir b Hb) Hs)
    as (t & Ht & Htshape & Htpix).
  (* the quotient *)
  destruct (ufunc2_same_shape fl_div ((h ++ [d]) ++ [t])
              (length h) (length (h ++ [d])) d t
              (nth_error_snoc_old _ t _ d (nth_error_snoc_new h d))
              (nth_error_snoc_new (h ++ [d]) t)
              (eq_trans Hdshape (eq_sym Htshape)))
    as (q & Hq & Hqshape & Hqpix).
  set (h3 := ((h ++ [d]) ++ [t]) ++ [q]) in *.
  set (out := length ((h ++ [d]) ++ [t])) in *.
  set (res := setitem_mask q (np_map (fun x => negb (isfinite x)) q) NaN).
  assert (Hout : nth_error h3 out = Some q) by apply nth_error_snoc_new.
  exists out, (replace_nth h3 out res), res.
  split; [|split; [|split; [|split; [|split]]]].
  - unfold calculate_nbr, _safe_divide, bind.
    rewrite Hd, Ht, Hq. unfold deref, assign, ret.
    fold h3. rewrite Hout. cbv beta iota. rewrite Hout. reflexivity.
  - intros r x Hr.
    assert (Hlt : (r < length h)%nat) by (apply nth_error_Some; congruence).
    rewrite nth_error_replace_nth_other
      by (unfold out; rewrite !length_app; simpl; lia).
    unfold h3. now repeat apply nth_error_snoc_old.
  - apply nth_error_None. unfold out. rewrite !length_app. simpl. lia.
  - apply nth_error_replace_nth_same.
    unfold h3, out. rewrite !length_app. simpl. lia.
  - simpl. congruence.
  - intros i j x y Hx Hy.
    pose proof (Hqpix i j _ _ (Hdpix i j x y Hx Hy) (Htpix i j x y Hx Hy))
      as Hz.
    exists (if negb (isfinite (fl_div (fl_sub x y) (fl_add x y)))
            then NaN else fl_div (fl_sub x y) (fl_add x y)).
    split; [|apply nbr_pixel_cases].
    apply getitem_inv in Hz. destruct Hz as (Hi & Hj & Hz).
    rewrite getitem_intro by exact Hi || exact Hj.
    unfold res, setitem_mask, np_map, ncols. simpl.
    apply nth_error_masked_fill; [exact Hz|].
    unfold ncols in Hz. rewrite nth_error_map, Hz. reflexivity.
Qed.

Lemma calculate_nbr_spec_witness :
  exists out h' res,
    calculate_nbr 0%nat 1%nat [one_pixel (Fin 0.8); one_pixel (Fin 0.2)]
    = Ok (out, h')
    /\ nth_error h' 0 = Some (one_pixel (Fin 0.8))
    /\ nth_error h' 1 = Some (one_pixel (Fin 0.2))
    /\ nth_error h' out = Some res
    /\ shape res = (1, 1)%nat.
Proof.
  destruct (calculate_nbr_spec
              [one_pixel (Fin 0.8); one_pixel (Fin 0.2)] 0%nat 1%nat
              (one_pixel (Fin 0.8)) (one_pixel (Fin 0.2))
              eq_refl eq_refl eq_refl)
    as (out & h' & res & Hrun & Hkeep & _ & Hres & Hshape & _).
  exists out, h', res.
  split; [exact Hrun|].
  split; [exact (Hkeep 0%nat _ eq_refl)|].
  split; [exact (Hkeep 1%nat _ eq_refl)|].
  split; [exact Hres|exact Hshape].
Defined.

(** C4 (as stated) fails: with [a = +Inf] and [b = 1] neither input is NaN
    and [a + b] is not zero, and the result is NaN. *)
Lemma calculate_nbr_infinite_counterexample :
  isnan PInf = false
  /\ isnan (Fin 1) = false
  /\ fl_eq (fl_add PInf (Fin 1)) (Fin 0) = false
  /\ calculate_nbr 0%nat 1%nat [one_pixel PInf; one_pixel (Fin 1)]
     = Ok (4%nat,
           [one_pixel PInf; one_pixel (Fin 1);
            one_pixel PInf; one_pixel PInf; one_pixel NaN]).
Proof. repeat split. Qed.

(** ** Statistics *)

Lemma filter_all_nan (l : list npfloat) :
  (forall v, In v l -> isnan v = true) ->
  filter (fun x => negb (isnan x)) l = [].
Proof.
  induction l as [|x l IH]; intros H; simpl; [reflexivity|].
  rewrite (H x (or_introl eq_refl)). simpl.
  apply IH. intros v Hv. apply H. now right.
Qed.

Lemma np_sum_cons (b : bool) (l : list bool) :
  np_sum (b :: l) = ((if b then 1 else 0) + np_sum l)%Z.
Proof.
  unfold np_sum. destruct b; simpl filter; [|lia].
  change (length (true :: filter (fun b => b) l))
    with (S (length (filter (fun b => b) l))).
  lia.
Qed.

(** Pixels on which a test is false add nothing to the count of the
    pixels that pass it. *)
Lemma np_sum_skip (p e : npfloat -> bool) (l : list npfloat) :
  (forall x, e x = true -> p x = false) ->
  np_sum (map p l) = np_sum (map p (filter (fun x => negb (e x)) l)).
Proof.
  intros H. induction l as [|x l IH]; [reflexivity|].
  simpl map at 1. rewrite np_sum_cons, IH. simpl filter.
  destruct (e x) eqn:E; simpl.
  - now rewrite (H x E).
  - now rewrite np_sum_cons.
Qed.

Lemma fl_eq_not_gt (c : Q) (x : npfloat) :
  fl_eq x (Fin c) = true -> fl_gt x (Fin c) = false.
Proof.
  destruct x as [| | |q]; try discriminate.
  unfold fl_eq, fl_gt, fl_lt. intros H. apply Qeq_bool_iff in H.
  apply Qltb_false. rewrite H. apply Qle_refl.
Qed.

Lemma inject_Z_pos_nonzero (t : Z) :
  (t >? 0)%Z = true -> Qeq_bool (inject_Z t) 0 = false.
Proof.
  intros H. apply Qeq_bool_false. unfold Qeq. simpl. lia.
Qed.

Lemma pixel_area_km2_value :
  exists q, pixel_area_km2 = Fin q /\ q == 0.0001.
Proof. eexists. split; reflexivity. Qed.

(** The product of a pixel count with the area of one pixel. *)
Lemma area_of_count (n : Z) :
  exists q,
    fl_mul (Zfl n) pixel_area_km2 = Fin q /\ q == inject_Z n * 0.0001.
Proof.
  destruct pixel_area_km2_value as (a & Ha & Hq). rewrite Ha. simpl.
  eexists. split; [reflexivity|]. now rewrite Hq.
Qed.

Lemma percentage_finite (count total : Z) :
  isfinite (if (total >? 0)%Z
            then fl_div (Zfl (100 * count)) (Zfl total)
            else Fin 0.0) = true.
Proof.
  destruct (total >? 0)%Z eqn:E; [|reflexivity].
  unfold fl_div, Zfl. now rewrite (inject_Z_pos_nonzero total E).
Qed.

(** [np.sum] of a test over a list counts the elements that pass it. *)
Lemma np_sum_map_filter {A} (p : A -> bool) (l : list A) :
  np_sum (map p l) = Z.of_nat (length (filter p l)).
Proof.
  induction l as [|x l IH]; [reflexivity|].
  simpl map. rewrite np_sum_cons, IH. simpl filter.
  destruct (p x); [|lia].
  change (length (x :: filter p l)) with (S (length (filter p l))). lia.
Qed.

(** A test that is false on NaN counts the same pixels on the raster and
    on its valid pixels. *)
Lemma count_over_valid (p : npfloat -> bool) (l : list npfloat) :
  p NaN = false ->
  np_sum (map p (filter (fun x => negb (isnan x)) l))
  = Z.of_nat (length (filter p l)).
Proof.
  intros Hnan. rewrite <- np_sum_map_filter.
  symmetry. apply np_sum_skip.
  intros x Hx. destruct x; try discriminate. exact Hnan.
Qed.

(** C7.  The statistics are a mapping with exactly the five keys
    [total_area_km2], [burned_area_km2], [burned_percentage],
    [high_severity_km2] and [high_severity_percentage], in this order; every
    value is a finite float; and each area is a count of pixels of the dNBR
    raster times 0.0001 km2: the pixels that are not NaN for the total
    area, the pixels above 0.10 for the burned area, and the pixels above
    0.66 for the area of high severity. *)
Theorem compute_statistics_keys_and_areas :
  forall result : NBRRunResult,
    map fst (compute_statistics result)
    = [ "total_area_km2"; "burned_area_km2"; "burned_percentage";
        "high_severity_km2"; "high_severity_percentage" ]%string
    /\ Forall (fun item => isfinite (snd item) = true)
              (compute_statistics result)
    /\ (exists q,
           lookup "total_area_km2" (compute_statistics result) = Some (Fin q)
           /\ q == inject_Z
                     (Z.of_nat
                        (length (filter (fun x => negb (isnan x))
                                        (data (array (dnbr result))))))
                   * 0.0001)
    /\ (exists q,
           lookup "burned_area_km2" (compute_statistics result) = Some (Fin q)
           /\ q == inject_Z
                     (Z.of_nat
                        (length (filter (fun x => fl_gt x (Fin 0.10))
                                        (data (array (dnbr result))))))
                   * 0.0001)
    /\ (exists q,
           lookup "high_severity_km2" (compute_statistics result)
           = Some (Fin q)
           /\ q == inject_Z
                     (Z.of_nat
                        (length (filter (fun x => fl_gt x (Fin 0.66))
                                        (data (array (dnbr result))))))
                   * 0.0001).
Proof.
  intros result.
  assert (Htotal : total_pixels result
                   = Z.of_nat (length (filter (fun x => negb (isnan x))
                                              (data (array (dnbr result))))))
    by reflexivity.
  assert (Hburned : burned_pixels result
                    = Z.of_nat (length (filter (fun x => fl_gt x (Fin 0.10))
                                               (data (array (dnbr result))))))
    by (unfold burned_pixels, valid_dnbr; now apply count_over_valid).
  assert (Hhigh : high_severity result
                  = Z.of_nat (length (filter (fun x => fl_gt x (Fin 0.66))
                                             (data (array (dnbr result))))))
    by (unfold high_severity, valid_dnbr; now apply count_over_valid).
  rewrite <- Htotal, <- Hburned, <- Hhigh.
  unfold compute_statistics.
  destruct (area_of_count (total_pixels result)) as (qt & Ht & Hqt).
  destruct (area_of_count (burned_pixels result)) as (qb & Hb & Hqb).
  destruct (area_of_count (high_severity result)) as (qh & Hh & Hqh).
  cbv zeta. rewrite Ht, Hb, Hh.
  split; [reflexivity|]. split.
  - repeat constructor; apply percentage_finite.
  - split; [|split]; eexists; (split; [reflexivity|assumption]).
Qed.

(** C9.  Classifier and statistics part at the band boundaries.  A pixel
    that is exactly 0.10 is Low Severity (index 3) for [classify_dnbr] and
    fails the test [dnbr > 0.10] of [compute_statistics]; the count behind
    [burned_area_km2] and [burned_percentage] is the count over the valid
    pixels with every pixel equal to 0.10 left out.  The same holds at 0.66
    for High Severity (index 5) and the count behind [high_severity_km2] and
    [high_severity_percentage]. *)
Theorem boundary_pixels_classified_not_counted :
  forall (result : NBRRunResult) (i j : nat) (v : npfloat),
    getitem (array (dnbr result)) i j = Some v ->
    (fl_eq v (Fin 0.10) = true ->
     getitem (classify_dnbr (array (dnbr result))) i j = Some 3%Z
     /\ fl_gt v (Fin 0.10) = false)
    /\ (fl_eq v (Fin 0.66) = true ->
        getitem (classify_dnbr (array (dnbr result))) i j = Some 5%Z
        /\ fl_gt v (Fin 0.66) = false)
    /\ burned_pixels result
       = np_sum (map (fun x => fl_gt x (Fin 0.10))
                     (filter (fun x => negb (fl_eq x (Fin 0.10)))
                             (valid_dnbr result)))
    /\ high_severity result
       = np_sum (map (fun x => fl_gt x (Fin 0.66))
                     (filter (fun x => negb (fl_eq x (Fin 0.66)))
                             (valid_dnbr result)))
    /\ lookup "burned_area_km2" (compute_statistics result)
       = Some (fl_mul (Zfl (burned_pixels result)) pixel_area_km2)
    /\ lookup "burned_percentage" (compute_statistics result)
       = Some (if (total_pixels result >? 0)%Z
               then fl_div (Zfl (100 * burned_pixels result))
                           (Zfl (total_pixels result))
               else Fin 0.0)
    /\ lookup "high_severity_km2" (compute_statistics result)
       = Some (fl_mul (Zfl (high_severity result)) pixel_area_km2)
    /\ lookup "high_severity_percentage" (compute_statistics result)
       = Some (if (total_pixels result >? 0)%Z
               then fl_div (Zfl (100 * high_severity result))
                           (Zfl (total_pixels result))
               else Fin 0.0).
Proof.
  intros result i j v Hv.
  split; [|split; [|split; [|split]]].
  - intros He. split; [|now apply fl_eq_not_gt].
    unfold classify_dnbr.
    rewrite (getitem_classify_with _ BURN_SEVERITY_CLASSES i j v Hv).
    destruct v as [| | |q]; try discriminate.
    simpl in He. apply Qeq_bool_iff in He.
    rewrite classify_finite_value. qdecide. reflexivity.
  - intros He. split; [|now apply fl_eq_not_gt].
    unfold classify_dnbr.
    rewrite (getitem_classify_with _ BURN_SEVERITY_CLASSES i j v Hv).
    destruct v as [| | |q]; try discriminate.
    simpl in He. apply Qeq_bool_iff in He.
    rewrite classify_finite_value. qdecide. reflexivity.
  - unfold burned_pixels. apply np_sum_skip. apply fl_eq_not_gt.
  - unfold high_severity. apply np_sum_skip. apply fl_eq_not_gt.
  - repeat split.
Qed.

Lemma boundary_pixels_classified_not_counted_witness :
  getitem (classify_dnbr (one_pixel (Fin 0.10))) 0 0 = Some 3%Z
  /\ burned_pixels (result_of (one_pixel (Fin 0.10))) = 0%Z.
Proof.
  destruct (boundary_pixels_classified_not_counted
              (result_of (one_pixel (Fin 0.10))) 0 0 (Fin 0.10) eq_refl)
    as (Hlow & _ & Hcount & _).
  split; [exact (proj1 (Hlow eq_refl))|].
  rewrite Hcount. reflexivity.
Defined.

(** C10.  On a raster whose pixels are all NaN, [compute_statistics]
    returns its five entries with the two percentages 0.0 (the division by
    the number of valid pixels is not made) and the three areas zero.  In
    general the statistics depend on the raster through its pixels that are
    not NaN only. *)
Theorem compute_statistics_all_nan :
  forall result : NBRRunResult,
    ((forall v, In v (data (array (dnbr result))) -> isnan v = true) ->
     exists total burned high,
       compute_statistics result
       = [ ("total_area_km2"%string, Fin total);
           ("burned_area_km2"%string, Fin burned);
           ("burned_percentage"%string, Fin 0.0);
           ("high_severity_km2"%string, Fin high);
           ("high_severity_percentage"%string, Fin 0.0) ]
       /\ total == 0 /\ burned == 0 /\ high == 0)
    /\ (forall result' : NBRRunResult,
           filter (fun x => negb (isnan x)) (data (array (dnbr result')))
           = filter (fun x => negb (isnan x)) (data (array (dnbr result))) ->
           compute_statistics result' = compute_statistics result).
Proof.
  intros result. split.
  - intros Hnan.
    unfold compute_statistics, total_pixels, burned_pixels, high_severity,
      valid_dnbr.
    rewrite (filter_all_nan _ Hnan). cbv zeta. simpl.
    do 3 eexists. split; [reflexivity|]. repeat split.
  - intros result' H.
    unfold compute_statistics, total_pixels, burned_pixels, high_severity,
      valid_dnbr.
    now rewrite H.
Qed.

Lemma compute_statistics_all_nan_witness :
  exists total burned high,
    compute_statistics (result_of (mkArr (1, 2)%nat [NaN; NaN]))
    = [ ("total_area_km2"%string, Fin total);
        ("burned_area_km2"%string, Fin burned);
        ("burned_percentage"%string, Fin 0.0);
        ("high_severity_km2"%string, Fin high);
        ("high_severity_percentage"%string, Fin 0.0) ]
    /\ total == 0 /\ burned == 0 /\ high == 0.
Proof.
  apply (proj1 (compute_statistics_all_nan
                  (result_of (mkArr (1, 2)%nat [NaN; NaN])))).
  intros v [H|[H|[]]]; subst v; reflexivity.
Defined.

(** ** Probes *)

Example classify_probe :
  data (classify_dnbr (mkArr (1, 4)%nat [Fin 0.1; Fin 0.27; NaN; Fin 1.3]%Q))
  = [3; 4; 255; 255]%Z.
Proof. reflexivity. Qed.

(** The scenario of a burned pixel: reflectances 0.8 and 0.2 before the
    fire, 0.3 and 0.6 after it; the dNBR is 0.6 + 1/3 and the class is High
    Severity. *)
Example burned_pixel_scenario :
  result_bind (nbr_of (one_pixel (Fin 0.8)) (one_pixel (Fin 0.2))) (fun pre_nbr =>
  result_bind (nbr_of (one_pixel (Fin 0.3)) (one_pixel (Fin 0.6))) (fun post_nbr =>
  result_bind (calculate_dnbr pre_nbr post_nbr) (fun d =>
  Ok (data (classify_dnbr d)))))
  = Ok [5%Z].
Proof. reflexivity. Qed.

(** Raw dNBR 0.0 is normalised to 0.5 and coloured between the stops 0.35
    and 0.55. *)
Example overlay_probe_zero :
  raster_overlay (one_pixel (Fin 0)) DEFAULT_DNBR_COLORMAP
  = Ok (mkArr (1, 1)%nat [(253, 194, 120, 180)%Z]).
Proof. reflexivity. Qed.

(* ------------------------------------------------------------------ *)
(** * Further properties of the processing code *)
(* ------------------------------------------------------------------ *)

(** ** Order of the severity classes *)

Lemma Qltb_cases (a b : Q) :
  (a < b /\ Qltb a b = true) \/ (b <= a /\ Qltb a b = false).
Proof.
  destruct (Qlt_le_dec a b) as [H|H]; [left|right]; split; auto.
  - now apply Qltb_true.
  - now apply Qltb_false.
Qed.

(** Splits on every comparison left in the goal, dropping the branches
    that contradict the hypotheses. *)
Ltac qcases :=
  repeat match goal with
    | |- context [Qltb ?a ?b] =>
        let H := fresh "H" in
        let E := fresh "E" in
        destruct (Qltb_cases a b) as [[H E]|[H E]];
        rewrite !E; try (exfalso; lra)
    end.

(** X1.  On the reference table the class index grows with the dNBR: of
    two pixels of one raster with finite values in [[-0.5, 1.3)], the one
    with the larger value has the larger or the same class index. *)
Theorem classify_dnbr_monotone :
  forall (dnbr : ndarray npfloat) (i j i' j' : nat) (q q' : Q),
    getitem dnbr i j = Some (Fin q) ->
    getitem dnbr i' j' = Some (Fin q') ->
    -0.5 <= q -> q <= q' -> q' < 1.3 ->
    exists c c',
      getitem (classify_dnbr dnbr) i j = Some c
      /\ getitem (classify_dnbr dnbr) i' j' = Some c'
      /\ (0 <= c <= c')%Z /\ (c' <= 5)%Z.
Proof.
  intros dnbr i j i' j' q q' Hq Hq' Hlo Hle Hhi. unfold classify_dnbr.
  rewrite (getitem_classify_with dnbr BURN_SEVERITY_CLASSES i j _ Hq).
  rewrite (getitem_classify_with dnbr BURN_SEVERITY_CLASSES i' j' _ Hq').
  do 2 eexists. split; [reflexivity|]. split; [reflexivity|].
  rewrite !classify_finite_value.
  qcases; lia.
Qed.

Lemma classify_dnbr_monotone_witness :
  exists c c',
    getitem (classify_dnbr (mkArr (1, 2)%nat [Fin 0.05; Fin 0.7])) 0 0 = Some c
    /\ getitem (classify_dnbr (mkArr (1, 2)%nat [Fin 0.05; Fin 0.7])) 0 1
       = Some c'
    /\ (0 <= c <= c')%Z /\ (c' <= 5)%Z.
Proof.
  apply (classify_dnbr_monotone (mkArr (1, 2)%nat [Fin 0.05; Fin 0.7])
           0 0 0 1 0.05 0.7 eq_refl eq_refl);
    unfold Qle, Qlt; simpl; lia.
Defined.

(** ** Normalisation: order and degenerate bounds *)

Lemma Qdiv_le_mono (a b d : Q) : 0 < d -> a <= b -> a / d <= b / d.
Proof.
  intros Hd Hab. apply Qle_shift_div_l; [exact Hd|].
  setoid_replace (a / d * d) with a by (field; lra). exact Hab.
Qed.

Lemma normalize_pixel_monotone (lo hi : Q) (v w : npfloat) :
  lo < hi -> fl_le v w = true ->
  fl_le (normalize_pixel (Fin lo) (Fin hi) v)
        (normalize_pixel (Fin lo) (Fin hi) w) = true.
Proof.
  intros Hlt Hvw.
  destruct (normalize_pixel_cases lo hi v Hlt) as (p & Hp & Hp0 & Hp1 & Hv).
  destruct (normalize_pixel_cases lo hi w Hlt) as (q & Hq & Hq0 & Hq1 & Hw).
  rewrite Hp, Hq. simpl. apply Qle_bool_iff.
  destruct v as [| | |x], w as [| | |y]; try discriminate; try lra.
  simpl in Hvw. apply Qle_bool_iff in Hvw.
  destruct Hv as (Hvlow & Hvhigh & Hvmid), Hw as (Hwlow & Hwhigh & Hwmid).
  destruct (Qlt_le_dec lo x) as [Hx|Hx]; [|rewrite Hvlow by lra; lra].
  destruct (Qlt_le_dec y hi) as [Hy|Hy]; [|rewrite (Hwhigh Hy); lra].
  rewrite Hvmid, Hwmid by lra.
  apply Qdiv_le_mono; lra.
Qed.

(** X2.  For bounds [min_val < max_val], [normalize_for_overlay] keeps the
    order of the pixels: wherever one pixel is below or equal to another
    (the infinities included, NaN excluded by the comparison), so are their
    normalised values. *)
Theorem normalize_for_overlay_monotone :
  forall (array : ndarray npfloat) (min_val max_val : Q)
         (i j i' j' : nat) (v w : npfloat),
    min_val < max_val ->
    getitem array i j = Some v ->
    getitem array i' j' = Some w ->
    fl_le v w = true ->
    exists n m,
      getitem (normalize_for_overlay array (Fin min_val) (Fin max_val)) i j
      = Some n
      /\ getitem (normalize_for_overlay array (Fin min_val) (Fin max_val)) i' j'
         = Some m
      /\ fl_le n m = true.
Proof.
  intros array lo hi i j i' j' v w Hlt Hv Hw Hvw.
  unfold normalize_for_overlay. rewrite !getitem_np_map, Hv, Hw. simpl.
  do 2 eexists. split; [reflexivity|]. split; [reflexivity|].
  now apply normalize_pixel_monotone.
Qed.

Lemma normalize_for_overlay_monotone_witness :
  exists n m,
    getitem (normalize_for_overlay (mkArr (1, 2)%nat [NInf; Fin 0.25])
                                   (Fin (-1.0)) (Fin 1.0)) 0 0 = Some n
    /\ getitem (normalize_for_overlay (mkArr (1, 2)%nat [NInf; Fin 0.25])
                                      (Fin (-1.0)) (Fin 1.0)) 0 1 = Some m
    /\ fl_le n m = true.
Proof.
  assert (Hlt : -1.0 < 1.0) by reflexivity.
  exact (normalize_for_overlay_monotone (mkArr (1, 2)%nat [NInf; Fin 0.25])
           (-1.0) 1.0 0 0 0 1 NInf (Fin 0.25) Hlt eq_refl eq_refl eq_refl).
Defined.

(** X3.  With bounds that are not in order, [normalize_for_overlay] does
    not fail and flattens the raster.  For finite bounds: when
    [min_val == max_val] every pixel becomes 0.0 (the quotient 0/0 is NaN
    and NaN is replaced by 0.0); when [max_val < min_val] every pixel that
    is not NaN becomes 1.0 and every NaN pixel 0.0.  With a bound that is
    infinite or NaN every pixel becomes 0.0. *)
Theorem normalize_for_overlay_unordered_bounds :
  forall (array : ndarray npfloat) (min_val max_val : npfloat)
         (i j : nat) (v : npfloat),
    fl_lt min_val max_val = false ->
    getitem array i j = Some v ->
    exists q,
      getitem (normalize_for_overlay array min_val max_val) i j
      = Some (Fin q)
      /\ match min_val, max_val with
         | Fin lo, Fin hi =>
             (lo == hi -> q == 0)
             /\ (isnan v = true -> q == 0)
             /\ (hi < lo -> isnan v = false -> q == 1)
         | _, _ => q == 0
         end.
Proof.
  intros array min_val max_val i j v Hnlt Hv.
  unfold normalize_for_overlay. rewrite getitem_np_map, Hv. simpl.
  destruct (isfinite min_val && isfinite max_val) eqn:Hfin.
  2:{ destruct (normalize_pixel_nonfinite_bounds min_val max_val v Hfin)
        as (q & Hq & Hzero).
      exists q. split; [now rewrite Hq|].
      destruct min_val, max_val; try exact Hzero; discriminate. }
  destruct min_val as [| | |lo], max_val as [| | |hi]; try discriminate.
  assert (Hle : hi <= lo).
  { destruct (Qlt_le_dec lo hi) as [H|H]; [|exact H].
    apply Qltb_iff in H. simpl in Hnlt. congruence. }
  clear Hnlt Hfin.
  unfold normalize_pixel, fl_clip, fl_maximum, fl_minimum, fl_lt.
  destruct (Qeq_dec lo hi) as [Heq|Hne].
  - (* equal bounds: 0/0 *)
    destruct v as [| | |x]; simpl.
    + exists 0.0. repeat split; intros; try reflexivity; lra.
    + qdecide. simpl. qdecide. simpl.
      exists 0.0. repeat split; intros; try reflexivity; lra.
    + qdecide. simpl. qdecide. simpl.
      exists 0.0. repeat split; intros; try reflexivity; lra.
    + destruct (Qlt_le_dec x lo); [|destruct (Qlt_le_dec hi x)];
        qdecide; simpl; qdecide; simpl;
        exists 0.0; repeat split; intros; try reflexivity; lra.
  - assert (Hlt : hi < lo) by lra.
    assert (Hone : (hi - lo) / (hi - lo) == 1) by (field; lra).
    destruct v as [| | |x]; simpl.
    + exists 0.0. repeat split; intros; try reflexivity; try discriminate; lra.
    + qdecide. simpl. qdecide. simpl.
      eexists. repeat split; intros; try discriminate; try lra; exact Hone.
    + qdecide. simpl. qdecide. simpl.
      eexists. repeat split; intros; try discriminate; try lra; exact Hone.
    + destruct (Qlt_le_dec x lo); qdecide; simpl; qdecide; simpl;
        eexists; (split; [reflexivity|]);
        repeat split; intros; try discriminate; try lra; exact Hone.
Qed.

Lemma normalize_for_overlay_unordered_bounds_witness :
  exists q,
    getitem (normalize_for_overlay (one_pixel (Fin 0.3)) (Fin 1.0) (Fin (-1.0)))
            0 0 = Some (Fin q)
    /\ q == 1.
Proof.
  assert (Hlt : -1.0 < 1.0) by reflexivity.
  destruct (normalize_for_overlay_unordered_bounds (one_pixel (Fin 0.3))
              (Fin 1.0) (Fin (-1.0)) 0 0 (Fin 0.3) eq_refl eq_refl)
    as (q & Hq & _ & _ & H1).
  exists q. split; [exact Hq|]. exact (H1 Hlt eq_refl).
Defined.

(** ** The colour ramp *)

Lemma take_nth {A} (xs : list A) (k : nat) (x : A) :
  nth_error xs k = Some x -> take xs (Z.of_nat k) = Ok x.
Proof.
  intros H. unfold take.
  assert (Hlt : (k < length xs)%nat) by (apply nth_error_Some; congruence).
  replace (Z.of_nat k <? 0)%Z with false by (symmetry; apply Z.ltb_ge; lia).
  replace ((0 <=? Z.of_nat k) && (Z.of_nat k <? Z.of_nat (length xs)))%Z
    with true
    by (symmetry; apply andb_true_iff; split;
        [apply Z.leb_le|apply Z.ltb_lt]; lia).
  now rewrite Nat2Z.id, H.
Qed.

Lemma map_fst_combine {A B} (xs : list A) (ys : list B) :
  length xs = length ys -> map fst (combine xs ys) = xs.
Proof.
  revert ys. induction xs as [|x xs IH]; intros [|y ys] H; simpl in *;
    try discriminate; [reflexivity|].
  f_equal. apply IH. lia.
Qed.

Lemma map_snd_combine {A B} (xs : list A) (ys : list B) :
  length xs = length ys -> map snd (combine xs ys) = ys.
Proof.
  revert ys. induction xs as [|x xs IH]; intros [|y ys] H; simpl in *;
    try discriminate; [reflexivity|].
  f_equal. apply IH. lia.
Qed.

(** On increasing finite stops, [searchsorted_right] counts the stops that
    are below or equal to the value. *)
Lemma searchsorted_right_counts (stops : list Q) (q : Q) :
  StronglySorted Qlt stops ->
  (0 <= searchsorted_right (map Fin stops) (Fin q))%Z
  /\ forall k s,
      nth_error stops k = Some s ->
      ((Z.of_nat k < searchsorted_right (map Fin stops) (Fin q))%Z <-> s <= q).
Proof.
  induction 1 as [|s0 rest Hrest [IH0 IH] Hall];
    cbn [searchsorted_right map].
  - split; [lia|]. intros k s H. destruct k; discriminate.
  - change (np_less (Fin q) (Fin s0)) with (Qltb q s0 || false).
    rewrite orb_false_r.
    destruct (Qltb_cases q s0) as [[Hlt E]|[Hle E]]; rewrite E.
    + split; [lia|]. intros k s Hk. split; [lia|]. intros Hs. exfalso.
      destruct k as [|k]; simpl in Hk.
      * inversion Hk; subst. lra.
      * apply nth_error_In in Hk.
        rewrite Forall_forall in Hall. specialize (Hall s Hk). lra.
    + split; [lia|]. intros k s Hk. destruct k as [|k]; simpl in Hk.
      * inversion Hk; subst. split; [intros _; exact Hle|lia].
      * rewrite <- (IH k s Hk). lia.
Qed.

Lemma fl_clip_inside (x lo hi : Q) :
  lo <= x /\ x <= hi -> fl_clip (Fin x) (Fin lo) (Fin hi) = Fin x.
Proof.
  intros [Hlo Hhi]. unfold fl_clip, fl_maximum, fl_lt.
  rewrite (Qltb_false x lo Hlo). unfold fl_minimum, fl_lt.
  now rewrite (Qltb_false hi x Hhi).
Qed.

(** A channel whose interpolated value stays in [[0, 255]] is the integer
    part of that value. *)
Lemma channel_value (low high : Z) (w : Q) :
  0 <= inject_Z low + (inject_Z high - inject_Z low) * w ->
  inject_Z low + (inject_Z high - inject_Z low) * w <= 255 ->
  channel low high (Fin w)
  = Qfloor (inject_Z low + (inject_Z high - inject_Z low) * w).
Proof.
  intros H0 H255. unfold channel, Zfl. cbn [fl_sub fl_mul fl_add].
  set (x := inject_Z low + (inject_Z high - inject_Z low) * w) in *.
  rewrite (fl_clip_inside x 0 255) by tauto.
  unfold astype_uint8. rewrite (Qle_bool_true 0 x H0).
  apply Z.mod_small. split.
  - change 0%Z with (Qfloor (inject_Z 0)). now apply Qfloor_resp_le.
  - apply Z.le_lt_trans with (m := Qfloor (inject_Z 255)).
    + now apply Qfloor_resp_le.
    + rewrite Qfloor_Z. lia.
Qed.

Lemma in_uint8_Q (z : Z) :
  in_uint8 z -> 0 <= inject_Z z /\ inject_Z z <= 255.
Proof. unfold in_uint8, Qle. simpl. lia. Qed.

Lemma inject_Z_le (a b : Z) : (a <= b)%Z -> inject_Z a <= inject_Z b.
Proof. now rewrite <- Zle_Qle. Qed.

Lemma channel_between (low high : Z) (w : Q) :
  in_uint8 low -> in_uint8 high -> 0 <= w -> w <= 1 ->
  Zbetween low high (channel low high (Fin w)).
Proof.
  intros Hl Hh Hw0 Hw1. unfold Zbetween.
  pose proof (in_uint8_Q low Hl) as Hlq.
  pose proof (in_uint8_Q high Hh) as Hhq.
  unfold in_uint8 in Hl, Hh.
  set (x := inject_Z low + (inject_Z high - inject_Z low) * w).
  assert (Hx : inject_Z (Z.min low high) <= x /\ x <= inject_Z (Z.max low high)).
  { unfold x. destruct (Z.le_ge_cases low high) as [Hle|Hle].
    - rewrite Z.min_l, Z.max_r by lia.
      pose proof (inject_Z_le low high Hle).
      split; nra.
    - rewrite Z.min_r, Z.max_l by lia.
      pose proof (inject_Z_le high low Hle).
      split; nra. }
  assert (Hmin : 0 <= inject_Z (Z.min low high))
    by (apply (inject_Z_le 0); lia).
  assert (Hmax : inject_Z (Z.max low high) <= 255)
    by (apply (inject_Z_le _ 255); lia).
  rewrite channel_value by (fold x; lra). fold x.
  rewrite <- (Qfloor_Z (Z.min low high)), <- (Qfloor_Z (Z.max low high)).
  split; apply Qfloor_resp_le; tauto.
Qed.

Lemma channel_at_stop (low high : Z) (w : Q) :
  in_uint8 low -> w == 0 -> channel low high (Fin w) = low.
Proof.
  intros Hl Hw. pose proof (in_uint8_Q low Hl) as Hlq.
  assert (Hx : inject_Z low + (inject_Z high - inject_Z low) * w
               == inject_Z low) by (rewrite Hw; ring).
  rewrite channel_value by (rewrite Hx; tauto).
  rewrite Hx. apply Qfloor_Z.
Qed.

(** X4.  Inside the ramp [colorize] interpolates without overshoot.  For
    strictly increasing finite stops and 8-bit stop colours, a finite pixel
    [q] with [stops[k] <= q < stops[k+1]] is coloured from the colours of
    these two stops: no lookup raises, every channel lies between the two
    stop values of that channel, a pixel exactly at [stops[k]] gets the
    colour of stop [k] itself, and the alpha is 180 or 0 by the sign of
    [q]. *)
Theorem colorize_pixel_interpolates :
  forall (stops : list Q) (colors : list (Z * Z * Z)) (q : Q) (k : nat)
         (l u : Q) (lr lg lb hr hg hb : Z),
    length stops = length colors ->
    StronglySorted Qlt stops ->
    nth_error stops k = Some l ->
    nth_error stops (S k) = Some u ->
    nth_error colors k = Some (lr, lg, lb) ->
    nth_error colors (S k) = Some (hr, hg, hb) ->
    rgb_in_uint8 (lr, lg, lb) ->
    rgb_in_uint8 (hr, hg, hb) ->
    l <= q -> q < u ->
    exists r g b,
      colorize_pixel (combine (map Fin stops) colors) (Fin q)
      = Ok (r, g, b, if Qltb 0 q then 180%Z else 0%Z)
      /\ Zbetween lr hr r /\ Zbetween lg hg g /\ Zbetween lb hb b
      /\ (q == l -> (r, g, b) = (lr, lg, lb)).
Proof.
  intros stops colors q k l u lr lg lb hr hg hb Hlen Hsorted Hl Hu Hcl Hcu
         (Hlr & Hlg & Hlb) (Hhr & Hhg & Hhb) Hlq Hqu.
  assert (Hlen' : length (map Fin stops) = length colors)
    by now rewrite length_map.
  unfold colorize_pixel.
  rewrite (map_fst_combine _ _ Hlen'), (map_snd_combine _ _ Hlen').
  destruct (searchsorted_right_counts stops q Hsorted) as [_ Hcount].
  assert (Hidx : searchsorted_right (map Fin stops) (Fin q) = Z.of_nat (S k)).
  { pose proof (proj2 (Hcount k l Hl) Hlq) as Hbelow.
    assert (Habove : ~ (Z.of_nat (S k)
                        < searchsorted_right (map Fin stops) (Fin q))%Z).
    { intros H. apply (Hcount (S k) u Hu) in H. lra. }
    lia. }
  assert (Hk : (S k < length stops)%nat)
    by (apply nth_error_Some; congruence).
  rewrite Hidx, length_map.
  replace (Zclip (Z.of_nat (S k)) 1 (Z.of_nat (length stops) - 1))
    with (Z.of_nat (S k)) by (unfold Zclip; lia).
  replace (Z.of_nat (S k) - 1)%Z with (Z.of_nat k) by lia.
  rewrite (take_nth (map Fin stops) k (Fin l))
    by (rewrite nth_error_map, Hl; reflexivity).
  rewrite (take_nth (map Fin stops) (S k) (Fin u))
    by (rewrite nth_error_map, Hu; reflexivity).
  rewrite (take_nth colors k _ Hcl), (take_nth colors (S k) _ Hcu).
  cbn [result_bind fl_sub fl_add].
  assert (Heps : 0 < 1e-12) by reflexivity.
  assert (Hd : 0 < u - l + 1e-12) by lra.
  unfold fl_div. rewrite (Qeq_bool_false (u - l + 1e-12) 0) by lra.
  set (w := (q - l) / (u - l + 1e-12)).
  destruct (Qdiv_unit_interval (q - l) (u - l + 1e-12)) as [Hw0 Hw1];
    try lra.
  fold w in Hw0, Hw1.
  exists (channel lr hr (Fin w)), (channel lg hg (Fin w)),
         (channel lb hb (Fin w)).
  split; [|split; [|split; [|split]]].
  - unfold fl_gt, fl_lt. destruct (Qltb 0 q); reflexivity.
  - now apply channel_between.
  - now apply channel_between.
  - now apply channel_between.
  - intros Heq.
    assert (Hw : w == 0).
    { unfold w, Qdiv. setoid_replace (q - l) with 0 by lra.
      apply Qmult_0_l. }
    now rewrite !channel_at_stop.
Qed.

Lemma colorize_pixel_interpolates_witness :
  exists r g b,
    colorize_pixel (combine (map Fin [0; 0.5; 1])
                            [(0, 0, 0)%Z; (100, 200, 50)%Z; (255, 0, 50)%Z])
                   (Fin 0.75)
    = Ok (r, g, b, 180%Z)
    /\ Zbetween 100 255 r /\ Zbetween 200 0 g /\ Zbetween 50 50 b.
Proof.
  destruct (colorize_pixel_interpolates
              [0; 0.5; 1] [(0, 0, 0)%Z; (100, 200, 50)%Z; (255, 0, 50)%Z]
              0.75 1 0.5 1 100 200 50 255 0 50)
    as (r & g & b & Hrun & Hr & Hg & Hb & _);
    try reflexivity.
  - repeat constructor.
  - unfold rgb_in_uint8, in_uint8. lia.
  - unfold rgb_in_uint8, in_uint8. lia.
  - unfold Qle. simpl. lia.
  - exists r, g, b. auto.
Defined.

(** X5.  A ramp without stops cannot colour a pixel: on every raster with
    at least one pixel [colorize] raises [IndexError], at the first lookup
    of a stop. *)
Theorem colorize_without_stops_raises :
  forall values : ndarray npfloat,
    data values <> [] -> colorize values [] = Raise IndexError.
Proof.
  intros values Hne. unfold colorize.
  destruct (data values) as [|v rest]; [contradiction|]. reflexivity.
Qed.

Lemma colorize_without_stops_raises_witness :
  colorize (one_pixel (Fin 0.5)) [] = Raise IndexError.
Proof.
  apply colorize_without_stops_raises. discriminate.
Defined.

(** On a raster without pixels no stop is looked up, and the ramp without
    stops fails at the assignment of the colours. *)
Example colorize_without_stops_nor_pixels :
  colorize (mkArr (0, 0)%nat []) [] = Raise ValueError.
Proof. reflexivity. Qed.

(** ** The burn ratio: swapped bands and shapes that do not fit *)

(** The run of [calculate_nbr] on two objects of one shape, with the value
    of every pixel. *)
Lemma calculate_nbr_run (h : store npfloat) (nir swir : ref)
    (a b : ndarray npfloat) :
  nth_error h nir = Some a ->
  nth_error h swir = Some b ->
  shape a = shape b ->
  exists (out : ref) (h' : store npfloat) (res : ndarray npfloat),
    calculate_nbr nir swir h = Ok (out, h')
    /\ nth_error h' out = Some res
    /\ shape res = shape a
    /\ forall i j x y,
        getitem a i j = Some x -> getitem b i j = Some y ->
        getitem res i j
        = Some (if negb (isfinite (fl_div (fl_sub x y) (fl_add x y)))
                then NaN else fl_div (fl_sub x y) (fl_add x y)).
Proof.
  intros Ha Hb Hs.
  destruct (ufunc2_same_shape fl_sub h nir swir a b Ha Hb Hs)
    as (d & Hd & Hdshape & Hdpix).
  destruct (ufunc2_same_shape fl_add (h ++ [d]) nir swir a b
              (nth_error_snoc_old h d nir a Ha)
              (nth_error_snoc_old h d swir b Hb) Hs)
    as (t & Ht & Htshape & Htpix).
  destruct (ufunc2_same_shape fl_div ((h ++ [d]) ++ [t])
              (length h) (length (h ++ [d])) d t
              (nth_error_snoc_old _ t _ d (nth_error_snoc_new h d))
              (nth_error_snoc_new (h ++ [d]) t)
              (eq_trans Hdshape (eq_sym Htshape)))
    as (q & Hq & Hqshape & Hqpix).
  set (h3 := ((h ++ [d]) ++ [t]) ++ [q]) in *.
  set (out := length ((h ++ [d]) ++ [t])) in *.
  set (res := setitem_mask q (np_map (fun x => negb (isfinite x)) q) NaN).
  assert (Hout : nth_error h3 out = Some q) by apply nth_error_snoc_new.
  exists out, (replace_nth h3 out res), res.
  split; [|split; [|split]].
  - unfold calculate_nbr, _safe_divide, bind.
    rewrite Hd, Ht, Hq. unfold deref, assign, ret.
    fold h3. rewrite Hout. cbv beta iota. rewrite Hout. reflexivity.
  - apply nth_error_replace_nth_same.
    unfold h3, out. rewrite !length_app. simpl. lia.
  - simpl. congruence.
  - intros i j x y Hx Hy.
    pose proof (Hqpix i j _ _ (Hdpix i j x y Hx Hy) (Htpix i j x y Hx Hy))
      as Hz.
    apply getitem_inv in Hz. destruct Hz as (Hi & Hj & Hz).
    rewrite getitem_intro by exact Hi || exact Hj.
    unfold res, setitem_mask, np_map, ncols. simpl.
    apply nth_error_masked_fill; [exact Hz|].
    unfold ncols in Hz. rewrite nth_error_map, Hz. reflexivity.
Qed.

Lemma nbr_pixel_swap (x y : npfloat) :
  nan_equal
    (if negb (isfinite (fl_div (fl_sub x y) (fl_add x y)))
     then NaN else fl_div (fl_sub x y) (fl_add x y))
    (fl_neg (if negb (isfinite (fl_div (fl_sub y x) (fl_add y x)))
             then NaN else fl_div (fl_sub y x) (fl_add y x))).
Proof.
  destruct x as [| | |a], y as [| | |b]; simpl; auto.
  assert (Hsum : Qeq_bool (b + a) 0 = Qeq_bool (a + b) 0).
  { apply Qeqb_comp; [ring|reflexivity]. }
  rewrite Hsum.
  destruct (Qeq_bool (a + b) 0) eqn:E.
  - destruct (Qeq_bool (a - b) 0), (Qeq_bool (b - a) 0);
      try destruct (Qneg (a - b)); try destruct (Qneg (b - a)); simpl; auto.
  - simpl. assert (Hne : ~ a + b == 0).
    { intros H. apply Qeq_bool_iff in H. congruence. }
    field; try split; try assumption;
      intros H; apply Hne; rewrite <- H; ring.
Qed.

(** X6.  Swapping the two bands negates the burn ratio.  On a store that
    holds two arrays of one shape, [calculate_nbr swir nir] is, pixel by
    pixel, the negation of [calculate_nbr nir swir]; the two are NaN at the
    same pixels. *)
Theorem calculate_nbr_swapped_bands :
  forall (h : store npfloat) (nir swir : ref) (a b : ndarray npfloat),
    nth_error h nir = Some a ->
    nth_error h swir = Some b ->
    shape a = shape b ->
    exists out1 h1 res1 out2 h2 res2,
      calculate_nbr nir swir h = Ok (out1, h1)
      /\ nth_error h1 out1 = Some res1
      /\ calculate_nbr swir nir h = Ok (out2, h2)
      /\ nth_error h2 out2 = Some res2
      /\ shape res1 = shape res2
      /\ forall i j x y,
          getitem a i j = Some x -> getitem b i j = Some y ->
          exists z1 z2,
            getitem res1 i j = Some z1
            /\ getitem res2 i j = Some z2
            /\ nan_equal z1 (fl_neg z2).
Proof.
  intros h nir swir a b Ha Hb Hs.
  destruct (calculate_nbr_run h nir swir a b Ha Hb Hs)
    as (out1 & h1 & res1 & Hrun1 & Hres1 & Hshape1 & Hpix1).
  destruct (calculate_nbr_run h swir nir b a Hb Ha (eq_sym Hs))
    as (out2 & h2 & res2 & Hrun2 & Hres2 & Hshape2 & Hpix2).
  exists out1, h1, res1, out2, h2, res2.
  repeat (split; [assumption || congruence|]).
  intros i j x y Hx Hy. do 2 eexists.
  split; [exact (Hpix1 i j x y Hx Hy)|].
  split; [exact (Hpix2 i j y x Hy Hx)|].
  apply nbr_pixel_swap.
Qed.

Lemma calculate_nbr_swapped_bands_witness :
  exists out1 h1 res1 out2 h2 res2,
    calculate_nbr 0%nat 1%nat [one_pixel (Fin 0.8); one_pixel (Fin 0.2)]
    = Ok (out1, h1)
    /\ nth_error h1 out1 = Some res1
    /\ calculate_nbr 1%nat 0%nat [one_pixel (Fin 0.8); one_pixel (Fin 0.2)]
       = Ok (out2, h2)
    /\ nth_error h2 out2 = Some res2
    /\ exists z1 z2,
        getitem res1 0 0 = Some z1 /\ getitem res2 0 0 = Some z2
        /\ nan_equal z1 (fl_neg z2).
Proof.
  destruct (calculate_nbr_swapped_bands
              [one_pixel (Fin 0.8); one_pixel (Fin 0.2)] 0%nat 1%nat
              (one_pixel (Fin 0.8)) (one_pixel (Fin 0.2))
              eq_refl eq_refl eq_refl)
    as (out1 & h1 & res1 & out2 & h2 & res2 & H1 & H2 & H3 & H4 & _ & Hpix).
  exists out1, h1, res1, out2, h2, res2.
  repeat (split; [assumption|]).
  exact (Hpix 0%nat 0%nat (Fin 0.8) (Fin 0.2) eq_refl eq_refl).
Defined.

Lemma broadcast_compatible_dim (n m : nat) :
  broadcast_compatible n m -> exists r, broadcast_dim n m = Some r.
Proof.
  intros H. destruct (broadcast_dim n m) as [r|] eqn:E; [now exists r|].
  apply broadcast_dim_None in E. contradiction.
Qed.

(** A binary ufunc on two objects whose shapes can be broadcast. *)
Lemma ufunc2_compatible (f : npfloat -> npfloat -> npfloat)
    (h : store npfloat) (a b : ref) (x y : ndarray npfloat) (r c : nat) :
  nth_error h a = Some x -> nth_error h b = Some y ->
  broadcast_dim (nrows x) (nrows y) = Some r ->
  broadcast_dim (ncols x) (ncols y) = Some c ->
  exists z,
    ufunc2 f a b h = Ok (length h, h ++ [z]) /\ shape z = (r, c).
Proof.
  intros Ha Hb Hr Hc. unfold ufunc2, bind, deref, lift, new, broadcast2.
  rewrite Ha, Hb, Hr, Hc. eexists. split; reflexivity.
Qed.

Lemma ufunc2_incompatible (f : npfloat -> npfloat -> npfloat)
    (h : store npfloat) (a b : ref) (x y : ndarray npfloat) :
  nth_error h a = Some x -> nth_error h b = Some y ->
  ~ (broadcast_compatible (nrows x) (nrows y)
     /\ broadcast_compatible (ncols x) (ncols y)) ->
  ufunc2 f a b h = Raise ValueError.
Proof.
  intros Ha Hb Hn. unfold ufunc2, bind, deref, lift.
  rewrite Ha, Hb.
  now rewrite (proj2 (broadcast2_raises NaN NaN f x y) Hn).
Qed.

(** X7.  [calculate_nbr] checks no shape itself.  On two array objects it
    raises [ValueError] exactly when their shapes cannot be broadcast
    together; otherwise it returns a new array whose shape is the broadcast
    of the two, so a band of a single row, column or pixel is stretched
    over the other band. *)
Theorem calculate_nbr_shapes :
  forall (h : store npfloat) (nir swir : ref) (a b : ndarray npfloat),
    nth_error h nir = Some a ->
    nth_error h swir = Some b ->
    (calculate_nbr nir swir h = Raise ValueError
     <-> ~ (broadcast_compatible (nrows a) (nrows b)
            /\ broadcast_compatible (ncols a) (ncols b)))
    /\ (broadcast_compatible (nrows a) (nrows b) ->
        broadcast_compatible (ncols a) (ncols b) ->
        exists out h' res,
          calculate_nbr nir swir h = Ok (out, h')
          /\ nth_error h' out = Some res
          /\ broadcast_dim (nrows a) (nrows b) = Some (nrows res)
          /\ broadcast_dim (ncols a) (ncols b) = Some (ncols res)).
Proof.
  intros h nir swir a b Ha Hb.
  assert (Hok : broadcast_compatible (nrows a) (nrows b) ->
                broadcast_compatible (ncols a) (ncols b) ->
                exists out h' res,
                  calculate_nbr nir swir h = Ok (out, h')
                  /\ nth_error h' out = Some res
                  /\ broadcast_dim (nrows a) (nrows b) = Some (nrows res)
                  /\ broadcast_dim (ncols a) (ncols b) = Some (ncols res)).
  { intros Hrows Hcols.
    destruct (broadcast_compatible_dim _ _ Hrows) as [r Hr].
    destruct (broadcast_compatible_dim _ _ Hcols) as [c Hc].
    destruct (ufunc2_compatible fl_sub h nir swir a b r c Ha Hb Hr Hc)
      as (d & Hd & Hdshape).
    destruct (ufunc2_compatible fl_add (h ++ [d]) nir swir a b r c
                (nth_error_snoc_old h d nir a Ha)
                (nth_error_snoc_old h d swir b Hb) Hr Hc)
      as (t & Ht & Htshape).
    destruct (ufunc2_same_shape fl_div ((h ++ [d]) ++ [t])
                (length h) (length (h ++ [d])) d t
                (nth_error_snoc_old _ t _ d (nth_error_snoc_new h d))
                (nth_error_snoc_new (h ++ [d]) t)
                (eq_trans Hdshape (eq_sym Htshape)))
      as (q & Hq & Hqshape & _).
    set (h3 := ((h ++ [d]) ++ [t]) ++ [q]) in *.
    set (out := length ((h ++ [d]) ++ [t])) in *.
    assert (Hout : nth_error h3 out = Some q) by apply nth_error_snoc_new.
    eexists out, (replace_nth h3 out _), _.
    split; [|split; [|split]].
    - unfold calculate_nbr, _safe_divide, bind.
      rewrite Hd, Ht, Hq. unfold deref, assign, ret.
      fold h3. rewrite Hout. cbv beta iota. rewrite Hout. reflexivity.
    - apply nth_error_replace_nth_same.
      unfold h3, out. rewrite !length_app. simpl. lia.
    - unfold nrows at 3. simpl. rewrite Hqshape, Hdshape. exact Hr.
    - unfold ncols at 3. simpl. rewrite Hqshape, Hdshape. exact Hc. }
  split; [|exact Hok]. split.
  - intros Hraise [Hrows Hcols].
    destruct (Hok Hrows Hcols) as (out & h' & res & Hrun & _).
    congruence.
  - intros Hn. unfold calculate_nbr, bind.
    now rewrite (ufunc2_incompatible fl_sub h nir swir a b Ha Hb Hn).
Qed.

Lemma calculate_nbr_shapes_witness :
  calculate_nbr 0%nat 1%nat
    [mkArr (3, 1)%nat [Fin 1; Fin 2; Fin 3]; mkArr (2, 1)%nat [Fin 1; Fin 2]]
  = Raise ValueError.
Proof.
  apply (proj1 (calculate_nbr_shapes
                  [mkArr (3, 1)%nat [Fin 1; Fin 2; Fin 3];
                   mkArr (2, 1)%nat [Fin 1; Fin 2]]
                  0%nat 1%nat _ _ eq_refl eq_refl)).
  unfold broadcast_compatible, nrows. simpl. lia.
Defined.

(** ** Statistics: order of the counts, and pixels above the last band *)

Lemma np_sum_nonneg (l : list bool) : (0 <= np_sum l)%Z.
Proof. unfold np_sum. lia. Qed.

Lemma np_sum_le_length {A} (p : A -> bool) (l : list A) :
  (np_sum (map p l) <= Z.of_nat (length l))%Z.
Proof.
  induction l as [|x l IH]; [unfold np_sum; simpl; lia|].
  simpl map. rewrite np_sum_cons. simpl length.
  destruct (p x); lia.
Qed.

Lemma np_sum_mono {A} (p q : A -> bool) (l : list A) :
  (forall x, p x = true -> q x = true) ->
  (np_sum (map p l) <= np_sum (map q l))%Z.
Proof.
  intros H. induction l as [|x l IH]; [apply Z.le_refl|].
  simpl map. rewrite !np_sum_cons.
  destruct (p x) eqn:E; [rewrite (H x E); lia|].
  destruct (q x); lia.
Qed.

Lemma np_sum_positive {A} (p : A -> bool) (l : list A) (x : A) :
  In x l -> p x = true -> (1 <= np_sum (map p l))%Z.
Proof.
  intros Hin Hp. induction l as [|y l IH]; [contradiction|].
  simpl map. rewrite np_sum_cons.
  pose proof (np_sum_nonneg (map p l)).
  destruct Hin as [->|Hin].
  - rewrite Hp. lia.
  - specialize (IH Hin). destruct (p y); lia.
Qed.

Lemma fl_gt_066_010 (x : npfloat) :
  fl_gt x (Fin 0.66) = true -> fl_gt x (Fin 0.10) = true.
Proof.
  destruct x as [| | |q]; try discriminate; auto.
  unfold fl_gt, fl_lt. rewrite !Qltb_iff. lra.
Qed.

Lemma percentage_value (count total : Z) :
  (0 <= count <= total)%Z ->
  exists p,
    (if (total >? 0)%Z
     then fl_div (Zfl (100 * count)) (Zfl total)
     else Fin 0.0) = Fin p
    /\ 0 <= p /\ p <= 100
    /\ ((total > 0)%Z -> p == inject_Z (100 * count) / inject_Z total).
Proof.
  intros Hc. destruct (total >? 0)%Z eqn:E.
  - unfold fl_div, Zfl. rewrite (inject_Z_pos_nonzero total E).
    apply Z.gtb_lt in E.
    assert (Ht : 0 < inject_Z total)
      by (change 0 with (inject_Z 0); rewrite <- Zlt_Qlt; lia).
    pose proof (inject_Z_le 0 (100 * count) ltac:(lia)) as H0.
    pose proof (inject_Z_le (100 * count) (100 * total) ltac:(lia)) as H1.
    rewrite (inject_Z_mult 100 total) in H1.
    change (inject_Z 100) with 100 in H1.
    change (inject_Z 0) with 0 in H0.
    eexists. split; [reflexivity|]. split; [|split].
    + apply Qle_shift_div_l; [exact Ht|]. lra.
    + apply Qle_shift_div_r; [exact Ht|]. lra.
    + intros _. reflexivity.
  - exists 0.0. split; [reflexivity|]. split; [lra|]. split; [lra|].
    intros Hpos. rewrite Z.gtb_ltb in E. apply Z.ltb_ge in E. lia.
Qed.

(** X8.  The statistics are ordered.  For every result the three counts
    satisfy [0 <= high_severity <= burned_pixels <= total_pixels], so the
    areas are ordered in the same way, and the two percentages satisfy
    [0 <= high_severity_percentage <= burned_percentage <= 100]. *)
Theorem compute_statistics_ordered :
  forall result : NBRRunResult,
    (0 <= high_severity result <= burned_pixels result)%Z
    /\ (burned_pixels result <= total_pixels result)%Z
    /\ exists total burned high burned_pct high_pct : Q,
        compute_statistics result
        = [ ("total_area_km2"%string, Fin total);
            ("burned_area_km2"%string, Fin burned);
            ("burned_percentage"%string, Fin burned_pct);
            ("high_severity_km2"%string, Fin high);
            ("high_severity_percentage"%string, Fin high_pct) ]
        /\ 0 <= high /\ high <= burned /\ burned <= total
        /\ 0 <= high_pct /\ high_pct <= burned_pct /\ burned_pct <= 100.
Proof.
  intros result.
  assert (Hh : (0 <= high_severity result <= burned_pixels result)%Z).
  { split; [apply np_sum_nonneg|].
    unfold high_severity, burned_pixels.
    apply np_sum_mono. exact fl_gt_066_010. }
  assert (Hb : (burned_pixels result <= total_pixels result)%Z).
  { unfold burned_pixels, total_pixels. apply np_sum_le_length. }
  split; [exact Hh|]. split; [exact Hb|].
  destruct (area_of_count (total_pixels result)) as (qt & Ht & Hqt).
  destruct (area_of_count (burned_pixels result)) as (qb & Hbq & Hqb).
  destruct (area_of_count (high_severity result)) as (qh & Hhq & Hqh).
  destruct (percentage_value (burned_pixels result) (total_pixels result))
    as (pb & Hpb & Hpb0 & Hpb1 & Hpbv); [lia|].
  destruct (percentage_value (high_severity result) (total_pixels result))
    as (ph & Hph & Hph0 & Hph1 & Hphv); [lia|].
  exists qt, qb, qh, pb, ph.
  split.
  { unfold compute_statistics. cbv zeta. now rewrite Ht, Hbq, Hhq, Hpb, Hph. }
  pose proof (inject_Z_le 0 _ (proj1 Hh)) as H0.
  pose proof (inject_Z_le _ _ (proj2 Hh)) as H1.
  pose proof (inject_Z_le _ _ Hb) as H2.
  change (inject_Z 0) with 0 in H0.
  repeat split; try lra.
  destruct (Z_gt_le_dec (total_pixels result) 0) as [Hpos|Hzero].
  - rewrite (Hpbv Hpos), (Hphv Hpos).
    apply Qdiv_le_mono.
    + change 0 with (inject_Z 0). rewrite <- Zlt_Qlt. lia.
    + apply inject_Z_le. lia.
  - assert (Hz : (total_pixels result >? 0)%Z = false)
      by (rewrite Z.gtb_ltb; apply Z.ltb_ge; lia).
    rewrite Hz in Hpb, Hph. inversion Hpb. inversion Hph. lra.
Qed.

(** X9.  Statistics and classifier also part above the last band.  A
    pixel whose dNBR is at or above 1.3 (+Inf included) is given the
    sentinel 255 by [classify_dnbr], not High Severity, yet it passes both
    tests of [compute_statistics], so that the result then counts at least
    one burned and one high-severity pixel. *)
Theorem unclassified_pixel_counted_high_severity :
  forall (result : NBRRunResult) (i j : nat) (v : npfloat),
    getitem (array (dnbr result)) i j = Some v ->
    fl_ge v (Fin 1.3) = true ->
    getitem (classify_dnbr (array (dnbr result))) i j = Some 255%Z
    /\ (1 <= high_severity result)%Z
    /\ (1 <= burned_pixels result)%Z.
Proof.
  intros result i j v Hv Hge.
  assert (Hhigh : fl_gt v (Fin 0.66) = true).
  { destruct v as [| | |q]; try discriminate; auto.
    unfold fl_ge, fl_le in Hge. apply Qle_bool_iff in Hge.
    unfold fl_gt, fl_lt. apply Qltb_true. lra. }
  assert (Hvalid : In v (valid_dnbr result)).
  { unfold valid_dnbr. apply filter_In. split.
    - apply getitem_inv in Hv. destruct Hv as (_ & _ & Hv).
      exact (nth_error_In _ _ Hv).
    - now destruct v. }
  split; [|split].
  - unfold classify_dnbr.
    rewrite (getitem_classify_with _ BURN_SEVERITY_CLASSES i j v Hv).
    destruct v as [| | |q]; try discriminate; try reflexivity.
    unfold fl_ge, fl_le in Hge. apply Qle_bool_iff in Hge.
    rewrite classify_finite_value. qdecide. reflexivity.
  - unfold high_severity.
    exact (np_sum_positive _ _ v Hvalid Hhigh).
  - unfold burned_pixels.
    exact (np_sum_positive _ _ v Hvalid (fl_gt_066_010 v Hhigh)).
Qed.

Lemma unclassified_pixel_counted_high_severity_witness :
  getitem (classify_dnbr (one_pixel (Fin 1.8))) 0 0 = Some 255%Z
  /\ (1 <= high_severity (result_of (one_pixel (Fin 1.8))))%Z
  /\ (1 <= burned_pixels (result_of (one_pixel (Fin 1.8))))%Z.
Proof.
  exact (unclassified_pixel_counted_high_severity
           (result_of (one_pixel (Fin 1.8))) 0 0 (Fin 1.8) eq_refl eq_refl).
Defined.

(* ------------------------------------------------------------------ *)
(** * Properties of the download and of the run *)
(* ------------------------------------------------------------------ *)

Import Run.

Lemma dict_get_set {V} (d : dict V) (key key' : string) (v : V) :
  dict_get (dict_set d key v) key'
  = if String.eqb key key' then Some v else dict_get d key'.
Proof.
  induction d as [|[k old] d IH]; simpl.
  - reflexivity.
  - destruct (String.eqb k key) eqn:E; simpl.
    + apply String.eqb_eq in E. subst k.
      destruct (String.eqb key key'); reflexivity.
    + rewrite IH. destruct (String.eqb k key') eqn:E'; [|reflexivity].
      apply String.eqb_eq in E'. subst k.
      now rewrite String.eqb_sym, E.
Qed.


Section Download.

Variable World : Type.
Variable Geometry : Type.
Variable joinpath : string -> string -> string.
Variable fetch_to_file : string -> string -> IO World unit.

Local Abbreviation download_loop :=
  (Run.download_loop World Geometry joinpath fetch_to_file).
Local Abbreviation download_bands :=
  (Run.download_bands World Geometry joinpath fetch_to_file).
Local Abbreviation band_file := (Run.band_file joinpath).

(** One turn of the loop. *)
Lemma download_loop_cons (item : StacItem Geometry) (target_dir band : string)
    (rest : list string) (downloaded : dict string) (w : World) :
  download_loop item (band :: rest) target_dir downloaded w
  = match dict_get (assets item) (asset_key_of item band) with
    | None =>
        (Raised (KeyError ("Asset " ++ band ++ " not found in item "
                           ++ id item)%string), w)
    | Some asset =>
        match dict_get asset "href" with
        | None => (Raised (KeyError "href"), w)
        | Some href =>
            match fetch_to_file href (band_file item target_dir band) w with
            | (Returned _, w1) =>
                download_loop item rest target_dir
                  (dict_set downloaded band (band_file item target_dir band))
                  w1
            | (Raised e, w1) => (Raised e, w1)
            end
        end
    end.
Proof.
  cbn [Run.download_loop]. unfold asset_key_of, Run.band_file.
  destruct (dict_get (assets item) _) as [asset|]; [|reflexivity].
  unfold io_bind, dict_item.
  destruct (dict_get asset "href") as [href|]; [|reflexivity].
  unfold io_ret at 1. unfold download_asset, io_bind.
  destruct (fetch_to_file href _ w) as [[[]|e] w1]; reflexivity.
Qed.

(** The loop over two lists of bands in a row. *)
Lemma download_loop_app (item : StacItem Geometry) (target_dir : string)
    (done rest : list string) :
  forall (downloaded : dict string) (w : World),
    download_loop item (done ++ rest) target_dir downloaded w
    = match download_loop item done target_dir downloaded w with
      | (Returned d, w') => download_loop item rest target_dir d w'
      | (Raised e, w') => (Raised e, w')
      end.
Proof.
  induction done as [|band done IH]; intros downloaded w.
  - reflexivity.
  - rewrite <- app_comm_cons, !download_loop_cons.
    destruct (dict_get (assets item) _) as [asset|]; [|reflexivity].
    destruct (dict_get asset "href") as [href|]; [|reflexivity].
    destruct (fetch_to_file href _ w) as [[[]|e] w1]; [|reflexivity].
    apply IH.
Qed.

(** With downloads that succeed, the loop returns, and the dictionary
    holds the file of every band of the list and is unchanged elsewhere. *)
Lemma download_loop_returns (item : StacItem Geometry) (target_dir : string)
    (bands : list string) :
  (forall href destination w,
      exists w', fetch_to_file href destination w = (Returned tt, w')) ->
  (forall band, In band bands -> resolvable item band) ->
  forall (downloaded : dict string) (w : World),
  exists d w',
    download_loop item bands target_dir downloaded w = (Returned d, w')
    /\ forall key,
        (In key bands ->
         dict_get d key = Some (band_file item target_dir key))
        /\ (~ In key bands -> dict_get d key = dict_get downloaded key).
Proof.
  intros Hfetch. induction bands as [|band rest IH];
    intros Hres downloaded w.
  - exists downloaded, w. split; [reflexivity|].
    intros key. split; [intros []|reflexivity].
  - destruct (Hres band (or_introl eq_refl)) as (asset & href & Hasset & Hhref).
    rewrite download_loop_cons, Hasset, Hhref.
    destruct (Hfetch href (band_file item target_dir band) w) as [w1 Hw1].
    rewrite Hw1.
    destruct (IH (fun b Hb => Hres b (or_intror Hb))
                 (dict_set downloaded band (band_file item target_dir band))
                 w1)
      as (d & w' & Hrun & Hkeys).
    exists d, w'. split; [exact Hrun|].
    intros key. destruct (Hkeys key) as [Hin Hout].
    destruct (in_dec string_dec key rest) as [Hrest|Hrest].
    + split; [intros _; now apply Hin|].
      intros Hn. exfalso. apply Hn. now right.
    + rewrite (Hout Hrest), dict_get_set.
      destruct (String.eqb band key) eqn:E.
      * apply String.eqb_eq in E. subst key.
        split; [reflexivity|]. intros Hn. exfalso. apply Hn. now left.
      * apply String.eqb_neq in E. split; [|reflexivity].
        intros [Heq|Hin']; [contradiction|contradiction].
Qed.

(** X10.  When every requested band can be resolved among the assets of
    the item (under its own key, or else under its key with the prefix B)
    and no download fails, [download_bands] returns a dictionary whose keys
    are exactly the requested bands, each mapped to
    [target_dir / "{item.id}_{band}.tif"]: key and file name carry the band
    as requested, also when the asset was found under the prefixed key. *)
Theorem download_bands_returns_requested_bands :
  forall (item : StacItem Geometry) (bands : list string)
         (target_dir : string) (w : World),
    (forall href destination w0,
        exists w', fetch_to_file href destination w0 = (Returned tt, w')) ->
    (forall band, In band bands -> resolvable item band) ->
    exists downloaded w',
      download_bands item bands target_dir w = (Returned downloaded, w')
      /\ forall key,
          (In key bands ->
           dict_get downloaded key = Some (band_file item target_dir key))
          /\ (~ In key bands -> dict_get downloaded key = None).
Proof.
  intros item bands target_dir w Hfetch Hres.
  exact (download_loop_returns item target_dir bands Hfetch Hres [] w).
Qed.

(** X11.  [download_bands] stops at the first band that is among the
    assets neither under its key nor under its key with the prefix B: it
    raises [KeyError] with the message naming the band and the item, and
    the outside world is then as the downloads of the bands before it have
    left it; no later band is requested. *)
Theorem download_bands_missing_asset :
  forall (item : StacItem Geometry) (done rest : list string)
         (band target_dir : string) (w w' : World) (downloaded : dict string),
    download_bands item done target_dir w = (Returned downloaded, w') ->
    dict_in band (assets item) = false ->
    dict_in ("B" ++ band)%string (assets item) = false ->
    download_bands item (done ++ band :: rest) target_dir w
    = (Raised (KeyError ("Asset " ++ band ++ " not found in item "
                         ++ id item)%string), w').
Proof.
  intros item done rest band target_dir w w' downloaded Hdone Hband Hprefixed.
  unfold Run.download_bands in *.
  rewrite download_loop_app, Hdone, download_loop_cons.
  unfold asset_key_of. rewrite Hband. unfold dict_in in Hprefixed.
  destruct (dict_get (assets item) ("B" ++ band)%string); [discriminate|].
  reflexivity.
Qed.

End Download.

Lemma download_bands_returns_requested_bands_witness :
  exists downloaded w',
    Run.download_bands Mock.World unit Mock.joinpath Mock.fetch_to_file
      (Mock.scene "before") ["08"; "SCL"]%string "out/pre"%string []
    = (Returned downloaded, w')
    /\ dict_get downloaded "08" = Some "out/pre/before_08.tif"%string
    /\ dict_get downloaded "B08" = None.
Proof.
  destruct (download_bands_returns_requested_bands
              Mock.World unit Mock.joinpath Mock.fetch_to_file
              (Mock.scene "before") ["08"; "SCL"]%string "out/pre"%string [])
    as (downloaded & w' & Hrun & Hkeys).
  - intros href destination w0. eexists. reflexivity.
  - intros band [<-|[<-|[]]]; do 2 eexists; split; reflexivity.
  - exists downloaded, w'. split; [exact Hrun|]. split.
    + apply (proj1 (Hkeys "08"%string)). simpl. auto.
    + apply (proj2 (Hkeys "B08"%string)).
      intros [H|[H|[]]]; discriminate.
Defined.

Lemma download_bands_missing_asset_witness :
  Run.download_bands Mock.World unit Mock.joinpath Mock.fetch_to_file
    (Mock.scene "before") ["B08"; "B11"; "B12"]%string "out/pre"%string []
  = (Raised (KeyError "Asset B11 not found in item before"),
     ["GET https://example.org/before/B08"]%string).
Proof.
  exact (download_bands_missing_asset
           Mock.World unit Mock.joinpath Mock.fetch_to_file
           (Mock.scene "before") ["B08"]%string ["B12"]%string
           "B11"%string "out/pre"%string [] _ _
           eq_refl eq_refl eq_refl).
Defined.

(** ** The run of [download_and_prepare] *)

Lemma shape_differs_false {A B} (a : ndarray A) (b : ndarray B) :
  shape_differs a b = false <-> shape a = shape b.
Proof.
  unfold shape_differs, nrows, ncols.
  destruct (shape a) as [r c], (shape b) as [r' c']. simpl.
  rewrite negb_false_iff, andb_true_iff, !Nat.eqb_eq.
  split; [intros [-> ->]; reflexivity|intros H; inversion H; auto].
Qed.

Lemma shape_differs_true {A B} (a : ndarray A) (b : ndarray B) :
  shape_differs a b = true <-> shape a <> shape b.
Proof.
  rewrite <- shape_differs_false. destruct (shape_differs a b); split;
    congruence.
Qed.

Lemma setitem_bool_same_shape {A} (arr : ndarray A) (mask : ndarray bool)
    (v : A) :
  shape arr = shape mask ->
  setitem_bool arr mask v = Ok (setitem_mask arr mask v).
Proof.
  intros H. unfold setitem_bool.
  now rewrite (proj2 (shape_differs_false arr mask) H).
Qed.

Lemma setitem_bool_other_shape {A} (arr : ndarray A) (mask : ndarray bool)
    (v : A) :
  shape arr <> shape mask -> setitem_bool arr mask v = Raise IndexError.
Proof.
  intros H. unfold setitem_bool.
  now rewrite (proj2 (shape_differs_true arr mask) H).
Qed.

Lemma getitem_setitem_mask {A} (arr : ndarray A) (mask : ndarray bool)
    (v x : A) (m : bool) (i j : nat) :
  shape arr = shape mask ->
  getitem arr i j = Some x -> getitem mask i j = Some m ->
  getitem (setitem_mask arr mask v) i j = Some (if m then v else x).
Proof.
  intros Hs Hx Hm.
  apply getitem_inv in Hx. destruct Hx as (Hi & Hj & Hx).
  apply getitem_inv in Hm. destruct Hm as (_ & _ & Hm).
  unfold ncols in Hm. rewrite <- Hs in Hm.
  rewrite getitem_intro by exact Hi || exact Hj.
  unfold setitem_mask, ncols. simpl.
  now apply nth_error_masked_fill.
Qed.

(** [calculate_nbr] on two arrays of one shape, as [_compute_nbr] calls
    it. *)
Lemma nbr_of_same_shape (a b : ndarray npfloat) :
  shape a = shape b ->
  exists res,
    nbr_of a b = Ok res
    /\ shape res = shape a
    /\ forall i j x y,
        getitem a i j = Some x -> getitem b i j = Some y ->
        getitem res i j
        = Some (if negb (isfinite (fl_div (fl_sub x y) (fl_add x y)))
                then NaN else fl_div (fl_sub x y) (fl_add x y)).
Proof.
  intros Hs.
  destruct (calculate_nbr_run [a; b] 0%nat 1%nat a b eq_refl eq_refl Hs)
    as (out & h' & res & Hrun & Hres & Hshape & Hpix).
  exists res. unfold nbr_of. rewrite Hrun, Hres. auto.
Qed.

(** The shape of an array of one dimension has one entry: it is the last
    one, and there is none before it. *)
Lemma take_singleton_last {A} (x : A) : take [x] (-1) = Ok x.
Proof. reflexivity. Qed.

Lemma take_singleton_before_last {A} (x : A) : take [x] (-2) = Raise IndexError.
Proof. reflexivity. Qed.

Section RunProperties.

Variable World : Type.
Variable Geometry : Type.
Variable joinpath : string -> string -> string.
Variable mkdir : string -> IO World unit.
Variable fetch_to_file : string -> string -> IO World unit.
Variable search :
  Geometry -> string -> string -> list string -> Z -> Z
  -> IO World (list (StacItem Geometry)).
Variable rasterio_read :
  string -> IO World (ndarray npfloat * (Q * Q * Q * Q * Q * Q) * string).
Variable rasterio_read_resampled :
  string -> nat * nat
  -> IO World (ndarray npfloat * (Q * Q * Q * Q * Q * Q) * Z * Z).

Local Abbreviation download_bands :=
  (Run.download_bands World Geometry joinpath fetch_to_file).
Local Abbreviation _load_raster := (Run._load_raster World rasterio_read).
Local Abbreviation _resample_to_match :=
  (Run._resample_to_match World rasterio_read_resampled).
Local Abbreviation _compute_nbr :=
  (Run._compute_nbr World rasterio_read_resampled).
Local Abbreviation _build_cloud_mask :=
  (Run._build_cloud_mask World rasterio_read_resampled).
Local Abbreviation acquire_bands :=
  (Run.acquire_bands World Geometry joinpath mkdir fetch_to_file search
                     rasterio_read).
Local Abbreviation mask_clouds :=
  (Run.mask_clouds World rasterio_read rasterio_read_resampled).
Local Abbreviation derive_products :=
  (Run.derive_products World joinpath rasterio_read_resampled).
Local Abbreviation download_and_prepare :=
  (Run.download_and_prepare World Geometry joinpath mkdir fetch_to_file
                            search rasterio_read rasterio_read_resampled).

(** X12.  The searches come first.  When the catalogue has no item for
    the first window, or has one for the first and none for the second,
    [download_and_prepare] raises [RuntimeError], and the outside world is
    then as the directory creation and these one or two searches have left
    it: nothing has been downloaded or read. *)
Theorem download_and_prepare_without_items :
  forall (geometry : Geometry) (pre_window post_window : string * string)
         (target_dir : string) (cloud_cover : Z) (bands : list string)
         (apply_cloud_mask : bool) (cloudy_classes : list Z) (w0 w1 : World),
    mkdir target_dir w0 = (Returned tt, w1) ->
    (forall w2,
        search geometry (fst pre_window) (snd pre_window)
               ["sentinel-2-l2a"%string] cloud_cover 1%Z w1
        = (Returned [], w2) ->
        download_and_prepare geometry pre_window post_window target_dir
          cloud_cover bands apply_cloud_mask cloudy_classes w0
        = (Raised (RuntimeError
                     "No Sentinel-2 items found for requested window and AOI"),
           w2))
    /\ (forall first more w2 w3,
           search geometry (fst pre_window) (snd pre_window)
                  ["sentinel-2-l2a"%string] cloud_cover 1%Z w1
           = (Returned (first :: more), w2) ->
           search geometry (fst post_window) (snd post_window)
                  ["sentinel-2-l2a"%string] cloud_cover 1%Z w2
           = (Returned [], w3) ->
           download_and_prepare geometry pre_window post_window target_dir
             cloud_cover bands apply_cloud_mask cloudy_classes w0
           = (Raised (RuntimeError
                        "No Sentinel-2 items found for requested window and AOI"),
              w3)).
Proof.
  intros geometry pre_window post_window target_dir cloud_cover bands
         apply_cloud_mask cloudy_classes w0 w1 Hmkdir.
  split.
  - intros w2 Hpre.
    unfold Run.download_and_prepare, Run.acquire_bands, Run._fetch_item,
      io_bind.
    rewrite Hmkdir. cbv beta iota. rewrite Hpre. reflexivity.
  - intros first more w2 w3 Hpre Hpost.
    unfold Run.download_and_prepare, Run.acquire_bands, Run._fetch_item,
      io_bind.
    rewrite Hmkdir. cbv beta iota. rewrite Hpre. cbv beta iota.
    unfold io_ret at 1. cbv beta iota. rewrite Hpost. reflexivity.
Qed.

(** *** Resampling

    [_resample_to_match] does not return.  The read of the band may fail;
    when it succeeds, [[0]] fails on a band without rows, the division by
    [data.shape[-1]] fails on a row without elements, and otherwise
    [data.shape[-2]] fails.  The outside world is as the read has left
    it. *)
Lemma resample_to_match_raises (source target : RasterProduct npfloat)
    (w : World) :
  exists e,
    _resample_to_match source target w
    = (Raised e,
       snd (rasterio_read_resampled (path source) (shape (array target)) w)).
Proof.
  unfold Run._resample_to_match, io_bind.
  destruct (rasterio_read_resampled (path source) (shape (array target)) w)
    as [[[[[band t] width] height]|e] w']; [|now exists e].
  cbn [snd].
  destruct (getrow band 0) as [row|e]; [|now eexists].
  cbn [io_lift io_ret].
  rewrite take_singleton_last, take_singleton_before_last.
  cbn [io_lift io_ret]. unfold int_truediv.
  destruct (Z.of_nat (length row) =? 0)%Z; now eexists.
Qed.

(** The row of a band that has rows is as long as the band is wide. *)
Lemma getrow_first_length {A} (band : ndarray A) :
  wf band -> (0 < nrows band)%nat ->
  exists row, getrow band 0 = Ok row /\ length row = ncols band.
Proof.
  intros Hwf Hrows. unfold getrow.
  rewrite (proj2 (Nat.ltb_lt 0 (nrows band)) Hrows).
  eexists. split; [reflexivity|].
  cbn [Nat.mul skipn]. rewrite length_firstn.
  unfold wf, size in Hwf. nia.
Qed.

Lemma resample_to_match_index_error (source target : RasterProduct npfloat)
    (w w' : World) (band : ndarray npfloat) (t : Q * Q * Q * Q * Q * Q)
    (width height : Z) :
  rasterio_read_resampled (path source) (shape (array target)) w
  = (Returned (band, t, width, height), w') ->
  wf band -> (0 < ncols band)%nat ->
  _resample_to_match source target w = (Raised (ArrayError IndexError), w').
Proof.
  intros Hread Hwf Hcols.
  unfold Run._resample_to_match, io_bind. rewrite Hread.
  destruct (Nat.eq_dec (nrows band) 0) as [Hrows|Hrows].
  - unfold getrow. rewrite Hrows. reflexivity.
  - destruct (getrow_first_length band Hwf) as (row & Hrow & Hlen); [lia|].
    rewrite Hrow. cbn [io_lift io_ret].
    rewrite take_singleton_last, take_singleton_before_last.
    cbn [io_lift io_ret]. unfold int_truediv.
    replace (Z.of_nat (length row) =? 0)%Z with false
      by (symmetry; apply Z.eqb_neq; lia).
    reflexivity.
Qed.

(** X13.  [_compute_nbr] cannot resample.  When the shapes of the two
    bands differ it never returns a burn ratio: the file behind
    [swir.path] is opened and read at the shape of the NIR band, and the
    call ends with an error, the outside world being as this read has left
    it.  When the read returns a band with at least one column, the error
    is the [IndexError] of [[0]] or of [data.shape[-2]]; when it returns a
    band with rows and no column, it is the [ZeroDivisionError] of the
    division by [data.shape[-1]]. *)
Theorem compute_nbr_differing_shapes_raises :
  forall (nir swir : RasterProduct npfloat) (w : World),
    shape_differs (array nir) (array swir) = true ->
    (exists e,
        _compute_nbr nir swir w
        = (Raised e,
           snd (rasterio_read_resampled (path swir) (shape (array nir)) w)))
    /\ (forall band t width height w',
           rasterio_read_resampled (path swir) (shape (array nir)) w
           = (Returned (band, t, width, height), w') ->
           wf band -> (0 < ncols band)%nat ->
           _compute_nbr nir swir w = (Raised (ArrayError IndexError), w'))
    /\ (forall band t width height w',
           rasterio_read_resampled (path swir) (shape (array nir)) w
           = (Returned (band, t, width, height), w') ->
           (0 < nrows band)%nat -> ncols band = 0%nat ->
           _compute_nbr nir swir w = (Raised ZeroDivisionError, w')).
Proof.
  intros nir swir w Hd. split; [|split].
  - destruct (resample_to_match_raises swir nir w) as (e & He).
    exists e. unfold Run._compute_nbr, io_bind. now rewrite Hd, He.
  - intros band t width height w' Hread Hwf Hcols.
    unfold Run._compute_nbr, io_bind. rewrite Hd.
    now rewrite (resample_to_match_index_error swir nir w w' band t width
                   height Hread Hwf Hcols).
  - intros band t width height w' Hread Hrows Hcols.
    unfold Run._compute_nbr, Run._resample_to_match, io_bind.
    rewrite Hd, Hread. unfold getrow.
    rewrite (proj2 (Nat.ltb_lt 0 (nrows band)) Hrows), Hcols.
    cbn [firstn io_lift io_ret length]. rewrite take_singleton_last.
    reflexivity.
Qed.

(** *** The stages of a run on bands of one shape *)

Lemma load_raster_unscaled (p : string) (w w' : World)
    (a : ndarray npfloat) (t : Q * Q * Q * Q * Q * Q) (c : string) :
  rasterio_read p w = (Returned (a, t, c), w') ->
  _load_raster p false w = (Returned (mkRasterProduct p a t c), w').
Proof.
  intros H. unfold Run._load_raster, io_bind. now rewrite H.
Qed.

Lemma build_cloud_mask_same_shape (scl target : RasterProduct npfloat)
    (cloudy_classes : list Z) (w : World) :
  shape (array scl) = shape (array target) ->
  _build_cloud_mask scl target cloudy_classes w
  = (Returned (np_map (np_isin cloudy_classes) (array scl)), w).
Proof.
  intros H. unfold Run._build_cloud_mask, io_bind.
  now rewrite (proj2 (shape_differs_false _ _) H).
Qed.

Lemma compute_nbr_same_shape (nir swir : RasterProduct npfloat) (w : World) :
  shape (array nir) = shape (array swir) ->
  exists nbr,
    _compute_nbr nir swir w
    = (Returned (mkRasterProduct (path swir) nbr (transform nir) (crs nir)), w)
    /\ shape nbr = shape (array nir)
    /\ forall i j x y,
        getitem (array nir) i j = Some x ->
        getitem (array swir) i j = Some y ->
        getitem nbr i j = Some (nbr_pixel x y).
Proof.
  intros Hs.
  destruct (nbr_of_same_shape (array nir) (array swir) Hs)
    as (nbr & Hnbr & Hnshape & Hpix).
  exists nbr. split; [|split; [exact Hnshape|exact Hpix]].
  unfold Run._compute_nbr, io_bind.
  rewrite (proj2 (shape_differs_false _ _) Hs).
  unfold io_ret at 1. cbv beta iota. rewrite Hnbr. reflexivity.
Qed.

(** The end of a run on four bands of one shape: nothing is read or
    written, and every pixel of the dNBR is the difference of the two burn
    ratios. *)
Lemma derive_products_same_shape (target_dir : string) (b : Bands)
    (w : World) :
  shape (array (pre_swir b)) = shape (array (pre_nir b)) ->
  shape (array (post_swir b)) = shape (array (post_nir b)) ->
  shape (array (post_nir b)) = shape (array (pre_nir b)) ->
  exists r sev,
    derive_products target_dir b w = (Returned r, w)
    /\ severity r = Some sev
    /\ array sev = classify_dnbr (array (dnbr r))
    /\ nir (pre r) = pre_nir b /\ swir (pre r) = pre_swir b
    /\ nir (post r) = post_nir b /\ swir (post r) = post_swir b
    /\ shape (array (dnbr r)) = shape (array (pre_nir b))
    /\ forall i j x1 x2 x3 x4,
        getitem (array (pre_nir b)) i j = Some x1 ->
        getitem (array (pre_swir b)) i j = Some x2 ->
        getitem (array (post_nir b)) i j = Some x3 ->
        getitem (array (post_swir b)) i j = Some x4 ->
        getitem (array (dnbr r)) i j
        = Some (fl_sub (nbr_pixel x1 x2) (nbr_pixel x3 x4)).
Proof.
  intros Hpre Hpost Hboth.
  destruct (compute_nbr_same_shape (pre_nir b) (pre_swir b) w (eq_sym Hpre))
    as (n1 & Hn1 & Hs1 & Hp1).
  destruct (compute_nbr_same_shape (post_nir b) (post_swir b) w (eq_sym Hpost))
    as (n2 & Hn2 & Hs2 & Hp2).
  assert (Hs12 : shape n1 = shape n2) by congruence.
  destruct (broadcast2_same_shape NaN NaN fl_sub n1 n2 Hs12)
    as (d & Hd & Hdshape & _ & Hdpix).
  do 2 eexists.
  split.
  { unfold Run.derive_products, io_bind.
    rewrite Hn1. cbv beta iota. rewrite Hn2. cbv beta iota.
    cbn [array]. unfold calculate_dnbr. rewrite Hd. reflexivity. }
  cbn [severity dnbr array pre post nir swir].
  repeat (split; [reflexivity|]).
  split; [congruence|].
  intros i j x1 x2 x3 x4 H1 H2 H3 H4.
  exact (Hdpix i j _ _ (Hp1 i j x1 x2 H1 H2) (Hp2 i j x3 x4 H3 H4)).
Qed.

(** The masking on bands and scene classifications of one shape per
    epoch: two files are read, and each band gets the mask of its epoch. *)
Lemma mask_clouds_same_shape (pre_paths post_paths : dict string) (b : Bands)
    (cloudy_classes : list Z) (p1 p2 : string) (w1 w2 w3 : World)
    (scl1 scl2 : ndarray npfloat) (t1 t2 : Q * Q * Q * Q * Q * Q)
    (c1 c2 : string) :
  dict_get pre_paths "SCL" = Some p1 ->
  dict_get post_paths "SCL" = Some p2 ->
  rasterio_read p1 w1 = (Returned (scl1, t1, c1), w2) ->
  rasterio_read p2 w2 = (Returned (scl2, t2, c2), w3) ->
  shape scl1 = shape (array (pre_nir b)) ->
  shape (array (pre_swir b)) = shape (array (pre_nir b)) ->
  shape scl2 = shape (array (post_nir b)) ->
  shape (array (post_swir b)) = shape (array (post_nir b)) ->
  mask_clouds pre_paths post_paths b cloudy_classes w1
  = (Returned
       (mkBands
          (with_array (pre_nir b)
             (setitem_mask (array (pre_nir b))
                           (np_map (np_isin cloudy_classes) scl1) NaN))
          (with_array (pre_swir b)
             (setitem_mask (array (pre_swir b))
                           (np_map (np_isin cloudy_classes) scl1) NaN))
          (with_array (post_nir b)
             (setitem_mask (array (post_nir b))
                           (np_map (np_isin cloudy_classes) scl2) NaN))
          (with_array (post_swir b)
             (setitem_mask (array (post_swir b))
                           (np_map (np_isin cloudy_classes) scl2) NaN))),
     w3).
Proof.
  intros Hp1 Hp2 Hr1 Hr2 Hs1 Hsw1 Hs2 Hsw2.
  unfold Run.mask_clouds, io_bind, dict_item.
  rewrite Hp1. unfold io_ret at 1. cbv beta iota.
  rewrite (load_raster_unscaled p1 w1 w2 scl1 t1 c1 Hr1). cbv beta iota.
  rewrite Hp2. unfold io_ret at 1. cbv beta iota.
  rewrite (load_raster_unscaled p2 w2 w3 scl2 t2 c2 Hr2). cbv beta iota.
  rewrite build_cloud_mask_same_shape by exact Hs1. cbv beta iota.
  rewrite build_cloud_mask_same_shape by exact Hs2. cbv beta iota.
  cbn [array].
  rewrite !setitem_bool_same_shape by (cbn [np_map shape]; congruence).
  reflexivity.
Qed.

(** X14.  With the cloud mask applied, on bands and scene classifications
    of one shape, [download_and_prepare] returns after the acquisition and
    the reading of the two scene classifications, without any resampling.
    A pixel whose class is a cloudy one in either epoch is NaN in the dNBR
    and has the sentinel 255 in the severity raster; at every other pixel
    the dNBR is the burn ratio before minus the burn ratio after.  The
    severity raster is the classification of the dNBR raster. *)
Theorem download_and_prepare_masks_clouds :
  forall (geometry : Geometry) (pre_window post_window : string * string)
         (target_dir : string) (cloud_cover : Z) (bands : list string)
         (cloudy_classes : list Z) (w0 w1 w2 w3 : World)
         (pre_paths post_paths : dict string) (b : Bands) (p1 p2 : string)
         (scl1 scl2 : ndarray npfloat) (t1 t2 : Q * Q * Q * Q * Q * Q)
         (c1 c2 : string),
    acquire_bands geometry pre_window post_window target_dir cloud_cover bands
                  w0
    = (Returned (pre_paths, post_paths, b), w1) ->
    dict_get pre_paths "SCL" = Some p1 ->
    dict_get post_paths "SCL" = Some p2 ->
    rasterio_read p1 w1 = (Returned (scl1, t1, c1), w2) ->
    rasterio_read p2 w2 = (Returned (scl2, t2, c2), w3) ->
    shape scl1 = shape (array (pre_nir b)) ->
    shape (array (pre_swir b)) = shape (array (pre_nir b)) ->
    shape scl2 = shape (array (post_nir b)) ->
    shape (array (post_swir b)) = shape (array (post_nir b)) ->
    shape (array (post_nir b)) = shape (array (pre_nir b)) ->
    exists r sev,
      download_and_prepare geometry pre_window post_window target_dir
        cloud_cover bands true cloudy_classes w0
      = (Returned r, w3)
      /\ severity r = Some sev
      /\ array sev = classify_dnbr (array (dnbr r))
      /\ shape (array (dnbr r)) = shape (array (pre_nir b))
      /\ forall i j x1 x2 x3 x4 s1 s2,
          getitem (array (pre_nir b)) i j = Some x1 ->
          getitem (array (pre_swir b)) i j = Some x2 ->
          getitem (array (post_nir b)) i j = Some x3 ->
          getitem (array (post_swir b)) i j = Some x4 ->
          getitem scl1 i j = Some s1 ->
          getitem scl2 i j = Some s2 ->
          (np_isin cloudy_classes s1 || np_isin cloudy_classes s2 = true ->
           getitem (array (dnbr r)) i j = Some NaN
           /\ getitem (array sev) i j = Some 255%Z)
          /\ (np_isin cloudy_classes s1 || np_isin cloudy_classes s2 = false ->
              getitem (array (dnbr r)) i j
              = Some (fl_sub (nbr_pixel x1 x2) (nbr_pixel x3 x4))).
Proof.
  intros geometry pre_window post_window target_dir cloud_cover bands
         cloudy_classes w0 w1 w2 w3 pre_paths post_paths b p1 p2
         scl1 scl2 t1 t2 c1 c2
         Hacq Hp1 Hp2 Hr1 Hr2 Hs1 Hsw1 Hs2 Hsw2 Hboth.
  pose proof (mask_clouds_same_shape pre_paths post_paths b cloudy_classes
                p1 p2 w1 w2 w3 scl1 scl2 t1 t2 c1 c2
                Hp1 Hp2 Hr1 Hr2 Hs1 Hsw1 Hs2 Hsw2) as Hmask.
  set (m1 := np_map (np_isin cloudy_classes) scl1) in *.
  set (m2 := np_map (np_isin cloudy_classes) scl2) in *.
  set (b' := mkBands _ _ _ _) in Hmask.
  destruct (derive_products_same_shape target_dir b' w3)
    as (r & sev & Hrun & Hsev & Hclass & _ & _ & _ & _ & Hshape & Hpix).
  { cbn. congruence. }
  { cbn. congruence. }
  { cbn. congruence. }
  exists r, sev.
  split.
  { unfold Run.download_and_prepare, io_bind.
    rewrite Hacq. cbv beta iota.
    unfold dict_in. rewrite Hp1, Hp2. cbn [andb].
    rewrite Hmask. cbv beta iota. exact Hrun. }
  split; [exact Hsev|]. split; [exact Hclass|]. split; [exact Hshape|].
  intros i j x1 x2 x3 x4 s1 s2 H1 H2 H3 H4 Hc1 Hc2.
  assert (Hm1 : getitem m1 i j = Some (np_isin cloudy_classes s1))
    by (unfold m1; rewrite getitem_np_map, Hc1; reflexivity).
  assert (Hm2 : getitem m2 i j = Some (np_isin cloudy_classes s2))
    by (unfold m2; rewrite getitem_np_map, Hc2; reflexivity).
  assert (Hd : getitem (array (dnbr r)) i j
               = Some (fl_sub
                         (nbr_pixel
                            (masked_pixel (np_isin cloudy_classes s1) x1)
                            (masked_pixel (np_isin cloudy_classes s1) x2))
                         (nbr_pixel
                            (masked_pixel (np_isin cloudy_classes s2) x3)
                            (masked_pixel (np_isin cloudy_classes s2) x4)))).
  { apply Hpix; cbn [b' pre_nir pre_swir post_nir post_swir with_array array];
      unfold masked_pixel;
      apply getitem_setitem_mask; auto; unfold m1, m2; cbn [np_map shape];
      congruence. }
  split.
  - intros Hcloud.
    assert (Hnan : getitem (array (dnbr r)) i j = Some NaN).
    { rewrite Hd. f_equal.
      destruct (np_isin cloudy_classes s1); [reflexivity|].
      destruct (np_isin cloudy_classes s2); [|discriminate].
      unfold masked_pixel at 3 4.
      destruct (nbr_pixel _ _); reflexivity. }
    split; [exact Hnan|].
    rewrite Hclass. unfold classify_dnbr.
    now rewrite (getitem_classify_with _ BURN_SEVERITY_CLASSES i j NaN Hnan).
  - intros Hclear. apply orb_false_iff in Hclear. destruct Hclear as [E1 E2].
    rewrite Hd, E1, E2. reflexivity.
Qed.

(** A scene classification of another shape than its NIR band cannot be
    turned into a mask: the resampling raises. *)
Lemma build_cloud_mask_other_shape (scl target : RasterProduct npfloat)
    (cloudy_classes : list Z) (w : World) :
  shape (array scl) <> shape (array target) ->
  exists e,
    _build_cloud_mask scl target cloudy_classes w
    = (Raised e,
       snd (rasterio_read_resampled (path scl) (shape (array target)) w)).
Proof.
  intros H. unfold Run._build_cloud_mask, io_bind.
  rewrite (proj2 (shape_differs_true _ _) H).
  destruct (resample_to_match_raises scl target w) as (e & He).
  exists e. now rewrite He.
Qed.

(** X15.  The cloud mask is written before any band is resampled.  With
    the mask applied and scene classifications of the shape of their NIR
    bands, a SWIR band of either epoch whose shape differs from the shape
    of its NIR band makes [download_and_prepare] raise [IndexError] as
    soon as the two scene classifications are read: the mask has the shape
    of the NIR band and is used as a boolean index into the SWIR band, and
    [_compute_nbr] is not reached.  When the scene classification before
    the fire has itself another shape than the NIR band, the run ends with
    the error of its resampling, before any mask is written. *)
Theorem download_and_prepare_masks_before_resampling :
  forall (geometry : Geometry) (pre_window post_window : string * string)
         (target_dir : string) (cloud_cover : Z) (bands : list string)
         (cloudy_classes : list Z) (w0 w1 w2 w3 : World)
         (pre_paths post_paths : dict string) (b : Bands) (p1 p2 : string)
         (scl1 scl2 : ndarray npfloat) (t1 t2 : Q * Q * Q * Q * Q * Q)
         (c1 c2 : string),
    acquire_bands geometry pre_window post_window target_dir cloud_cover bands
                  w0
    = (Returned (pre_paths, post_paths, b), w1) ->
    dict_get pre_paths "SCL" = Some p1 ->
    dict_get post_paths "SCL" = Some p2 ->
    rasterio_read p1 w1 = (Returned (scl1, t1, c1), w2) ->
    rasterio_read p2 w2 = (Returned (scl2, t2, c2), w3) ->
    (shape scl1 = shape (array (pre_nir b)) ->
     shape scl2 = shape (array (post_nir b)) ->
     shape (array (pre_swir b)) <> shape (array (pre_nir b))
     \/ shape (array (post_swir b)) <> shape (array (post_nir b)) ->
     download_and_prepare geometry pre_window post_window target_dir
       cloud_cover bands true cloudy_classes w0
     = (Raised (ArrayError IndexError), w3))
    /\ (shape scl1 <> shape (array (pre_nir b)) ->
        exists e,
          download_and_prepare geometry pre_window post_window target_dir
            cloud_cover bands true cloudy_classes w0
          = (Raised e,
             snd (rasterio_read_resampled p1 (shape (array (pre_nir b))) w3))).
Proof.
  intros geometry pre_window post_window target_dir cloud_cover bands
         cloudy_classes w0 w1 w2 w3 pre_paths post_paths b p1 p2
         scl1 scl2 t1 t2 c1 c2 Hacq Hp1 Hp2 Hr1 Hr2.
  assert (Hstart :
    download_and_prepare geometry pre_window post_window target_dir
      cloud_cover bands true cloudy_classes w0
    = io_bind
        (io_bind (_build_cloud_mask (mkRasterProduct p1 scl1 t1 c1)
                                    (pre_nir b) cloudy_classes)
           (fun pre_mask =>
            io_bind (_build_cloud_mask (mkRasterProduct p2 scl2 t2 c2)
                                       (post_nir b) cloudy_classes)
              (fun post_mask =>
               io_bind (io_lift (setitem_bool (array (pre_nir b)) pre_mask NaN))
                 (fun a1 =>
                  io_bind (io_lift (setitem_bool (array (pre_swir b))
                                                 pre_mask NaN))
                    (fun a2 =>
                     io_bind (io_lift (setitem_bool (array (post_nir b))
                                                    post_mask NaN))
                       (fun a3 =>
                        io_bind (io_lift (setitem_bool (array (post_swir b))
                                                       post_mask NaN))
                          (fun a4 =>
                           io_ret (mkBands (with_array (pre_nir b) a1)
                                           (with_array (pre_swir b) a2)
                                           (with_array (post_nir b) a3)
                                           (with_array (post_swir b) a4)))))))))
        (fun b' => derive_products target_dir b') w3).
  { unfold Run.download_and_prepare. unfold io_bind at 1.
    rewrite Hacq. cbv beta iota.
    unfold dict_in. rewrite Hp1, Hp2. cbn [andb].
    unfold Run.mask_clouds, dict_item. rewrite Hp1, Hp2.
    unfold io_bind at 1 2 3. unfold io_ret at 1. cbv beta iota.
    rewrite (load_raster_unscaled p1 w1 w2 scl1 t1 c1 Hr1). cbv beta iota.
    unfold io_bind at 1 2. unfold io_ret at 1. cbv beta iota.
    rewrite (load_raster_unscaled p2 w2 w3 scl2 t2 c2 Hr2). cbv beta iota.
    reflexivity. }
  rewrite Hstart. clear Hstart. split.
  - intros Hs1 Hs2 Hdiff. unfold io_bind.
    rewrite build_cloud_mask_same_shape by exact Hs1. cbv beta iota.
    rewrite build_cloud_mask_same_shape by exact Hs2. cbv beta iota.
    cbn [array].
    rewrite (setitem_bool_same_shape (array (pre_nir b)))
      by (cbn [np_map shape]; congruence).
    cbn [io_lift io_ret].
    destruct (shape_differs (array (pre_swir b))
                (np_map (np_isin cloudy_classes) scl1)) eqn:E1.
    + unfold setitem_bool. rewrite E1. reflexivity.
    + unfold setitem_bool at 1. rewrite E1. cbn [io_lift io_ret].
      rewrite (setitem_bool_same_shape (array (post_nir b)))
        by (cbn [np_map shape]; congruence).
      cbn [io_lift io_ret].
      rewrite (setitem_bool_other_shape (array (post_swir b))); [reflexivity|].
      apply shape_differs_false in E1. cbn [np_map shape] in *.
      destruct Hdiff as [Hdiff|Hdiff]; congruence.
  - intros Hs1.
    destruct (build_cloud_mask_other_shape (mkRasterProduct p1 scl1 t1 c1)
                (pre_nir b) cloudy_classes w3 Hs1) as (e & He).
    exists e. unfold io_bind. now rewrite He.
Qed.

(** X16.  The run reads its bands under the keys B08 and B12 of the
    downloaded files, which are the band names as requested.  When the
    requested bands do not include B08, [download_and_prepare] raises
    [KeyError] for B08 after both downloads have been made, also when the
    assets could be resolved through the prefix B (bands 08 and 12). *)
Theorem download_and_prepare_needs_band_B08 :
  forall (geometry : Geometry) (pre_window post_window : string * string)
         (target_dir : string) (cloud_cover : Z) (bands : list string)
         (apply_cloud_mask : bool) (cloudy_classes : list Z)
         (w0 w1 w2 w3 : World)
         (first_pre first_post : StacItem Geometry)
         (more_pre more_post : list (StacItem Geometry)),
    mkdir target_dir w0 = (Returned tt, w1) ->
    search geometry (fst pre_window) (snd pre_window)
           ["sentinel-2-l2a"%string] cloud_cover 1%Z w1
    = (Returned (first_pre :: more_pre), w2) ->
    search geometry (fst post_window) (snd post_window)
           ["sentinel-2-l2a"%string] cloud_cover 1%Z w2
    = (Returned (first_post :: more_post), w3) ->
    (forall href destination w,
        exists w', fetch_to_file href destination w = (Returned tt, w')) ->
    (forall band, In band bands ->
                  resolvable first_pre band /\ resolvable first_post band) ->
    ~ In "B08"%string bands ->
    exists w',
      download_and_prepare geometry pre_window post_window target_dir
        cloud_cover bands apply_cloud_mask cloudy_classes w0
      = (Raised (KeyError "B08"), w').
Proof.
  intros geometry pre_window post_window target_dir cloud_cover bands
         apply_cloud_mask cloudy_classes w0 w1 w2 w3 first_pre first_post
         more_pre more_post Hmkdir Hpre Hpost Hfetch Hres Hmissing.
  destruct (download_loop_returns World Geometry joinpath fetch_to_file
              first_pre (joinpath target_dir "pre") bands Hfetch
              (fun band Hb => proj1 (Hres band Hb)) [] w3)
    as (pre_paths & w4 & Hd1 & Hkeys1).
  destruct (download_loop_returns World Geometry joinpath fetch_to_file
              first_post (joinpath target_dir "post") bands Hfetch
              (fun band Hb => proj2 (Hres band Hb)) [] w4)
    as (post_paths & w5 & Hd2 & _).
  exists w5.
  unfold Run.download_and_prepare, Run.acquire_bands, Run._fetch_item,
    io_bind.
  rewrite Hmkdir. cbv beta iota. rewrite Hpre. cbv beta iota.
  unfold io_ret at 1. cbv beta iota. rewrite Hpost. cbv beta iota.
  unfold io_ret at 1. cbv beta iota.
  unfold Run.download_bands. rewrite Hd1. cbv beta iota.
  rewrite Hd2. cbv beta iota.
  unfold dict_item. rewrite (proj2 (Hkeys1 "B08"%string) Hmissing).
  reflexivity.
Qed.

(** The burn ratio of two reflectances of [[0, 1]] is NaN or lies in
    [[-1, 1]]. *)
Lemma nbr_pixel_reflectance (x y : npfloat) :
  fl_le (Fin 0) x = true -> fl_le x (Fin 1) = true ->
  fl_le (Fin 0) y = true -> fl_le y (Fin 1) = true ->
  nbr_pixel x y = NaN
  \/ exists q, nbr_pixel x y = Fin q /\ -1 <= q /\ q <= 1.
Proof.
  intros Hx0 Hx1 Hy0 Hy1.
  destruct (nbr_pixel_cases x y) as (Hinf & Hnan & Hrange).
  fold (nbr_pixel x y) in Hinf, Hnan, Hrange.
  destruct (fl_eq (fl_add x y) (Fin 0)) eqn:E.
  - left. assert (H : isnan (nbr_pixel x y) = true) by (apply Hnan; auto).
    destruct (nbr_pixel x y); try discriminate. reflexivity.
  - right. destruct (Hrange Hx0 Hx1 Hy0 Hy1 eq_refl) as [Hlo Hhi].
    destruct (nbr_pixel x y) as [| | |q]; try discriminate.
    exists q. simpl in Hlo, Hhi.
    apply Qle_bool_iff in Hlo. apply Qle_bool_iff in Hhi.
    split; [reflexivity|]. split; lra.
Qed.

(** X17.  Without masking nothing but the four bands is read.  When the
    mask is switched off, or when SCL is not among the downloaded files of
    both epochs, [download_and_prepare] reads no scene classification and
    leaves the bands as loaded; on four bands of one shape it returns with
    the outside world as the acquisition left it, every pixel of the dNBR
    is the burn ratio before minus the burn ratio after, and for
    reflectances of [[0, 1]] this pixel is NaN or lies in [[-2, 2]]. *)
Theorem download_and_prepare_without_mask :
  forall (geometry : Geometry) (pre_window post_window : string * string)
         (target_dir : string) (cloud_cover : Z) (bands : list string)
         (apply_cloud_mask : bool) (cloudy_classes : list Z) (w0 w1 : World)
         (pre_paths post_paths : dict string) (b : Bands),
    acquire_bands geometry pre_window post_window target_dir cloud_cover bands
                  w0
    = (Returned (pre_paths, post_paths, b), w1) ->
    apply_cloud_mask && dict_in "SCL" pre_paths && dict_in "SCL" post_paths
    = false ->
    shape (array (pre_swir b)) = shape (array (pre_nir b)) ->
    shape (array (post_swir b)) = shape (array (post_nir b)) ->
    shape (array (post_nir b)) = shape (array (pre_nir b)) ->
    exists r sev,
      download_and_prepare geometry pre_window post_window target_dir
        cloud_cover bands apply_cloud_mask cloudy_classes w0
      = (Returned r, w1)
      /\ nir (pre r) = pre_nir b /\ swir (pre r) = pre_swir b
      /\ nir (post r) = post_nir b /\ swir (post r) = post_swir b
      /\ severity r = Some sev
      /\ array sev = classify_dnbr (array (dnbr r))
      /\ forall i j x1 x2 x3 x4,
          getitem (array (pre_nir b)) i j = Some x1 ->
          getitem (array (pre_swir b)) i j = Some x2 ->
          getitem (array (post_nir b)) i j = Some x3 ->
          getitem (array (post_swir b)) i j = Some x4 ->
          getitem (array (dnbr r)) i j
          = Some (fl_sub (nbr_pixel x1 x2) (nbr_pixel x3 x4))
          /\ (fl_le (Fin 0) x1 && fl_le x1 (Fin 1)
              && fl_le (Fin 0) x2 && fl_le x2 (Fin 1)
              && fl_le (Fin 0) x3 && fl_le x3 (Fin 1)
              && fl_le (Fin 0) x4 && fl_le x4 (Fin 1) = true ->
              fl_sub (nbr_pixel x1 x2) (nbr_pixel x3 x4) = NaN
              \/ exists q,
                  fl_sub (nbr_pixel x1 x2) (nbr_pixel x3 x4) = Fin q
                  /\ -2 <= q /\ q <= 2).
Proof.
  intros geometry pre_window post_window target_dir cloud_cover bands
         apply_cloud_mask cloudy_classes w0 w1 pre_paths post_paths b
         Hacq Hskip Hpre Hpost Hboth.
  destruct (derive_products_same_shape target_dir b w1 Hpre Hpost Hboth)
    as (r & sev & Hrun & Hsev & Hclass & Hn1 & Hs1 & Hn2 & Hs2 & _ & Hpix).
  exists r, sev.
  split.
  { unfold Run.download_and_prepare, io_bind.
    rewrite Hacq. cbv beta iota. rewrite Hskip.
    unfold io_ret at 1. cbv beta iota. exact Hrun. }
  repeat (split; [assumption|]).
  intros i j x1 x2 x3 x4 H1 H2 H3 H4.
  split; [exact (Hpix i j x1 x2 x3 x4 H1 H2 H3 H4)|].
  intros Hrange. repeat rewrite andb_true_iff in Hrange.
  destruct Hrange as [[[[[[[A1 A2] A3] A4] A5] A6] A7] A8].
  destruct (nbr_pixel_reflectance x1 x2 A1 A2 A3 A4) as [E1|(q1 & E1 & L1 & U1)];
    rewrite E1; [left; reflexivity|].
  destruct (nbr_pixel_reflectance x3 x4 A5 A6 A7 A8) as [E2|(q2 & E2 & L2 & U2)];
    rewrite E2; [left; reflexivity|].
  right. exists (q1 - q2). split; [reflexivity|]. split; lra.
Qed.

End RunProperties.

(** *** Runs in the example world *)

Lemma download_and_prepare_without_items_witness :
  Mock.download_and_prepare
    [("2024-06-01"%string, [Mock.scene "before"])]
    (Mock.files (one_pixel (Fin 2000)) 4 4)
    ["B08"; "B12"; "SCL"]%string true []
  = (Raised (RuntimeError
               "No Sentinel-2 items found for requested window and AOI"),
     ["mkdir out"; "search 2024-06-01"; "search 2024-07-01"]%string).
Proof.
  exact (proj2 (download_and_prepare_without_items
                  Mock.World unit Mock.joinpath Mock.mkdir Mock.fetch_to_file
                  (Mock.search [("2024-06-01"%string, [Mock.scene "before"])])
                  (Mock.rasterio_read (Mock.files (one_pixel (Fin 2000)) 4 4))
                  Mock.rasterio_read_resampled
                  tt Mock.pre_window Mock.post_window "out"%string 5%Z
                  ["B08"; "B12"; "SCL"]%string true [8; 9; 10; 11]%Z
                  [] _ eq_refl)
               (Mock.scene "before") [] _ _ eq_refl eq_refl).
Defined.

Lemma compute_nbr_differing_shapes_raises_witness :
  Run._compute_nbr Mock.World Mock.rasterio_read_resampled
    (mkRasterProduct "B08.tif" (one_pixel (Fin 0.8)) (0, 0, 0, 0, 0, 0)
                     "EPSG:32633")
    (mkRasterProduct "B12.tif" (mkArr (1, 2)%nat [Fin 0.2; NaN])
                     (0, 0, 0, 0, 0, 0) "EPSG:32633")
    []
  = (Raised (ArrayError IndexError), ["resample B12.tif"%string]).
Proof.
  refine (proj1 (proj2 (compute_nbr_differing_shapes_raises
                          Mock.World Mock.rasterio_read_resampled
                          (mkRasterProduct "B08.tif" (one_pixel (Fin 0.8))
                                           (0, 0, 0, 0, 0, 0) "EPSG:32633")
                          (mkRasterProduct "B12.tif"
                                           (mkArr (1, 2)%nat [Fin 0.2; NaN])
                                           (0, 0, 0, 0, 0, 0) "EPSG:32633")
                          [] eq_refl))
                _ _ _ _ _ eq_refl _ _).
  - reflexivity.
  - exact (Nat.lt_0_succ 0).
Defined.

Lemma download_and_prepare_masks_clouds_witness :
  exists r sev journal,
    Mock.download_and_prepare Mock.catalogue
      (Mock.files (one_pixel (Fin 2000)) 9 4)
      ["B08"; "B12"; "SCL"]%string true []
    = (Returned r, journal)
    /\ severity r = Some sev
    /\ getitem (array (dnbr r)) 0 0 = Some NaN
    /\ getitem (array sev) 0 0 = Some 255%Z.
Proof.
  destruct (download_and_prepare_masks_clouds
              Mock.World unit Mock.joinpath Mock.mkdir Mock.fetch_to_file
              (Mock.search Mock.catalogue)
              (Mock.rasterio_read (Mock.files (one_pixel (Fin 2000)) 9 4))
              Mock.rasterio_read_resampled
              tt Mock.pre_window Mock.post_window "out"%string 5%Z
              ["B08"; "B12"; "SCL"]%string [8; 9; 10; 11]%Z
              [] _ _ _ _ _ _ _ _ _ _ _ _ _ _
              eq_refl eq_refl eq_refl eq_refl eq_refl
              eq_refl eq_refl eq_refl eq_refl eq_refl)
    as (r & sev & Hrun & Hsev & _ & _ & Hpix).
  destruct (Hpix 0%nat 0%nat _ _ _ _ _ _
              eq_refl eq_refl eq_refl eq_refl eq_refl eq_refl)
    as [Hcloud _].
  exists r, sev. eexists.
  split; [exact Hrun|]. split; [exact Hsev|]. exact (Hcloud eq_refl).
Defined.

Lemma download_and_prepare_masks_before_resampling_witness :
  Mock.download_and_prepare Mock.catalogue
    (Mock.files (mkArr (1, 2)%nat [Fin 2000; Fin 2100]) 4 4)
    ["B08"; "B12"; "SCL"]%string true []
  = (Raised (ArrayError IndexError),
     [ "mkdir out"; "search 2024-06-01"; "search 2024-07-01";
       "GET https://example.org/before/B08";
       "GET https://example.org/before/B12";
       "GET https://example.org/before/SCL";
       "GET https://example.org/after/B08";
       "GET https://example.org/after/B12";
       "GET https://example.org/after/SCL";
       "read out/pre/before_B08.tif"; "read out/pre/before_B12.tif";
       "read out/post/after_B08.tif"; "read out/post/after_B12.tif";
       "read out/pre/before_SCL.tif"; "read out/post/after_SCL.tif"
     ]%string).
Proof.
  refine (proj1 (download_and_prepare_masks_before_resampling
                   Mock.World unit Mock.joinpath Mock.mkdir Mock.fetch_to_file
                   (Mock.search Mock.catalogue)
                   (Mock.rasterio_read
                      (Mock.files (mkArr (1, 2)%nat [Fin 2000; Fin 2100]) 4 4))
                   Mock.rasterio_read_resampled
                   tt Mock.pre_window Mock.post_window "out"%string 5%Z
                   ["B08"; "B12"; "SCL"]%string [8; 9; 10; 11]%Z
                   [] _ _ _ _ _ _ _ _ _ _ _ _ _ _
                   eq_refl eq_refl eq_refl eq_refl eq_refl)
                eq_refl eq_refl _).
  left. discriminate.
Defined.

Lemma download_and_prepare_needs_band_B08_witness :
  exists journal,
    Mock.download_and_prepare Mock.catalogue
      (Mock.files (one_pixel (Fin 2000)) 4 4)
      ["08"; "12"]%string false []
    = (Raised (KeyError "B08"), journal).
Proof.
  refine (download_and_prepare_needs_band_B08
            Mock.World unit Mock.joinpath Mock.mkdir Mock.fetch_to_file
            (Mock.search Mock.catalogue)
            (Mock.rasterio_read (Mock.files (one_pixel (Fin 2000)) 4 4))
            Mock.rasterio_read_resampled
            tt Mock.pre_window Mock.post_window "out"%string 5%Z
            ["08"; "12"]%string false [8; 9; 10; 11]%Z
            [] _ _ _ (Mock.scene "before") (Mock.scene "after") [] []
            eq_refl eq_refl eq_refl _ _ _).
  - intros href destination w. eexists. reflexivity.
  - intros band [<-|[<-|[]]]; split; do 2 eexists; split; reflexivity.
  - intros [H|[H|[]]]; discriminate.
Defined.

Lemma download_and_prepare_without_mask_witness :
  exists r journal,
    Mock.download_and_prepare Mock.catalogue
      (Mock.files (one_pixel (Fin 2000)) 9 4)
      ["B08"; "B12"]%string true []
    = (Returned r, journal)
    /\ array (nir (pre r)) = one_pixel (fl_div (Fin 8000) (Fin 10000.0))
    /\ journal
       = [ "mkdir out"; "search 2024-06-01"; "search 2024-07-01";
           "GET https://example.org/before/B08";
           "GET https://example.org/before/B12";
           "GET https://example.org/after/B08";
           "GET https://example.org/after/B12";
           "read out/pre/before_B08.tif"; "read out/pre/before_B12.tif";
           "read out/post/after_B08.tif"; "read out/post/after_B12.tif"
         ]%string.
Proof.
  destruct (download_and_prepare_without_mask
              Mock.World unit Mock.joinpath Mock.mkdir Mock.fetch_to_file
              (Mock.search Mock.catalogue)
              (Mock.rasterio_read (Mock.files (one_pixel (Fin 2000)) 9 4))
              Mock.rasterio_read_resampled
              tt Mock.pre_window Mock.post_window "out"%string 5%Z
              ["B08"; "B12"]%string true [8; 9; 10; 11]%Z
              [] _ _ _ _
              eq_refl eq_refl eq_refl eq_refl eq_refl)
    as (r & sev & Hrun & Hnir & _).
  exists r. eexists. split; [exact Hrun|]. split; [|reflexivity].
  rewrite Hnir. reflexivity.
Defined.

(** ** The address of the catalogue *)

Lemma rstrip_replicate (c : Ascii.ascii) (n : nat) :
  rstrip c (replicate n c) = EmptyString.
Proof.
  induction n as [|n IH]; simpl; [reflexivity|].
  now rewrite IH, Ascii.eqb_refl.
Qed.

Lemma rstrip_append_replicate (c : Ascii.ascii) (s : string) (n : nat) :
  rstrip c (s ++ replicate n c) = rstrip c s.
Proof.
  induction s as [|a rest IH]; simpl.
  - apply rstrip_replicate.
  - now rewrite IH.
Qed.

Lemma rstrip_decompose (c : Ascii.ascii) (s : string) :
  exists n, s = (rstrip c s ++ replicate n c)%string.
Proof.
  induction s as [|a rest [n IH]]; simpl.
  - now exists 0%nat.
  - destruct (rstrip c rest) as [|b stripped] eqn:E.
    + destruct (Ascii.eqb a c) eqn:Eac.
      * apply Ascii.eqb_eq in Eac. subst a.
        exists (S n). simpl. now rewrite IH at 1.
      * exists n. simpl. now rewrite IH at 1.
    + exists n. simpl. now rewrite IH at 1.
Qed.

Lemma append_nonempty (t : string) (c : Ascii.ascii) :
  (t ++ String c EmptyString)%string <> EmptyString.
Proof. destruct t; discriminate. Qed.

Lemma rstrip_no_trailing (c : Ascii.ascii) (s : string) :
  forall t, rstrip c s <> (t ++ String c EmptyString)%string.
Proof.
  induction s as [|a rest IH]; intros t; simpl.
  - intros H. symmetry in H. exact (append_nonempty t c H).
  - destruct (rstrip c rest) as [|b stripped] eqn:E.
    + destruct (Ascii.eqb a c) eqn:Eac.
      * intros H. symmetry in H. exact (append_nonempty t c H).
      * apply Ascii.eqb_neq in Eac. destruct t as [|b' t']; simpl; intros H.
        -- inversion H. contradiction.
        -- inversion H as [[Ha Hrest]]. exact (append_nonempty t' c (eq_sym Hrest)).
    + destruct t as [|b' t']; simpl; intros H.
      * inversion H.
      * inversion H as [[Ha Hrest]]. exact (IH t' Hrest).
Qed.

(** X18.  The connector drops the slashes at the end of its base address
    and nothing else: the address it keeps never ends in a slash, the
    given address is the kept one followed by slashes only, and the
    address that [search] posts to is the same however many slashes are
    added at the end of the base address. *)
Theorem connector_base_url_normalized :
  forall given : string,
    (forall t,
        base_url (SentinelStacConnector_init given) <> (t ++ "/")%string)
    /\ (exists n,
           given
           = (base_url (SentinelStacConnector_init given)
              ++ replicate n "/"%char)%string)
    /\ (forall n,
           search_endpoint
             (SentinelStacConnector_init (given ++ replicate n "/"%char))
           = search_endpoint (SentinelStacConnector_init given)).
Proof.
  intros given. unfold search_endpoint, SentinelStacConnector_init. simpl.
  split; [apply rstrip_no_trailing|]. split; [apply rstrip_decompose|].
  intros n. now rewrite rstrip_append_replicate.
Qed.

Example search_endpoint_default :
  search_endpoint
    (SentinelStacConnector_init
       "https://catalogue.dataspace.copernicus.eu/stac//")
  = "https://catalogue.dataspace.copernicus.eu/stac/search"%string.
Proof. reflexivity. Qed.
